(* ===== verification/_CoqProject ===== *)
-Q . S2P
Prelude.v
JsValue.v
Http.v
UserStore.v
Crypto.v
Auth.v
Watchlist.v
Proxy.v
Client.v
Pages.v
HomeRace.v
Server.v
Interleave.v
Accounts.v
System.v
