(* ===== verification/Prelude.v ===== *)
(** * MovieHub: a verification development of the MovieHub web application

    The program (repository Honor697/MovieHub) has two source files.
    - [src/server/index.js] is an Express 4 server.  It keeps the user
      accounts in [users.json] ([readUsers], [writeUsers]).  It signs users
      up and logs them in with bcrypt hashes and JSON Web Tokens, checks
      bearer tokens in [authMiddleware], and toggles movies in a per-user
      watchlist.  It also proxies four read-only queries to TMDb and serves
      the client.
    - [src/client/app.js] is a single page.  It routes on the URL fragment,
      keeps the token in [localStorage], sends it through [apiFetch], and
      renders the server's answers.

    How the parts interact.  The page builds requests from its state
    (token, inputs, the movie clicked).  Express parses each request
    (JSON body, path, query) and runs the first matching route.  A route
    handler reads and writes the users file, or calls TMDb.  The answer
    returns to the page, which updates its state (a 401 drops the token)
    and what it shows.

    Files, in dependency order (each models one part; the Coq names keep
    the source's names where possible):
    - [Prelude] (this file): the scope [moviehub_scope], the hint
      database [moviehub], the tactic [case_code], [Array.find] and
      [Array.findIndex] ([js_find], [js_findIndex]) with their laws, and
      list lemmas.
    - [JsValue]: JavaScript values ([jval]) with truthiness, [===]
      ([strict_eq], notation [===]), property access, object spread,
      [JSON.stringify] then [JSON.parse] ([normalize]), [split], and
      decidable equality and countability of values.  Also [outcome], the
      way a piece of code ends: a value, an exception, or an [await] that
      never settles, with its monad instances, [try_catch], and the
      property access [prop] that throws on [null] and [undefined].
    - [Http]: what a handler can answer ([response]: JSON, a page, a
      synchronous throw answered 500, or an unanswered promise), plus
      [decodeURIComponent] and Express's query parser ([req_query]).
    - [UserStore]: the file as [file_state] with [readUsers], [writeUsers]
      and [ensureUsersFile] (index.js lines 28, 38-43).  The spec's store
      contract is the class [UserStoreSpec], with laws proved for the file.
    - [Crypto]: bcrypt and jsonwebtoken, which the server only calls, as
      type classes ([Bcrypt], [Jwt]) with laws ([BcryptLaws]: compare of
      a hash, 72-byte truncation; [JwtLaws]: verify of sign, expiry,
      unforgeability, token syntax), and computable instances that
      satisfy them.
    - [Auth]: [authMiddleware] (lines 46-57), signup (107-118), login
      (121-130) and me (133-138).  Signup is split at its [await] into
      [signup_begin] and [signup_finish].
    - [Watchlist]: the toggle rule [toggle] (lines 155-159) and the two
      watchlist routes (141-162).  A set of ids ([ids_of], [gset_toggle])
      is the abstract specification the toggle refines.
    - [Proxy]: the four TMDb routes (lines 60-103): the request each
      builds and the mapping of TMDb's answer.  TMDb is a function
      argument.
    - [Client]: the page state ([client_state]: hash and token),
      [apiFetch]'s header and 401 handling, the router, the watchlist
      button, the login, signup and account pages, the search URL,
      [fetchConfig], and the renderers of a banner, a row and a modal
      poster, each able to throw where the JavaScript does.
    - [Pages]: [fetchAndRenderHome] (lines 168-186, in its two steps that
      change the page, [home_start] and [home_fill]), [openModal]
      (222-249), [searchMovies] (270-281), logout and [init], as
      functions of the answers the page awaits.
    - [HomeRace]: two [fetchAndRenderHome] runs at once.  Their page
      steps are events ([home_event]), a schedule is any [interleaving]
      of the runs, and [home_events] plays it.
    - [Server]: startup (lines 14, 22-28); Express routing of every route in
      registration order, with static files and [GET *] ([route_of],
      [handle]); the users files reachable through any sequence of
      requests ([reachable]).
    - [Interleave]: the step relation [cstep] of a server whose signups
      may be suspended at their [await] and later resumed ([resume_step]),
      in any order.
    - [Accounts]: the account service the server implements, as an
      abstract specification: the registry of accounts by email and the
      sets of watchlist movie ids by user id ([astate], computed from the
      file by [abs]), what each request does to them ([astep], [arun]),
      and the login answered from the registry ([a_login]).
    - [System]: the login and signup buttons and the account page as
      handlers of the server's answers, and round trips from the page
      through the server and back.

    What the theorems show.
    - Watchlist: the toggle refines the set toggle; twice toggling
      restores the file; each branch of the handler (errors included); a
      [GET] after a [POST] answers the watchlist the [POST] returned.
    - Accounts: the server refines the abstract account service: on a file
      that satisfies the invariant, after any sequence of requests, the
      accounts and watchlists are those [arun] computes.  An account that
      can log in keeps exactly its login answer through any later
      requests.  Interleaved signups break the refinement: [Interleave]
      shows an answered signup whose account is lost.
    - Auth: each branch of signup and login; tokens round-trip for seven
      days; login failures are uniform; the middleware is sound; and what
      the code actually does with same-millisecond ids, the default secret
      and 72-byte passwords.
    - Server: every reachable file satisfies [server_inv].  It can be
      read, watchlists are arrays with distinct ids, and emails are
      distinct.  On such a file, every answer has the shape of spec
      sections 6 and 7 (no handler throws), and every request is answered
      except a signup or login whose password is not a string.
    - Bounds and equivalence: the token a signup answers is accepted up to
      a deadline between 604799000 (exclusive) and 604800000 milliseconds
      after the signup (floor division of the clock, [expiresIn: '7d']);
      [GET /api/watchlist] answers what [GET /auth/me] answers, its
      [watchlist] field on success and the same 401, 404 or crash.
    - Interleave: the invariant holds under every interleaving.  Two
      overlapping signups lose the first user, and a watchlist change
      made during a signup is lost.
    - Pages: the home page renders one row per list and the first item as
      the banner.  Its failure message can land in a hidden banner.  The
      modal shows the first trailer.
    - HomeRace: over every interleaving of two overlapping home renders
      (login, signup, logout and a first visit start one directly and one
      through the [hashchange] router), the rows appear once or, when the
      second render clears them before the first appends, twice.
    - Proxy and System: the caller's [api_key] replaces the server's key.
      A [..] route parameter moves a trending request to another TMDb
      path.  A search shows the results for exactly the text typed.
      During a TMDb outage, the home page shows empty rows and no message.
      Signup then toggle works end to end; a stored user logs in from the
      login page and sees their name, email and watchlist on the account
      page; and a rejected token sends the page to the login prompt.
    Each theorem with hypotheses has a witness that applies it to
    concrete inputs, computed with the toy instances of [Crypto].

    Bounds.  Every definition is structurally recursive, so there is no
    fuel.  JavaScript numbers are modelled as [Z]: ids and times are
    integers, and the code does no arithmetic that could overflow a
    double in the ranges it sees (millisecond clocks, list lengths).
    A [string] is the UTF-8 encoding of the text: [encodeURIComponent]
    percent-encodes each byte that is not unreserved, which is what
    JavaScript does to the UTF-8 bytes of each code point, and
    [decodeURIComponent] decodes the bytes back; it does not reject a
    decoded byte sequence that is not valid UTF-8, where JavaScript
    throws [URIError].

    Not modelled.  The DOM and CSS themselves (a render is the data it
    writes, an [alert] the string it shows; the static HTML of the login
    and signup cards is the route the router selects); the page steps of renders
    other than the home page's, which each action starts once;
    a [fetch] that fails at the network level; dotenv, [process.exit] and
    [app.listen]; response headers (CORS is modelled only as the 204
    answer to a preflight); the bytes of static files; the bcrypt and
    HMAC algorithms (only their laws); the NaN, fractional and infinite
    numbers of JavaScript; the bracket syntax of the query parser
    ([a[b]=c]).  A [HEAD] request gets the answer of [GET], body
    included, where Express sends the headers only.  An [async] handler
    that throws is an unanswered request ([NoResponse]) and the server
    keeps serving; on Node 15 and later the unhandled rejection ends the
    process.  [JwtLaws] describe the tokens this server signs, which
    always carry [exp]; a token signed with the secret elsewhere without
    [exp] would be accepted forever by [jwt.verify] and is not covered.
    Objects and arrays compared with [===] are distinct
    allocations on every path the code takes, so [===] on them is
    [false].
*)

From stdpp Require Export base list strings countable pretty.
From Stdlib Require Export ZArith Lia Ascii.

Declare Scope moviehub_scope.
Delimit Scope moviehub_scope with mh.
Open Scope moviehub_scope.

Create HintDb moviehub.

(** ** [Array.prototype.find] and [Array.prototype.findIndex] *)

Section JsArray.
Context {A : Type} (p : A -> bool).

(** [arr.find(p)]: the first element satisfying [p], [undefined] if none. *)
Fixpoint js_find (l : list A) : option A :=
  match l with
  | [] => None
  | x :: l' => if p x then Some x else js_find l'
  end.

(** [arr.findIndex(p)]: the index of the first element satisfying [p],
    or [-1]. *)
Fixpoint js_findIndex (l : list A) : Z :=
  match l with
  | [] => -1
  | x :: l' => if p x then 0 else
               let i := js_findIndex l' in if (i =? -1)%Z then -1 else i + 1
  end%Z.

Lemma js_find_Some l x : js_find l = Some x -> x ∈ l /\ p x = true.
Proof.
  induction l as [|y l IH]; simpl; [done|].
  destruct (p y) eqn:Hy; [intros [= <-]; split; [left|]; done|].
  intros H. destruct (IH H). split; [right|]; done.
Qed.

Lemma js_find_None l : js_find l = None <-> Forall (fun x => p x = false) l.
Proof.
  induction l as [|y l IH]; simpl; [split; done|].
  rewrite Forall_cons, <- IH. destruct (p y); naive_solver.
Qed.

Lemma js_find_elem l x : x ∈ l -> p x = true -> is_Some (js_find l).
Proof.
  intros Hin Hp. destruct (js_find l) eqn:E; [eauto|].
  rewrite js_find_None, Forall_forall in E. rewrite (E x Hin) in Hp. done.
Qed.

Lemma js_find_app l1 l2 :
  js_find (l1 ++ l2) = match js_find l1 with Some x => Some x | None => js_find l2 end.
Proof. induction l1 as [|y l1 IH]; simpl; [done|]. by destruct (p y). Qed.

(** [findIndex] agrees with [find]: [-1] exactly when [find] fails, and
    otherwise an in-range index of the element [find] returns. *)
Lemma js_findIndex_spec l :
  (js_findIndex l = -1 /\ js_find l = None)%Z \/
  (exists i x, js_findIndex l = Z.of_nat i /\ l !! i = Some x /\ js_find l = Some x).
Proof.
  induction l as [|y l IH]; simpl; [by left|].
  destruct (p y) eqn:Hy; [right; exists 0%nat, y; done|].
  destruct IH as [[-> ->]|(i & x & -> & Hl & Hf)]; [by left|].
  right. exists (S i), x. rewrite Hf. split; [|done].
  destruct (Z.eqb_spec (Z.of_nat i) (-1)); [lia|]. lia.
Qed.

(** Replacing an element by one the predicate treats alike moves nothing. *)
Lemma js_findIndex_insert l i x y :
  l !! i = Some y -> p x = p y -> js_findIndex (<[i := x]> l) = js_findIndex l.
Proof.
  revert i. induction l as [|z l IH]; intros [|i] Hl Hp; simpl in *; try done.
  - injection Hl as ->. by rewrite Hp.
  - by rewrite (IH i Hl Hp).
Qed.
(** After replacing an element by one the predicate treats alike, [find]
    returns the new element exactly when [findIndex] pointed at it. *)
Lemma js_find_insert l i x x' :
  l !! i = Some x -> p x' = p x ->
  js_find (<[i := x']> l) =
  if bool_decide (js_findIndex l = Z.of_nat i) then Some x' else js_find l.
Proof.
  revert i. induction l as [|y l IH]; intros [|i] Hl Hp; simpl in *; try done.
  - injection Hl as ->. rewrite Hp. destruct (p x); [done|].
    case_bool_decide; [|done]. destruct (Z.eqb_spec (js_findIndex l) (-1)); lia.
  - destruct (p y); [rewrite bool_decide_false by lia; done|]. rewrite (IH i Hl Hp).
    destruct (Z.eqb_spec (js_findIndex l) (-1)) as [E|E].
    + rewrite !bool_decide_false by lia. done.
    + destruct (decide (js_findIndex l = Z.of_nat i)).
      * by rewrite !bool_decide_true by lia.
      * by rewrite !bool_decide_false by lia.
Qed.

(** The element [findIndex] points at satisfies the predicate. *)
Lemma js_findIndex_lookup l i x :
  js_findIndex l = Z.of_nat i -> l !! i = Some x -> p x = true.
Proof.
  intros Hi Hl. destruct (js_findIndex_spec l) as [[Hn _]|(j & y & Hj & Hl' & Hf)]; [lia|].
  rewrite Hi in Hj. apply Nat2Z.inj in Hj as ->. rewrite Hl in Hl'. injection Hl' as <-.
  by apply js_find_Some in Hf as [_ ?].
Qed.

End JsArray.

#[export] Hint Resolve js_find_elem : moviehub.

(** ** Strings

    stdpp makes [simpl] leave [String.append] alone; these are its two
    equations. *)

Lemma string_app_cons a s t : String a s +:+ t = String a (s +:+ t).
Proof. done. Qed.

Lemma string_app_nil t : "" +:+ t = t.
Proof. done. Qed.

#[export] Hint Rewrite string_app_cons string_app_nil : moviehub.

(** ** Lists checked with [forallb] *)

Lemma forallb_insert {A} (p : A -> bool) (l : list A) i x :
  forallb p l = true -> p x = true -> forallb p (<[i := x]> l) = true.
Proof.
  revert i. induction l as [|y l IH]; intros [|i]; simpl; [done..| |];
    rewrite !andb_true_iff; naive_solver.
Qed.

Lemma forallb_lookup {A} (p : A -> bool) (l : list A) i x :
  forallb p l = true -> l !! i = Some x -> p x = true.
Proof.
  rewrite forallb_forall. intros Hp Hl. apply Hp, list_elem_of_In.
  by eapply list_elem_of_lookup_2.
Qed.

(** ** Shared tactics *)

(** Case on every boolean test and [match] of the goal, as the handlers'
    early returns do. *)
Ltac case_code :=
  repeat (first [ case_match | case_decide ]); simplify_eq/=.
