(* ===== verification/JsValue.v ===== *)
(** * JsValue: JavaScript values as the MovieHub code handles them

    The server reads request bodies, the users file and upstream replies
    as JavaScript values, and the client builds request bodies from them.
    This file holds the value type [jval] and the operations of the
    language the code relies on: truthiness (used by [!x] and [x || y]),
    strict equality (notation [===]), property access [o.k], property assignment and
    object spread [{...a, ...b}], [JSON.stringify]'s dropping of
    [undefined] properties, and [String.prototype.split].  It also gives
    [jval] decidable equality and a [Countable] instance (through stdpp's
    [gen_tree]), used by the token instance of [Crypto]. *)

From S2P Require Import Prelude.

#[warnings="-register-all"]
Inductive jval : Type :=
  | JUndef
  | JNull
  | JBool (b : bool)
  | JNum (n : Z)
  | JStr (s : string)
  | JArr (elems : list jval)
  | JObj (fields : list (string * jval)).

(** Induction over values that sees the elements of arrays and objects. *)
Lemma jval_ind' (P : jval -> Prop) :
  P JUndef -> P JNull -> (forall b, P (JBool b)) -> (forall n, P (JNum n)) ->
  (forall s, P (JStr s)) -> (forall l, Forall P l -> P (JArr l)) ->
  (forall fs, Forall (fun kv => P kv.2) fs -> P (JObj fs)) ->
  forall v, P v.
Proof.
  intros HU HN HB HZ HS HA HO. fix IH 1. intros [| | b | n | s | l | fs].
  - exact HU.
  - exact HN.
  - apply HB.
  - apply HZ.
  - apply HS.
  - apply HA. induction l as [|x l IHl]; constructor; [apply IH | exact IHl].
  - apply HO. induction fs as [|[k x] fs IHfs]; constructor; [apply IH | exact IHfs].
Qed.

(** ** Truthiness, [||] and [===] *)

(** [!!v]: [undefined], [null], [false], [0] and [""] are falsy. *)
Definition truthy (v : jval) : bool :=
  match v with
  | JUndef | JNull => false
  | JBool b => b
  | JNum n => negb (n =? 0)%Z
  | JStr s => negb (String.eqb s "")
  | JArr _ | JObj _ => true
  end.

(** [a || b] *)
Definition js_or (a b : jval) : jval := if truthy a then a else b.

(** [a === b].  Two objects or arrays are [===] only when they are the same
    allocation; on every path of the code the two sides come from distinct
    [JSON.parse] calls, so the comparison is [false] there. *)
Definition strict_eq (a b : jval) : bool :=
  match a, b with
  | JUndef, JUndef | JNull, JNull => true
  | JBool x, JBool y => Bool.eqb x y
  | JNum x, JNum y => (x =? y)%Z
  | JStr x, JStr y => String.eqb x y
  | _, _ => false
  end.

Infix "===" := strict_eq (at level 70, no associativity) : moviehub_scope.

Definition is_primitive (v : jval) : bool :=
  match v with JArr _ | JObj _ => false | _ => true end.

Lemma strict_eq_sound a b : strict_eq a b = true -> a = b.
Proof.
  destruct a, b; simpl; intros H; try done.
  - by apply Bool.eqb_prop in H as ->.
  - by apply Z.eqb_eq in H as ->.
  - by apply String.eqb_eq in H as ->.
Qed.

Lemma strict_eq_refl a : is_primitive a = true -> strict_eq a a = true.
Proof.
  destruct a; simpl; intros; try done.
  - apply Bool.eqb_reflx.
  - apply Z.eqb_refl.
  - apply String.eqb_refl.
Qed.

Lemma strict_eq_sym a b : strict_eq a b = strict_eq b a.
Proof.
  destruct a, b; simpl; try done.
  - by destruct b, b0.
  - apply Z.eqb_sym.
  - apply String.eqb_sym.
Qed.

Lemma strict_eq_prim a b : strict_eq a b = true -> is_primitive a = true.
Proof. by destruct a, b. Qed.

Lemma strict_eq_trans a b c :
  strict_eq a b = true -> strict_eq b c = strict_eq a c.
Proof. intros H. by apply strict_eq_sound in H as ->. Qed.

(** On a primitive right-hand side, [===] is equality. *)
Lemma strict_eq_iff a b : is_primitive b = true -> strict_eq a b = true <-> a = b.
Proof.
  intros Hb. split; [apply strict_eq_sound|]. intros ->. by apply strict_eq_refl.
Qed.

#[export] Hint Resolve strict_eq_refl strict_eq_prim : moviehub.

(** ** Objects *)

(** [o.k]: the value of the property, [undefined] when it is absent.
    Objects built by [JSON.parse] have distinct keys, on which this
    first-match lookup is the lookup.  On a primitive the code reads no
    property but [id] (of a movie descriptor), which is [undefined]. *)
Definition fields_get (fs : list (string * jval)) (k : string) : jval :=
  match js_find (fun kv => String.eqb kv.1 k) fs with
  | Some kv => kv.2
  | None => JUndef
  end.

Definition get (v : jval) (k : string) : jval :=
  match v with
  | JObj fs => fields_get fs k
  | _ => JUndef
  end.

(** [o[k] = v]: an existing property keeps its place, a new one goes last. *)
Fixpoint fields_set (fs : list (string * jval)) (k : string) (v : jval)
    : list (string * jval) :=
  match fs with
  | [] => [(k, v)]
  | (k', v') :: fs' =>
      if String.eqb k' k then (k', v) :: fs' else (k', v') :: fields_set fs' k v
  end.

(** [{...base, ...src}] for an object [src]: its properties are assigned in
    order.  Spreading [undefined] or [null] adds nothing. *)
Definition fields_spread (base : list (string * jval)) (src : jval)
    : list (string * jval) :=
  match src with
  | JObj fs => foldl (fun acc kv => fields_set acc kv.1 kv.2) base fs
  | _ => base
  end.

Lemma fields_get_set fs k k' v :
  fields_get (fields_set fs k v) k' =
  if String.eqb k k' then v else fields_get fs k'.
Proof.
  unfold fields_get. induction fs as [|[k0 v0] fs IH]; simpl.
  - by destruct (String.eqb k k').
  - destruct (String.eqb_spec k0 k) as [->|Hne]; simpl.
    + by destruct (String.eqb k k').
    + destruct (String.eqb_spec k0 k') as [->|]; [|exact IH].
      destruct (String.eqb_spec k k'); [congruence|done].
Qed.

Lemma fields_get_spread base src k :
  fields_get (fields_spread base (JObj src)) k =
  match js_find (fun kv => String.eqb kv.1 k) (reverse src) with
  | Some kv => kv.2
  | None => fields_get base k
  end.
Proof.
  unfold fields_spread. revert base. induction src as [|[k0 v0] src IH] using rev_ind;
    intros base; [done|].
  rewrite foldl_app, reverse_app. simpl. rewrite fields_get_set. simpl.
  destruct (String.eqb k0 k); [done|]. apply IH.
Qed.

(** [JSON.stringify] drops the [undefined] properties of objects and writes
    [undefined] array elements as [null]; [normalize] is the value read
    back by [JSON.parse]. *)
Fixpoint normalize (v : jval) : jval :=
  match v with
  | JArr l => JArr (map (fun x => match x with JUndef => JNull | _ => normalize x end) l)
  | JObj fs => JObj (List.filter (fun kv => match kv.2 with JUndef => false | _ => true end)
                      (map (fun '(k, x) => (k, normalize x)) fs))
  | _ => v
  end.

(** ** [String.prototype.split] on a one-character separator *)

Fixpoint js_split (c : Ascii.ascii) (s : string) : list string :=
  match s with
  | EmptyString => [EmptyString]
  | String a s' =>
      if Ascii.eqb a c then EmptyString :: js_split c s'
      else match js_split c s' with
           | [] => [String a EmptyString]
           | w :: ws => String a w :: ws
           end
  end.

(** [arr[i]] on a list of strings: [undefined] past the end. *)
Definition nth_str (ws : list string) (i : nat) : jval :=
  match ws !! i with Some w => JStr w | None => JUndef end.

Lemma js_split_nonempty c s : js_split c s <> [].
Proof.
  induction s as [|a s IH]; simpl; [done|].
  destruct (Ascii.eqb a c); [done|]. by destruct (js_split c s).
Qed.

(** [split] then [join] with the same separator gives the string back. *)
Lemma js_split_join c s :
  String.concat (String c EmptyString) (js_split c s) = s.
Proof.
  induction s as [|a s IH]; simpl; [done|].
  destruct (Ascii.eqb_spec a c) as [->|Hne].
  - destruct (js_split c s) as [|w ws] eqn:E; [by apply js_split_nonempty in E|].
    simpl in *. destruct ws; simpl in *; by rewrite IH.
  - destruct (js_split c s) as [|w ws] eqn:E; [by apply js_split_nonempty in E|].
    simpl in *. destruct ws; simpl in *; by rewrite <- IH.
Qed.

(** ** How a piece of JavaScript ends

    Code of the page either produces a value, throws (an exception that a
    [try] catches, or that rejects the [async] function running it), or
    waits forever at an [await] whose promise never settles (a request
    the server never answers). *)
Inductive outcome (A : Type) : Type :=
  | Done (a : A)
  | Threw
  | Pending.
Arguments Done {A} a.
Arguments Threw {A}.
Arguments Pending {A}.

#[export] Instance outcome_ret : MRet outcome := fun A a => Done a.
#[export] Instance outcome_bind : MBind outcome := fun A B f m =>
  match m with Done a => f a | Threw => Threw | Pending => Pending end.

(** [try { m } catch (e) { h }]: only an exception is caught. *)
Definition try_catch {A} (m : outcome A) (h : outcome A) : outcome A :=
  match m with Threw => h | _ => m end.

(** [o.k] read where [o] may be [null] or [undefined]: a [TypeError]. *)
Definition prop (v : jval) (k : string) : outcome jval :=
  match v with JUndef | JNull => Threw | _ => Done (get v k) end.

(** [o[0]] *)
Definition index0 (v : jval) : jval :=
  match v with
  | JArr (x :: _) => x
  | JStr (String a _) => JStr (String a EmptyString)
  | JObj fs => fields_get fs "0"
  | _ => JUndef
  end.

Lemma mret_Done {A} (a : A) : (mret a : outcome A) = Done a.
Proof. done. Qed.

Lemma bind_Done {A B} (a : A) (f : A -> outcome B) : (Done a ≫= f) = f a.
Proof. done. Qed.

Lemma bind_Threw {A B} (f : A -> outcome B) : ((Threw : outcome A) ≫= f) = Threw.
Proof. done. Qed.

Lemma prop_defined v k : v <> JUndef -> v <> JNull -> prop v k = Done (get v k).
Proof. by destruct v. Qed.

#[export] Hint Rewrite @mret_Done @bind_Done @bind_Threw : moviehub.

(** ** Lemmas on strings *)

Lemma string_app_inj_l (s t t' : string) : s +:+ t = s +:+ t' <-> t = t'.
Proof.
  induction s as [|a s IH]; simpl; [done|].
  split; [intros [= H]; by apply IH | by intros ->].
Qed.

Lemma substring_app_length (s t : string) :
  String.substring 0 (String.length s) (s +:+ t) = s.
Proof. induction s as [|a s IH]; simpl; [by destruct t | by rewrite IH]. Qed.

Lemma substring_app_prefix (p t : string) m :
  String.substring (String.length p) m (p +:+ t) = String.substring 0 m t.
Proof. induction p as [|a p IH]; simpl; [done | exact IH]. Qed.

(** A string with no occurrence of the character [c]. *)
Fixpoint no_char (c : Ascii.ascii) (s : string) : bool :=
  match s with
  | EmptyString => true
  | String a s' => negb (Ascii.eqb a c) && no_char c s'
  end.

Lemma no_char_app c s t : no_char c (s +:+ t) = no_char c s && no_char c t.
Proof. induction s as [|a s IH]; simpl; [done|]. by rewrite IH, andb_assoc. Qed.

Lemma js_split_no_char c w : no_char c w = true -> js_split c w = [w].
Proof.
  induction w as [|a w IH]; simpl; [done|].
  rewrite andb_true_iff, negb_true_iff. intros [-> Hw]. by rewrite IH.
Qed.

Lemma js_split_no_char_app c w r :
  no_char c w = true -> js_split c (w +:+ String c r) = w :: js_split c r.
Proof.
  induction w as [|a w IH]; simpl; [by rewrite Ascii.eqb_refl|].
  rewrite andb_true_iff, negb_true_iff. intros [-> Hw]. by rewrite IH.
Qed.

Lemma prefix_app (p s : string) : String.prefix p (p +:+ s) = true.
Proof.
  induction p as [|a p IH]; simpl; [by destruct s|].
  by destruct (Ascii.ascii_dec a a).
Qed.

Lemma substring_0_all (s : string) m : (String.length s <= m)%nat -> String.substring 0 m s = s.
Proof.
  revert m. induction s as [|a s IH]; intros [|m] Hm; simpl in *; [done..|lia|].
  rewrite IH; [done|lia].
Qed.

Lemma length_app_str (s t : string) :
  String.length (s +:+ t) = (String.length s + String.length t)%nat.
Proof. induction s as [|a s IH]; simpl; [done|by rewrite IH]. Qed.

(** ** Decidable equality and countability, through [gen_tree] *)

Fixpoint jval_to_tree (v : jval) : gen_tree (bool + Z + string) :=
  match v with
  | JUndef => GenNode 0 []
  | JNull => GenNode 1 []
  | JBool b => GenLeaf (inl (inl b))
  | JNum n => GenLeaf (inl (inr n))
  | JStr s => GenLeaf (inr s)
  | JArr l => GenNode 2 (map jval_to_tree l)
  | JObj fs => GenNode 3 (map (fun '(k, x) => GenNode 0 [GenLeaf (inr k); jval_to_tree x]) fs)
  end.

Fixpoint jval_of_tree (t : gen_tree (bool + Z + string)) : jval :=
  match t with
  | GenNode 0 [] => JUndef
  | GenNode 1 [] => JNull
  | GenLeaf (inl (inl b)) => JBool b
  | GenLeaf (inl (inr n)) => JNum n
  | GenLeaf (inr s) => JStr s
  | GenNode 2 ts => JArr (map jval_of_tree ts)
  | GenNode 3 ts =>
      JObj (map (fun t => match t with
                          | GenNode 0 [GenLeaf (inr k); t'] => (k, jval_of_tree t')
                          | _ => (EmptyString, JUndef)
                          end) ts)
  | _ => JUndef
  end.

Lemma jval_of_to_tree v : jval_of_tree (jval_to_tree v) = v.
Proof.
  induction v as [| | b | n | s | l IH | fs IH] using jval_ind'; simpl; try done.
  - f_equal. rewrite map_map. induction IH as [|x l Hx _ IHl]; simpl; [done|].
    by rewrite Hx, IHl.
  - f_equal. rewrite map_map. induction IH as [|[k x] fs Hx _ IHfs]; simpl in *; [done|].
    by rewrite Hx, IHfs.
Qed.

#[export] Instance jval_eq_dec : EqDecision jval.
Proof.
  intros x y. destruct (decide (jval_to_tree x = jval_to_tree y)) as [H|H].
  - left. by rewrite <- (jval_of_to_tree x), <- (jval_of_to_tree y), H.
  - right. by intros ->.
Defined.

#[export] Instance jval_countable : Countable jval :=
  inj_countable' jval_to_tree jval_of_tree jval_of_to_tree.
