(* ===== verification/Http.v ===== *)
(** * Http: what an Express handler can answer

    A handler of [src/server/index.js] ends in one of four ways:
    [res.json(body)] (status 200) or [res.status(s).json(body)]; a page
    that is not JSON ([res.sendFile], a static file, or Express's own 404
    and 400 pages, [RespondPage]); a synchronous exception, which Express
    4's default error handler answers with an HTML page of status 500; or,
    in an [async] handler, a rejected promise, which Express 4 does not
    catch, so the request is never answered.  This file also holds the
    parsing of the request URL Express does before a handler runs:
    percent-decoding and the query parser.  The
    server is Express 4: its catch-all route [app.get('*', ...)] is
    rejected by the path syntax of Express 5. *)

From S2P Require Import Prelude JsValue.

Inductive response : Type :=
  | Respond (status : Z) (body : jval)
  | RespondPage (status : Z) (page : string)
  | Crash500
  | NoResponse.

#[export] Instance response_eq_dec : EqDecision response.
Proof. solve_decision. Defined.

(** [res.json(body)] *)
Definition json_ok (body : jval) : response := Respond 200 body.

(** [res.status(s).json({ error: msg })] *)
Definition json_error (status : Z) (msg : string) : response :=
  Respond status (JObj [("error", JStr msg)]).

Definition status_of (r : response) : option Z :=
  match r with Respond s _ | RespondPage s _ => Some s | Crash500 => Some 500%Z | NoResponse => None end.

(** ** Request URLs *)

Definition hex_val (c : ascii) : option nat :=
  let n := nat_of_ascii c in
  if (48 <=? n) && (n <=? 57) then Some (n - 48)
  else if (65 <=? n) && (n <=? 70) then Some (n - 55)
  else if (97 <=? n) && (n <=? 102) then Some (n - 87)
  else None.

(** [decodeURIComponent]; [None] is its [URIError]. *)
Fixpoint decodeURIComponent (s : string) : option string :=
  match s with
  | EmptyString => Some EmptyString
  | String a rest =>
      if Ascii.eqb a "%" then
        match rest with
        | String h1 (String h2 rest') =>
            match hex_val h1, hex_val h2 with
            | Some x, Some y => String (ascii_of_nat (16 * x + y)) <$> decodeURIComponent rest'
            | _, _ => None
            end
        | _ => None
        end
      else String a <$> decodeURIComponent rest
  end.

(** The position of the first [c] in a string ([s.indexOf(c)]). *)
Fixpoint index_char (c : ascii) (s : string) : option nat :=
  match s with
  | EmptyString => None
  | String a s' => if Ascii.eqb a c then Some 0%nat else S <$> index_char c s'
  end.

(** Express's query parser ([qs]) on the query string: parts split on
    [&], each split at its first [=], [+] read as a space, then
    percent-decoded (a part that does not decode is kept as it is); a
    repeated key collects its values in an array.  Bracket keys
    ([a[b]=c]) are not modelled. *)
Fixpoint replace_plus (s : string) : string :=
  match s with
  | EmptyString => EmptyString
  | String a s' => String (if Ascii.eqb a "+" then " "%char else a) (replace_plus s')
  end.

Definition qs_decode (s : string) : string :=
  match decodeURIComponent (replace_plus s) with
  | Some d => d
  | None => replace_plus s
  end.

Definition parse_pair (part : string) : string * jval :=
  match index_char "="%char part with
  | Some i => (qs_decode (String.substring 0 i part),
               JStr (qs_decode (String.substring (S i) (String.length part) part)))
  | None => (qs_decode part, JStr "")
  end.

Definition qs_add (fs : list (string * jval)) (kv : string * jval) : list (string * jval) :=
  match fields_get fs kv.1 with
  | JUndef => fs ++ [kv]
  | JArr l => fields_set fs kv.1 (JArr (l ++ [kv.2]))
  | v => fields_set fs kv.1 (JArr [v; kv.2])
  end.

Definition parse_query (qstr : string) : jval :=
  JObj (foldl qs_add [] (map parse_pair (List.filter (fun p => negb (String.eqb p "")) (js_split "&"%char qstr)))).

(** The query object Express gives the handler for a request URL. *)
Definition req_query (url : string) : jval :=
  match index_char "?"%char url with
  | Some i => parse_query (String.substring (S i) (String.length url) url)
  | None => JObj []
  end.

(** ASCII lower case, for the case-insensitive matches of Express and
    of the URL parser. *)
Definition ascii_lower (a : ascii) : ascii :=
  let n := nat_of_ascii a in
  if (65 <=? n) && (n <=? 90) then ascii_of_nat (n + 32) else a.

Fixpoint string_lower (s : string) : string :=
  match s with
  | EmptyString => EmptyString
  | String a s' => String (ascii_lower a) (string_lower s')
  end.
