(* ===== verification/UserStore.v ===== *)
(** * UserStore: the users file of [src/server/index.js]

    The server keeps every account in [users.json], a JSON array of user
    records.  [readUsers] parses the whole file (an empty file reads as
    [[]]), [writeUsers] overwrites it, and at startup the file is created
    holding [[]] when it is absent (lines 27-43).  Each handler that
    changes a user reads the whole array, changes it in memory and writes
    the whole array back.

    The file is modelled by the users it holds ([FileUsers]), by an empty
    file ([FileEmpty]) or by its absence ([FileMissing], on which
    [readFileSync] throws).  The spec's store contract (load/save, start
    empty) is the class [UserStoreSpec]; [file_store_laws] proves that the
    file implements it.  The file also defines the searches the handlers
    run over the array and the two invariants of the array the handlers
    keep: every watchlist is an array, and no two users share an email. *)

From S2P Require Import Prelude JsValue.
From Stdlib Require Import Btauto.

(** A user record as [signup] builds it (line 113).  The id and the hash
    are the strings the server itself writes; name, email and watchlist
    are request values. *)
Record user : Type := mkUser {
  u_id : string;
  u_name : jval;
  u_email : jval;
  u_passwordHash : string;
  u_watchlist : jval;
}.

Inductive file_state : Type :=
  | FileMissing
  | FileEmpty
  | FileUsers (users : list user).

(** [JSON.parse(fs.readFileSync(USERS_FILE, 'utf8') || '[]')]; [None] is
    the exception of a missing file. *)
Definition readUsers (f : file_state) : option (list user) :=
  match f with
  | FileMissing => None
  | FileEmpty => Some []
  | FileUsers us => Some us
  end.

(** [fs.writeFileSync(USERS_FILE, JSON.stringify(users, null, 2))]: the
    whole file is replaced, whatever it held. *)
Definition writeUsers (us : list user) (f : file_state) : file_state := FileUsers us.

(** Startup: [if (!fs.existsSync(USERS_FILE)) fs.writeFileSync(USERS_FILE, '[]')]. *)
Definition ensureUsersFile (f : file_state) : file_state :=
  match f with
  | FileMissing => FileUsers []
  | _ => f
  end.

(** ** The store contract of the spec (section 4.1) *)

Class UserStoreSpec (S : Type) := {
  store_load : S -> option (list user);
  store_save : list user -> S -> S;
  store_init : S -> S;
}.

Class UserStoreLaws (S : Type) `{UserStoreSpec S} := {
  load_save : forall us s, store_load (store_save us s) = Some us;
  load_init : forall s, store_load (store_init s) = Some (default [] (store_load s));
  init_keeps : forall s us, store_load s = Some us -> store_init s = s;
}.

#[export] Instance file_store : UserStoreSpec file_state := {
  store_load := readUsers;
  store_save := writeUsers;
  store_init := ensureUsersFile;
}.

(** ** Searches the handlers run over the array *)

(** [users.find(u => u.email === email)] (lines 111 and 124). *)
Definition find_by_email (email : jval) (us : list user) : option user :=
  js_find (fun u => u.(u_email) === email) us.

(** [users.find(x => x.id === req.user.id)] (lines 135 and 143). *)
Definition find_by_id (id : string) (us : list user) : option user :=
  js_find (fun u => String.eqb u.(u_id) id) us.

(** [users.findIndex(x => x.id === req.user.id)] (line 151). *)
Definition findIndex_by_id (id : string) (us : list user) : Z :=
  js_findIndex (fun u => String.eqb u.(u_id) id) us.

Lemma findIndex_by_id_found id us u :
  find_by_id id us = Some u ->
  exists i, findIndex_by_id id us = Z.of_nat i /\ us !! i = Some u.
Proof.
  unfold find_by_id, findIndex_by_id. intros Hf.
  destruct (js_findIndex_spec (fun u => String.eqb u.(u_id) id) us)
    as [[_ Hn]|(i & x & Hi & Hl & Hx)]; [congruence|].
  exists i. split; [done|]. congruence.
Qed.

Lemma findIndex_by_id_none id us :
  find_by_id id us = None -> findIndex_by_id id us = (-1)%Z.
Proof.
  unfold find_by_id, findIndex_by_id. intros Hf.
  destruct (js_findIndex_spec (fun u => String.eqb u.(u_id) id) us)
    as [[Hi _]|(i & x & Hi & Hl & Hx)]; congruence.
Qed.

(** The public part of a user: [{ id, name, email }] (lines 117, 129). *)
Definition public_user (u : user) : jval :=
  JObj [("id", JStr u.(u_id)); ("name", u.(u_name)); ("email", u.(u_email))].

Lemma findIndex_by_id_some id us i u :
  findIndex_by_id id us = Z.of_nat i -> us !! i = Some u -> find_by_id id us = Some u.
Proof.
  unfold find_by_id, findIndex_by_id. intros Hi Hl.
  destruct (js_findIndex_spec (fun u => String.eqb u.(u_id) id) us)
    as [[Hn _]|(j & x & Hj & Hl' & Hx)]; [lia|].
  rewrite Hi in Hj. apply Nat2Z.inj in Hj as ->. congruence.
Qed.

(** A user appended with an id no stored user has is found at the end. *)
Lemma findIndex_by_id_app_new id us u :
  find_by_id id us = None -> String.eqb u.(u_id) id = true ->
  findIndex_by_id id (us ++ [u]) = Z.of_nat (length us).
Proof.
  unfold find_by_id, findIndex_by_id. intros Hn Hu.
  induction us as [|v us IH]; simpl in *; [by rewrite Hu|].
  destruct (String.eqb (u_id v) id); [done|]. rewrite IH by done.
  rewrite (proj2 (Z.eqb_neq _ _)) by lia. lia.
Qed.

(** ** Invariants of the array *)

Definition is_array (v : jval) : bool :=
  match v with JArr _ => true | _ => false end.

(** Every watchlist is an array. *)
Definition watchlists_ok (us : list user) : bool :=
  forallb (fun u => is_array u.(u_watchlist)) us.

(** [email] is [===] to none of [es]. *)
Definition email_fresh (email : jval) (es : list jval) : bool :=
  forallb (fun e => negb (e === email)) es.

Fixpoint distinct_emails (es : list jval) : bool :=
  match es with
  | [] => true
  | e :: es' => email_fresh e es' && distinct_emails es'
  end.

(** No user's email is [===] to another's. *)
Definition emails_distinct (us : list user) : bool := distinct_emails (u_email <$> us).

Definition store_ok (f : file_state) : Prop :=
  match readUsers f with
  | Some us => watchlists_ok us = true /\ emails_distinct us = true
  | None => False
  end.

Lemma find_by_email_app email us u :
  find_by_email email (us ++ [u]) =
  match find_by_email email us with
  | Some v => Some v
  | None => if u.(u_email) === email then Some u else None
  end.
Proof. unfold find_by_email. rewrite js_find_app. simpl. by destruct (js_find _ us). Qed.

Lemma find_by_email_None email us :
  find_by_email email us = None <-> email_fresh email (u_email <$> us) = true.
Proof.
  unfold find_by_email, email_fresh. induction us as [|u us IH]; simpl; [done|].
  destruct (strict_eq (u_email u) email); simpl; [done|exact IH].
Qed.

Lemma distinct_emails_app es e :
  distinct_emails (es ++ [e]) = distinct_emails es && email_fresh e es.
Proof.
  induction es as [|e' es IH]; simpl; [done|].
  rewrite IH. unfold email_fresh. rewrite forallb_app. simpl.
  rewrite (strict_eq_sym e e'). btauto.
Qed.

(** Appending a user whose email is new keeps the emails distinct. *)
Lemma emails_distinct_app us u :
  emails_distinct us = true -> find_by_email u.(u_email) us = None ->
  emails_distinct (us ++ [u]) = true.
Proof.
  unfold emails_distinct. rewrite find_by_email_None, fmap_app. simpl.
  rewrite distinct_emails_app. intros -> ->. done.
Qed.

Lemma watchlists_ok_app us u :
  watchlists_ok (us ++ [u]) = watchlists_ok us && is_array u.(u_watchlist).
Proof. unfold watchlists_ok. rewrite forallb_app. simpl. by rewrite andb_true_r. Qed.

#[export] Hint Resolve emails_distinct_app : moviehub.

Lemma watchlists_ok_insert us i u :
  watchlists_ok us = true -> is_array u.(u_watchlist) = true ->
  watchlists_ok (<[i := u]> us) = true.
Proof.
  revert i. induction us as [|v us IH]; intros [|i]; simpl; [done..| |];
    rewrite !andb_true_iff; naive_solver.
Qed.

Lemma watchlists_ok_lookup us i u :
  watchlists_ok us = true -> us !! i = Some u -> is_array u.(u_watchlist) = true.
Proof.
  unfold watchlists_ok. rewrite forallb_forall. intros Hw Hl.
  apply Hw, list_elem_of_In. by eapply list_elem_of_lookup_2.
Qed.

(** The users file implements the store contract: what is saved is read
    back whole, and startup leaves an existing file alone and creates an
    absent one empty. *)
#[export] Instance file_store_laws : UserStoreLaws file_state.
Proof. split; [done | by intros [] | by intros [] us ?]. Qed.
