(* ===== verification/Crypto.v ===== *)
(** * Crypto: the two libraries the server calls for authentication

    [src/server/index.js] hashes passwords with [bcrypt] (lines 112, 126)
    and issues and checks tokens with [jsonwebtoken] (lines 51, 116, 128).
    Neither library is code of the repository: each is modelled by a type
    class of its operations and a class of the laws the server relies on.
    - bcrypt compares a password against a hash made from another password
      by their first 72 bytes: bcrypt ignores the rest of a longer
      password.
    - [jwt.verify] accepts a token signed with the same secret until its
      expiry time, returns the claims it was signed with, and accepts no
      token but those [jwt.sign] produces with that secret (the library's
      unforgeability, taken as a law).  A token has no space (its
      alphabet is base64url and the dot).
    Each class has a computable instance ([toy_bcrypt], [toy_jwt]) that
    satisfies its laws, so that the theorems of the handlers have concrete
    witnesses.  These instances are not cryptographic: they show that the
    laws can be met together, nothing more. *)

From S2P Require Import Prelude JsValue.

(** ** bcrypt *)

(** bcrypt reads at most 72 bytes of the password. *)
Definition bcrypt_truncate (pw : string) : string := String.substring 0 72 pw.

(** A salt from [bcrypt.genSalt] has 22 characters. *)
Definition bcrypt_salt_ok (salt : string) : Prop := String.length salt = 22%nat.

Class Bcrypt := {
  bcrypt_hash : string -> string -> string;     (** salt, password *)
  bcrypt_compare : string -> string -> bool;    (** password, hash *)
}.

Class BcryptLaws `{Bcrypt} := {
  bcrypt_compare_hash : forall salt pw pw', bcrypt_salt_ok salt ->
    bcrypt_compare pw' (bcrypt_hash salt pw) =
    bool_decide (bcrypt_truncate pw' = bcrypt_truncate pw);
}.

(** ** jsonwebtoken *)

(** The claims [jwt.verify] returns: the signed payload [{ id, email }]
    with the issue time [iat] and the expiry [exp], in seconds. *)
Record claims : Type := mkClaims {
  cl_id : string;
  cl_email : jval;
  cl_iat : Z;
  cl_exp : Z;
}.

Class Jwt := {
  jwt_sign : string -> string -> jval -> Z -> Z -> string;
    (** secret, id, email, issue time, validity in seconds *)
  jwt_verify : string -> string -> Z -> option claims;
    (** secret, token, current time in seconds *)
}.

Class JwtLaws `{Jwt} := {
  jwt_verify_sign : forall k id em iat d now,
    jwt_verify k (jwt_sign k id em iat d) now =
    if bool_decide (now < iat + d)%Z then Some (mkClaims id em iat (iat + d)) else None;
  jwt_verify_issued : forall k tok now c,
    jwt_verify k tok now = Some c ->
    (now < cl_exp c)%Z /\ tok = jwt_sign k (cl_id c) (cl_email c) (cl_iat c) (cl_exp c - cl_iat c);
  jwt_sign_no_space : forall k id em iat d, no_char " "%char (jwt_sign k id em iat d) = true;
  (** a token is three base64url parts joined by dots, never empty *)
  jwt_sign_nonempty : forall k id em iat d, jwt_sign k id em iat d <> "";
}.

(** [expiresIn: '7d'], in seconds. *)
Definition seven_days : Z := 7 * 24 * 3600.

(** ** Computable instances *)

(** The hash format [$2b$10$<salt><digest>], with the cost 10 of line 112. *)
Definition toy_bcrypt_prefix : string := "$2b$10$".

Definition toy_bcrypt_hash (salt pw : string) : string :=
  toy_bcrypt_prefix +:+ salt +:+ bcrypt_truncate pw.

Definition toy_bcrypt_compare (pw h : string) : bool :=
  String.eqb h (toy_bcrypt_hash
    (String.substring (String.length toy_bcrypt_prefix) 22 h) pw).

#[export] Instance toy_bcrypt : Bcrypt := {
  bcrypt_hash := toy_bcrypt_hash;
  bcrypt_compare := toy_bcrypt_compare;
}.

#[export] Instance toy_bcrypt_laws : BcryptLaws.
Proof.
  split. intros salt pw pw' Hs. simpl. unfold toy_bcrypt_compare, toy_bcrypt_hash.
  rewrite substring_app_prefix, <- Hs, substring_app_length.
  destruct (String.eqb_spec (toy_bcrypt_prefix +:+ salt +:+ bcrypt_truncate pw)
                            (toy_bcrypt_prefix +:+ salt +:+ bcrypt_truncate pw')) as [H|H];
    rewrite !string_app_inj_l in H; case_bool_decide; naive_solver.
Qed.

(** Binary digits of a positive number, and back. *)
Fixpoint pos_bits (p : positive) : string :=
  match p with
  | xH => "1"
  | xO p' => String "0"%char (pos_bits p')
  | xI p' => String "1"%char (pos_bits p')
  end.

Fixpoint bits_pos (s : string) : option positive :=
  match s with
  | EmptyString => None
  | String c EmptyString => if Ascii.eqb c "1"%char then Some xH else None
  | String c s' =>
      p ← bits_pos s';
      if Ascii.eqb c "0"%char then Some (xO p) else if Ascii.eqb c "1"%char then Some (xI p) else None
  end.

Lemma bits_pos_cons c s : s <> EmptyString ->
  bits_pos (String c s) =
  p ← bits_pos s;
  if Ascii.eqb c "0"%char then Some (xO p) else if Ascii.eqb c "1"%char then Some (xI p) else None.
Proof. by destruct s. Qed.

Lemma bits_pos_bits p : bits_pos (pos_bits p) = Some p.
Proof.
  induction p as [p IH|p IH|]; [| |done]; cbn [pos_bits];
    (rewrite bits_pos_cons, IH; [done | by destruct p]).
Qed.

Lemma pos_bits_no_dot p : no_char "."%char (pos_bits p) = true.
Proof. by induction p. Qed.

Lemma pos_bits_no_space p : no_char " "%char (pos_bits p) = true.
Proof. by induction p. Qed.

Definition toy_jwt_sign (k id : string) (em : jval) (iat d : Z) : string :=
  String "h"%char (String "."%char
    (pos_bits (encode (id, em, iat, (iat + d)%Z)) +:+
     String "."%char (pos_bits (encode (k, (id, em, iat, (iat + d)%Z)))))).

Definition toy_jwt_verify (k tok : string) (now : Z) : option claims :=
  match js_split "."%char tok with
  | [_; p; _] =>
      match bits_pos p ≫= decode with
      | Some (id, em, iat, exp) =>
          if String.eqb tok (toy_jwt_sign k id em iat (exp - iat)%Z) && bool_decide (now < exp)%Z
          then Some (mkClaims id em iat exp) else None
      | None => None
      end
  | _ => None
  end.

#[export] Instance toy_jwt : Jwt := {
  jwt_sign := toy_jwt_sign;
  jwt_verify := toy_jwt_verify;
}.

Lemma toy_jwt_sign_split k id em iat d :
  js_split "."%char (toy_jwt_sign k id em iat d) =
  ["h"; pos_bits (encode (id, em, iat, (iat + d)%Z));
   pos_bits (encode (k, (id, em, iat, (iat + d)%Z)))].
Proof.
  unfold toy_jwt_sign. cbn [js_split Ascii.eqb Bool.eqb andb].
  rewrite js_split_no_char_app, js_split_no_char by apply pos_bits_no_dot. done.
Qed.

#[export] Instance toy_jwt_laws : JwtLaws.
Proof.
  split; simpl.
  - intros k id em iat d now. unfold toy_jwt_verify.
    rewrite toy_jwt_sign_split, bits_pos_bits. simpl. rewrite decode_encode.
    rewrite Z.add_simpl_l, String.eqb_refl. simpl. by case_bool_decide.
  - intros k tok now c. unfold toy_jwt_verify.
    destruct (js_split "."%char tok) as [|w0 [|p [|w2 [|w3 ws]]]]; try done.
    destruct (bits_pos p ≫= decode) as [[[[id em] iat] exp]|]; [|done].
    destruct (String.eqb_spec tok (toy_jwt_sign k id em iat (exp - iat)%Z)); [|done].
    case_bool_decide; [|done]. intros [= <-]. done.
  - intros. simpl. unfold toy_jwt_sign. simpl. rewrite no_char_app. simpl.
    by rewrite !pos_bits_no_space.
  - done.
Qed.
