(* ===== verification/Auth.v ===== *)
(** * Auth: the bearer-token middleware and the [/auth] endpoints

    [authMiddleware] (lines 46-57 of [src/server/index.js]) reads the
    [Authorization] header, takes its second space-separated word as the
    token and verifies it with the server's secret.  [/auth/signup]
    (lines 107-118) validates the body, reads the users, rejects a known
    email, hashes the password (an [await]), appends the new user, writes
    the file and returns a token; [/auth/login] (lines 121-130) finds the
    user by email and compares the password; [/auth/me] (lines 133-138)
    returns the user named by the token.

    [signup] is split at its [await] into [signup_begin] (the synchronous
    part up to [bcrypt.hash]) and [signup_finish] (what runs when the hash
    is ready: it appends to the array read by [signup_begin], not to the
    file as it is then); [Interleave] interleaves the two halves with other
    requests.  The handlers are defined in a section over the bcrypt and
    jsonwebtoken interfaces of [Crypto] and the secret; the theorems also
    assume their laws. *)

From S2P Require Import Prelude JsValue Http UserStore Crypto.

(** [process.env.JWT_SECRET || 'replace-this-secret'] (line 16). *)
Definition default_jwt_secret : string := "replace-this-secret".

Definition jwt_secret_of (env_secret : option string) : string :=
  match env_secret with
  | Some s => if String.eqb s "" then default_jwt_secret else s
  | None => default_jwt_secret
  end.

(** [Math.floor(Date.now() / 1000)], the clock of [jsonwebtoken]. *)
Definition now_seconds (now_ms : Z) : Z := (now_ms / 1000)%Z.

(** [Date.now().toString()] (line 113). *)
Definition id_of_time (now_ms : Z) : string := pretty now_ms.

(** The outcome of the middleware: [next()] with [req.user], or an answer. *)
Inductive auth_result : Type :=
  | AuthOk (c : claims)
  | AuthFail (r : response).

(** What [signup] has in hand at its [await]. *)
Record signup_pending : Type := mkPending {
  sp_users : list user;
  sp_name : jval;
  sp_email : jval;
  sp_password : jval;
}.

Inductive signup_step : Type :=
  | SignupDone (r : response)
  | SignupAwait (p : signup_pending).

Section Handlers.
Context `{Bcrypt} `{Jwt} (secret : string).

(** Lines 46-57. *)
Definition authMiddleware (authorization : option string) (now_ms : Z) : auth_result :=
  match authorization with
  | None => AuthFail (json_error 401 "Missing auth token")
  | Some auth =>
      if negb (truthy (JStr auth)) then AuthFail (json_error 401 "Missing auth token")
      else match nth_str (js_split " "%char auth) 1 with
           | JStr token =>
               match jwt_verify secret token (now_seconds now_ms) with
               | Some c => AuthOk c
               | None => AuthFail (json_error 401 "Invalid token")
               end
           | _ => AuthFail (json_error 401 "Invalid token")
           end
  end.

(** Lines 108-111: up to the [await] of line 112.  A missing file makes
    [readUsers] throw inside the [async] handler: no answer. *)
Definition signup_begin (f : file_state) (body : jval) : signup_step :=
  let name := get body "name" in
  let email := get body "email" in
  let password := get body "password" in
  if negb (truthy email) || negb (truthy password)
  then SignupDone (json_error 400 "Missing fields")
  else match readUsers f with
       | None => SignupDone NoResponse
       | Some users =>
           match find_by_email email users with
           | Some _ => SignupDone (json_error 400 "Email exists")
           | None => SignupAwait (mkPending users name email password)
           end
       end.

(** The user record of line 113. *)
Definition new_user (p : signup_pending) (now_ms : Z) (hash : string) : user :=
  mkUser (id_of_time now_ms) (js_or p.(sp_name) (JStr "")) p.(sp_email) hash (JArr []).

(** Lines 112-117, after the hash is computed with the salt [salt].
    bcrypt rejects a password that is not a string: the [async] handler
    then never answers. *)
Definition signup_finish (p : signup_pending) (f : file_state) (now_ms : Z) (salt : string)
    : file_state * response :=
  match p.(sp_password) with
  | JStr pw =>
      let u := new_user p now_ms (bcrypt_hash salt pw) in
      let token := jwt_sign secret u.(u_id) p.(sp_email) (now_seconds now_ms) seven_days in
      (writeUsers (p.(sp_users) ++ [u]) f,
       json_ok (JObj [("token", JStr token); ("user", public_user u)]))
  | _ => (f, NoResponse)
  end.

(** [POST /auth/signup] run without interruption. *)
Definition signup (f : file_state) (body : jval) (now_ms : Z) (salt : string)
    : file_state * response :=
  match signup_begin f body with
  | SignupDone r => (f, r)
  | SignupAwait p => signup_finish p f now_ms salt
  end.

(** [POST /auth/login], lines 121-130: it never writes the file. *)
Definition login (f : file_state) (body : jval) (now_ms : Z) : response :=
  let email := get body "email" in
  let password := get body "password" in
  match readUsers f with
  | None => NoResponse
  | Some users =>
      match find_by_email email users with
      | None => json_error 400 "Invalid credentials"
      | Some u =>
          match password with
          | JStr pw =>
              if bcrypt_compare pw u.(u_passwordHash)
              then json_ok (JObj [("token", JStr (jwt_sign secret u.(u_id) u.(u_email)
                                                   (now_seconds now_ms) seven_days));
                                  ("user", public_user u)])
              else json_error 400 "Invalid credentials"
          | _ => NoResponse
          end
      end
  end.

(** The body of [GET /auth/me], lines 134-137. *)
Definition me_body (u : user) : jval :=
  JObj [("id", JStr u.(u_id)); ("name", u.(u_name)); ("email", u.(u_email));
        ("watchlist", js_or u.(u_watchlist) (JArr []))].

(** [GET /auth/me], lines 133-138, behind the middleware. *)
Definition me (f : file_state) (authorization : option string) (now_ms : Z) : response :=
  match authMiddleware authorization now_ms with
  | AuthFail r => r
  | AuthOk c =>
      match readUsers f with
      | None => Crash500
      | Some users =>
          match find_by_id c.(cl_id) users with
          | None => json_error 404 "User not found"
          | Some u => json_ok (me_body u)
          end
      end
  end.
End Handlers.

(** The header a client sends: [Authorization: Bearer <token>]. *)
Definition bearer (token : string) : option string := Some ("Bearer " +:+ token).

(** ** Properties of the handlers *)

Section Properties.
Context `{Hb : Bcrypt} `{!BcryptLaws} `{Hj : Jwt} `{!JwtLaws} (secret : string).

(** The middleware answers only with 401. *)
Lemma authMiddleware_fail h t r :
  authMiddleware secret h t = AuthFail r -> exists msg, r = json_error 401 msg.
Proof. unfold authMiddleware. intros Hm. case_code; eauto. Qed.

(** The middleware on a well-formed bearer header is [jwt.verify]. *)
Lemma authMiddleware_bearer tok t :
  no_char " "%char tok = true ->
  authMiddleware secret (bearer tok) t =
  match jwt_verify secret tok (now_seconds t) with
  | Some c => AuthOk c
  | None => AuthFail (json_error 401 "Invalid token")
  end.
Proof.
  intros Hs. unfold authMiddleware, bearer.
  change ("Bearer " +:+ tok) with ("Bearer" +:+ String " "%char tok).
  rewrite js_split_no_char_app, js_split_no_char by done. done.
Qed.

(** A token the server signs is accepted until it expires. *)
Lemma authMiddleware_issued id em iat d t :
  authMiddleware secret (bearer (jwt_sign secret id em iat d)) t =
  if bool_decide (now_seconds t < iat + d)%Z
  then AuthOk (mkClaims id em iat (iat + d))
  else AuthFail (json_error 401 "Invalid token").
Proof.
  rewrite authMiddleware_bearer by apply jwt_sign_no_space.
  rewrite jwt_verify_sign. by case_bool_decide.
Qed.

Lemma truthy_str s : truthy (JStr s) = true <-> s <> "".
Proof. simpl. destruct (String.eqb_spec s ""); naive_solver. Qed.

(** The success branch of [signup], run without interruption. *)
Lemma signup_new f body now salt us pw :
  truthy (get body "email") = true -> get body "password" = JStr pw -> pw <> "" ->
  readUsers f = Some us -> find_by_email (get body "email") us = None ->
  signup secret f body now salt =
  (FileUsers (us ++ [new_user (mkPending us (get body "name") (get body "email") (JStr pw))
                              now (bcrypt_hash salt pw)]),
   json_ok (JObj [("token", JStr (jwt_sign secret (id_of_time now) (get body "email")
                                           (now_seconds now) seven_days));
                  ("user", public_user (new_user (mkPending us (get body "name")
                              (get body "email") (JStr pw)) now (bcrypt_hash salt pw)))])).
Proof.
  intros He Hp Hpw Hr Hf. apply truthy_str in Hpw.
  unfold signup, signup_begin. rewrite He, Hp, Hpw, Hr, Hf. done.
Qed.

(** [find_by_email] finds a user appended with a fresh primitive email. *)
Lemma find_by_email_new email us u :
  u.(u_email) = email -> is_primitive email = true -> find_by_email email us = None ->
  find_by_email email (us ++ [u]) = Some u.
Proof. intros <- Hp Hn. rewrite find_by_email_app, Hn, strict_eq_refl by done. done. Qed.

Lemma find_by_id_app id us u :
  find_by_id id (us ++ [u]) =
  match find_by_id id us with
  | Some v => Some v
  | None => if String.eqb u.(u_id) id then Some u else None
  end.
Proof. unfold find_by_id. rewrite js_find_app. simpl. by destruct (js_find _ us). Qed.

(** [me] on the store [signup] leaves, with the token it returned: the
    user it finds is the first one whose id is the time of the signup. *)
Lemma me_after_signup_first f body now salt us pw t :
  truthy (get body "email") = true -> get body "password" = JStr pw -> pw <> "" ->
  readUsers f = Some us -> find_by_email (get body "email") us = None ->
  (now_seconds t < now_seconds now + seven_days)%Z ->
  me secret (fst (signup secret f body now salt))
     (bearer (jwt_sign secret (id_of_time now) (get body "email") (now_seconds now) seven_days)) t =
  json_ok (me_body (match find_by_id (id_of_time now) us with
                    | Some v => v
                    | None => new_user (mkPending us (get body "name") (get body "email") (JStr pw))
                                       now (bcrypt_hash salt pw)
                    end)).
Proof.
  intros He Hp Hpw Hr Hf Ht. rewrite (signup_new f body now salt us pw) by done.
  unfold me. rewrite authMiddleware_issued, bool_decide_true by done. simpl.
  rewrite find_by_id_app. destruct (find_by_id _ us); [done|].
  by rewrite String.eqb_refl.
Qed.

(** C8: Signing up with an email that a stored user already has (under
    [===]) fails with 400 "Email exists" and leaves the file as it was,
    whatever the password. *)
Theorem signup_existing_email f body now salt us u :
  truthy (get body "email") = true -> truthy (get body "password") = true ->
  readUsers f = Some us -> find_by_email (get body "email") us = Some u ->
  signup secret f body now salt = (f, json_error 400 "Email exists").
Proof. intros He Hp Hr Hf. unfold signup, signup_begin. by rewrite He, Hp, Hr, Hf. Qed.

(** A signup body whose email or password is falsy fails with 400
    "Missing fields" before the file is read, and the file is unchanged. *)
Lemma signup_missing_fields f body now salt :
  truthy (get body "email") = false \/ truthy (get body "password") = false ->
  signup secret f body now salt = (f, json_error 400 "Missing fields").
Proof.
  intros Hm. unfold signup, signup_begin.
  destruct Hm as [-> | ->]; [done|]. by rewrite orb_true_r.
Qed.

(** C9: A successful signup answers with a token which the middleware
    accepts, with the new user's id (the signup time) and email, for
    seven days from the signup, and rejects with 401 from then on. *)
Theorem signup_token_roundtrip f body now salt us pw t :
  truthy (get body "email") = true -> get body "password" = JStr pw -> pw <> "" ->
  readUsers f = Some us -> find_by_email (get body "email") us = None ->
  exists token user,
    snd (signup secret f body now salt) = json_ok (JObj [("token", JStr token); ("user", user)]) /\
    authMiddleware secret (bearer token) t =
    if bool_decide (now_seconds t < now_seconds now + seven_days)%Z
    then AuthOk (mkClaims (id_of_time now) (get body "email") (now_seconds now)
                          (now_seconds now + seven_days))
    else AuthFail (json_error 401 "Invalid token").
Proof. intros. rewrite (signup_new f body now salt us pw) by done. eexists _, _. split; [done|]. apply authMiddleware_issued. Qed.

(** C28: When no stored user has the id the signup time gives,
    [GET /auth/me] with the token of the signup returns the new user:
    its id, its name (or [""]), its email and an empty watchlist. *)
Theorem me_after_signup f body now salt us pw t :
  truthy (get body "email") = true -> get body "password" = JStr pw -> pw <> "" ->
  readUsers f = Some us -> find_by_email (get body "email") us = None ->
  find_by_id (id_of_time now) us = None ->
  (now_seconds t < now_seconds now + seven_days)%Z ->
  exists token user,
    snd (signup secret f body now salt) = json_ok (JObj [("token", JStr token); ("user", user)]) /\
    me secret (fst (signup secret f body now salt)) (bearer token) t =
    json_ok (JObj [("id", JStr (id_of_time now)); ("name", js_or (get body "name") (JStr ""));
                   ("email", get body "email"); ("watchlist", JArr [])]).
Proof.
  intros He Hp Hpw Hr Hf Hid Ht. eexists _, _. split; [by rewrite (signup_new f body now salt us pw)|].
  rewrite (me_after_signup_first f body now salt us pw t), Hid by done. done.
Qed.

(** C30: The id of a new user is [Date.now()] in milliseconds, so two
    signups in the same millisecond give two users the same id; the
    token of the second then names the first: [GET /auth/me] with it
    returns the first user's record, email and watchlist included. *)
Theorem signup_same_millisecond_identity f body now salt us pw t v :
  truthy (get body "email") = true -> get body "password" = JStr pw -> pw <> "" ->
  readUsers f = Some us -> find_by_email (get body "email") us = None ->
  find_by_id (id_of_time now) us = Some v ->
  (now_seconds t < now_seconds now + seven_days)%Z ->
  exists token user,
    snd (signup secret f body now salt) = json_ok (JObj [("token", JStr token); ("user", user)]) /\
    me secret (fst (signup secret f body now salt)) (bearer token) t = json_ok (me_body v).
Proof.
  intros He Hp Hpw Hr Hf Hid Ht. eexists _, _. split; [by rewrite (signup_new f body now salt us pw)|].
  rewrite (me_after_signup_first f body now salt us pw t), Hid by done. done.
Qed.

(** C10: Every answer of [/auth/login] other than success is 400
    "Invalid credentials": an unknown email and a wrong password are
    told apart by nothing in the answer. *)
Theorem login_failure_uniform f body now s b :
  login secret f body now = Respond s b -> s <> 200%Z ->
  s = 400%Z /\ b = JObj [("error", JStr "Invalid credentials")].
Proof.
  intros Hl Hs. unfold login, json_ok, json_error in Hl. case_code; done.
Qed.

(** C27: After a signup with a fresh primitive email and a string
    password, logging in with that email succeeds exactly when the
    password given agrees with the stored one on its first 72
    characters (bcrypt ignores the rest), and returns a fresh token and
    the new user. *)
Theorem login_after_signup f body body' now now' salt us pw pw' :
  truthy (get body "email") = true -> is_primitive (get body "email") = true ->
  get body "password" = JStr pw -> pw <> "" ->
  readUsers f = Some us -> find_by_email (get body "email") us = None ->
  bcrypt_salt_ok salt ->
  get body' "email" = get body "email" -> get body' "password" = JStr pw' ->
  login secret (fst (signup secret f body now salt)) body' now' =
  if bool_decide (bcrypt_truncate pw' = bcrypt_truncate pw)
  then json_ok (JObj [("token", JStr (jwt_sign secret (id_of_time now) (get body "email")
                                               (now_seconds now') seven_days));
                      ("user", public_user (new_user (mkPending us (get body "name")
                                 (get body "email") (JStr pw)) now (bcrypt_hash salt pw)))])
  else json_error 400 "Invalid credentials".
Proof.
  intros He Hprim Hp Hpw Hr Hf Hs He' Hp'. rewrite (signup_new f body now salt us pw) by done.
  unfold login. simpl. rewrite He', Hp', (find_by_email_new (get body "email")) by done.
  simpl. rewrite bcrypt_compare_hash by done. by case_bool_decide.
Qed.

(** C11: The middleware lets a request through only with a header whose
    second space-separated word is a token that [jwt.sign] made with the
    server's secret for the claims it returns, before their expiry. *)
Theorem authMiddleware_sound h t c :
  authMiddleware secret h t = AuthOk c ->
  exists auth token,
    h = Some auth /\ js_split " "%char auth !! 1%nat = Some token /\
    token = jwt_sign secret (cl_id c) (cl_email c) (cl_iat c) (cl_exp c - cl_iat c) /\
    (now_seconds t < cl_exp c)%Z.
Proof.
  unfold authMiddleware, nth_str. intros Hm.
  destruct h as [auth|]; [|done]. case_match; [done|].
  destruct (js_split " "%char auth !! 1%nat) as [token|] eqn:Ht; [|done].
  destruct (jwt_verify secret token (now_seconds t)) as [c'|] eqn:Hv; simplify_eq.
  apply jwt_verify_issued in Hv as [? ?]. eauto 10.
Qed.

(** C14: The token a successful signup answers lives for [expiresIn:
    '7d'] counted from its [iat = floor(now/1000)]: there is a deadline
    such that the middleware accepts the token at millisecond [t]
    exactly when [t] is before it, and the deadline lies in
    [(now + 604799000, now + 604800000]], seven days after the signup
    less up to one second, depending on where in its second the signup
    happened. *)
Theorem token_lifetime_bounds f body now salt us pw :
  truthy (get body "email") = true -> get body "password" = JStr pw -> pw <> "" ->
  readUsers f = Some us -> find_by_email (get body "email") us = None ->
  exists token user deadline,
    snd (signup secret f body now salt) = json_ok (JObj [("token", JStr token); ("user", user)]) /\
    (forall t, (exists c, authMiddleware secret (bearer token) t = AuthOk c) <-> (t < deadline)%Z) /\
    (now + 604799000 < deadline <= now + 604800000)%Z.
Proof.
  intros. rewrite (signup_new f body now salt us pw) by done.
  eexists _, _, (1000 * (now_seconds now + seven_days))%Z. split; [done|].
  unfold now_seconds, seven_days. split; [|Z.to_euclidean_division_equations; lia].
  intros t. rewrite authMiddleware_issued. unfold now_seconds, seven_days.
  case_bool_decide as Hlt; split; [intros _|eauto|intros [? [=]]|intros Ht; exfalso; apply Hlt];
    Z.to_euclidean_division_equations; lia.
Qed.

End Properties.

Section DefaultSecret.
Context `{Hj : Jwt} `{!JwtLaws}.

(** C31: When [JWT_SECRET] is not set, the server signs with the string
    "replace-this-secret" written in its source, and the middleware
    accepts a token anyone makes with it, for any user id and email. *)
Theorem default_secret_forgery id em iat t :
  (now_seconds t < iat + seven_days)%Z ->
  authMiddleware (jwt_secret_of None) (bearer (jwt_sign default_jwt_secret id em iat seven_days)) t =
  AuthOk (mkClaims id em iat (iat + seven_days)).
Proof.
  intros Ht. change (jwt_secret_of None) with default_jwt_secret.
  rewrite authMiddleware_issued. by rewrite bool_decide_true.
Qed.
End DefaultSecret.

(** ** Witnesses, on the computable instances of [Crypto] *)

Definition ex_secret : string := "s3cret".
Definition ex_salt : string := "abcdefghijklmnopqrstuv".
Definition ex_t0 : Z := 1700000000000.
Definition ex_alice : jval :=
  JObj [("name", JStr "Alice"); ("email", JStr "a@x.com"); ("password", JStr "p")].
Definition ex_bob : jval := JObj [("email", JStr "b@x.com"); ("password", JStr "q")].
Definition ex_alice_user : user :=
  new_user (mkPending [] (JStr "Alice") (JStr "a@x.com") (JStr "p")) ex_t0 (bcrypt_hash ex_salt "p").
Definition ex_store1 : file_state := FileUsers [ex_alice_user].

Lemma signup_existing_email_witness :
  signup ex_secret ex_store1 ex_alice (ex_t0 + 5) ex_salt = (ex_store1, json_error 400 "Email exists").
Proof.
  apply (signup_existing_email ex_secret ex_store1 ex_alice (ex_t0 + 5) ex_salt
           [ex_alice_user] ex_alice_user); vm_compute; reflexivity.
Defined.

Lemma signup_token_roundtrip_witness :
  exists token user,
    snd (signup ex_secret (FileUsers []) ex_alice ex_t0 ex_salt) =
    json_ok (JObj [("token", JStr token); ("user", user)]) /\
    authMiddleware ex_secret (bearer token) (ex_t0 + 1000) =
    if bool_decide (now_seconds (ex_t0 + 1000) < now_seconds ex_t0 + seven_days)%Z
    then AuthOk (mkClaims (id_of_time ex_t0) (get ex_alice "email") (now_seconds ex_t0)
                          (now_seconds ex_t0 + seven_days))
    else AuthFail (json_error 401 "Invalid token").
Proof.
  apply (signup_token_roundtrip ex_secret (FileUsers []) ex_alice ex_t0 ex_salt [] "p");
    vm_compute; congruence.
Defined.

Lemma me_after_signup_witness :
  exists token user,
    snd (signup ex_secret (FileUsers []) ex_alice ex_t0 ex_salt) =
    json_ok (JObj [("token", JStr token); ("user", user)]) /\
    me ex_secret (fst (signup ex_secret (FileUsers []) ex_alice ex_t0 ex_salt)) (bearer token)
       (ex_t0 + 1000) =
    json_ok (JObj [("id", JStr (id_of_time ex_t0)); ("name", js_or (get ex_alice "name") (JStr ""));
                   ("email", get ex_alice "email"); ("watchlist", JArr [])]).
Proof.
  apply (me_after_signup ex_secret (FileUsers []) ex_alice ex_t0 ex_salt [] "p");
    vm_compute; congruence.
Defined.

(** Bob signs up in the millisecond of Alice's signup: his token opens
    Alice's account. *)
Lemma signup_same_millisecond_identity_witness :
  exists token user,
    snd (signup ex_secret ex_store1 ex_bob ex_t0 ex_salt) =
    json_ok (JObj [("token", JStr token); ("user", user)]) /\
    me ex_secret (fst (signup ex_secret ex_store1 ex_bob ex_t0 ex_salt)) (bearer token) (ex_t0 + 1000) =
    json_ok (me_body ex_alice_user).
Proof.
  apply (signup_same_millisecond_identity ex_secret ex_store1 ex_bob ex_t0 ex_salt
           [ex_alice_user] "q"); vm_compute; congruence.
Defined.

Lemma login_failure_uniform_witness :
  (400 = 400)%Z /\ JObj [("error", JStr "Invalid credentials")] = JObj [("error", JStr "Invalid credentials")].
Proof.
  apply (login_failure_uniform ex_secret ex_store1
           (JObj [("email", JStr "a@x.com"); ("password", JStr "wrong")]) ex_t0);
    [vm_compute; reflexivity | lia].
Defined.

(** Two 73-character passwords that differ only in their last character. *)
Definition ex_long_pw (c : ascii) : string :=
  String.string_of_list_ascii (replicate 72 "a"%char ++ [c]).

Lemma login_after_signup_witness :
  login ex_secret
    (fst (signup ex_secret (FileUsers [])
            (JObj [("email", JStr "c@x.com"); ("password", JStr (ex_long_pw "1"))]) ex_t0 ex_salt))
    (JObj [("email", JStr "c@x.com"); ("password", JStr (ex_long_pw "2"))]) (ex_t0 + 1000) =
  if bool_decide (bcrypt_truncate (ex_long_pw "2") = bcrypt_truncate (ex_long_pw "1"))
  then json_ok (JObj [("token", JStr (jwt_sign ex_secret (id_of_time ex_t0) (JStr "c@x.com")
                                               (now_seconds (ex_t0 + 1000)) seven_days));
                      ("user", public_user (new_user (mkPending [] JUndef (JStr "c@x.com")
                                 (JStr (ex_long_pw "1"))) ex_t0 (bcrypt_hash ex_salt (ex_long_pw "1"))))])
  else json_error 400 "Invalid credentials".
Proof.
  apply (login_after_signup ex_secret (FileUsers [])
           (JObj [("email", JStr "c@x.com"); ("password", JStr (ex_long_pw "1"))])
           (JObj [("email", JStr "c@x.com"); ("password", JStr (ex_long_pw "2"))])
           ex_t0 (ex_t0 + 1000) ex_salt [] (ex_long_pw "1") (ex_long_pw "2"));
    vm_compute; congruence.
Defined.

Lemma authMiddleware_sound_witness :
  exists auth token,
    bearer (jwt_sign ex_secret "7" (JStr "a@x.com") 10 seven_days) = Some auth /\
    js_split " "%char auth !! 1%nat = Some token /\
    token = jwt_sign ex_secret "7" (JStr "a@x.com") 10 (10 + seven_days - 10) /\
    (now_seconds 20000 < 10 + seven_days)%Z.
Proof.
  apply (authMiddleware_sound ex_secret (bearer (jwt_sign ex_secret "7" (JStr "a@x.com") 10 seven_days))
           20000 (mkClaims "7" (JStr "a@x.com") 10 (10 + seven_days))).
  vm_compute. reflexivity.
Defined.

Lemma default_secret_forgery_witness :
  authMiddleware (jwt_secret_of None)
    (bearer (jwt_sign default_jwt_secret (id_of_time ex_t0) (JStr "a@x.com") (now_seconds ex_t0) seven_days))
    (ex_t0 + 1000) =
  AuthOk (mkClaims (id_of_time ex_t0) (JStr "a@x.com") (now_seconds ex_t0) (now_seconds ex_t0 + seven_days)).
Proof. apply default_secret_forgery. vm_compute. reflexivity. Defined.

Lemma token_lifetime_bounds_witness :
  exists token user deadline,
    snd (signup ex_secret (FileUsers []) ex_alice ex_t0 ex_salt) =
    json_ok (JObj [("token", JStr token); ("user", user)]) /\
    (forall t, (exists c, authMiddleware ex_secret (bearer token) t = AuthOk c) <-> (t < deadline)%Z) /\
    (ex_t0 + 604799000 < deadline <= ex_t0 + 604800000)%Z.
Proof.
  apply (token_lifetime_bounds ex_secret (FileUsers []) ex_alice ex_t0 ex_salt [] "p");
    vm_compute; congruence.
Defined.
