(* ===== verification/Watchlist.v ===== *)
(** * Watchlist: the toggle rule and the [/api/watchlist] endpoints

    [POST /api/watchlist] (lines 148-162 of [src/server/index.js]) runs
    behind [authMiddleware]: it reads the users, finds the index of the
    user named by the token (404 when there is none), checks that the body
    has a [movie] with a truthy [id] (400), replaces a missing watchlist by
    [[]], removes every item whose [id] is [===] to the movie's when there
    is one and appends the movie otherwise, writes the file and answers
    with the new watchlist.  [GET /api/watchlist] (lines 141-146) answers
    with the stored watchlist.

    [toggle] is the rule on the array; [watchlist_post] and
    [watchlist_get] are the handlers.  The theorems show that [toggle]
    implements the toggle of a finite set of ids ([gset_toggle]) when the
    id is a primitive value, that it keeps the ids of a watchlist pairwise
    distinct, how the handler behaves on each branch, and that
    [watchlist_get] answers what [GET /auth/me] ([me] of [Auth]) answers,
    restricted to its [watchlist] field. *)

From S2P Require Import Prelude JsValue Http UserStore Crypto Auth.
From stdpp Require Import gmap.

(** [m => m.id === movie.id] (lines 157-158). *)
Definition same_id (movie m : jval) : bool := get m "id" === get movie "id".

(** Lines 157-159: [exists] is the item [find] returns. *)
Definition toggle (wl : list jval) (movie : jval) : list jval :=
  match js_find (same_id movie) wl with
  | Some m =>
      if truthy m then List.filter (fun m => negb (same_id movie m)) wl
      else wl ++ [movie]
  | None => wl ++ [movie]
  end.

(** [users[uIndex].watchlist = ...] *)
Definition set_watchlist (u : user) (wl : jval) : user :=
  mkUser u.(u_id) u.(u_name) u.(u_email) u.(u_passwordHash) wl.

Section Handlers.
Context `{Bcrypt} `{Jwt} (secret : string).

(** [POST /api/watchlist], lines 148-162.  [readUsers] throwing in this
    synchronous handler, and [find] on a watchlist that is not an array,
    are answered 500 by Express. *)
Definition watchlist_post (f : file_state) (authorization : option string) (body : jval)
    (now_ms : Z) : file_state * response :=
  match authMiddleware secret authorization now_ms with
  | AuthFail r => (f, r)
  | AuthOk c =>
      match readUsers f with
      | None => (f, Crash500)
      | Some users =>
          let uIndex := findIndex_by_id c.(cl_id) users in
          if (uIndex =? -1)%Z then (f, json_error 404 "User not found")
          else
            let movie := get body "movie" in
            if negb (truthy movie) || negb (truthy (get movie "id"))
            then (f, json_error 400 "Missing movie")
            else match users !! Z.to_nat uIndex with
                 | None => (f, Crash500)
                 | Some u =>
                     match js_or u.(u_watchlist) (JArr []) with
                     | JArr wl =>
                         let wl' := toggle wl movie in
                         (writeUsers (<[Z.to_nat uIndex := set_watchlist u (JArr wl')]> users) f,
                          json_ok (JObj [("watchlist", JArr wl')]))
                     | _ => (f, Crash500)
                     end
                 end
      end
  end.

(** [GET /api/watchlist], lines 141-146. *)
Definition watchlist_get (f : file_state) (authorization : option string) (now_ms : Z)
    : response :=
  match authMiddleware secret authorization now_ms with
  | AuthFail r => r
  | AuthOk c =>
      match readUsers f with
      | None => Crash500
      | Some users =>
          match find_by_id c.(cl_id) users with
          | None => json_error 404 "User not found"
          | Some u => json_ok (JObj [("watchlist", js_or u.(u_watchlist) (JArr []))])
          end
      end
  end.
End Handlers.

(** ** The abstract watchlist: a finite set of ids *)

(** The ids of the items. *)
Definition ids_of (wl : list jval) : gset jval := list_to_set ((fun m => get m "id") <$> wl).

Definition gset_toggle (x : jval) (s : gset jval) : gset jval :=
  if decide (x ∈ s) then s ∖ {[x]} else s ∪ {[x]}.

(** What [toggle] does to the ids: a primitive id is toggled; an object
    id is [===] to no stored one, so it is added. *)
Definition set_toggle (x : jval) (s : gset jval) : gset jval :=
  if is_primitive x then gset_toggle x s else s ∪ {[x]}.

(** No two items have [===] ids. *)
Fixpoint ids_distinct (wl : list jval) : bool :=
  match wl with
  | [] => true
  | m :: wl' => forallb (fun m' => negb (get m "id" === get m' "id")) wl' && ids_distinct wl'
  end.

(** ** Properties of the toggle rule *)

Lemma same_id_truthy movie m :
  truthy (get movie "id") = true -> same_id movie m = true -> truthy m = true.
Proof.
  unfold same_id. intros Ht Hs. apply strict_eq_sound in Hs.
  destruct m; try done; simpl in Hs; by rewrite <- Hs in Ht.
Qed.

Lemma toggle_found wl movie m :
  truthy (get movie "id") = true -> js_find (same_id movie) wl = Some m ->
  toggle wl movie = List.filter (fun m => negb (same_id movie m)) wl.
Proof.
  intros Ht Hf. unfold toggle. rewrite Hf.
  apply js_find_Some in Hf as [_ Hs]. by rewrite (same_id_truthy movie m).
Qed.

Lemma toggle_absent wl movie :
  js_find (same_id movie) wl = None -> toggle wl movie = wl ++ [movie].
Proof. intros Hf. unfold toggle. by rewrite Hf. Qed.

Lemma ids_of_cons m wl : ids_of (m :: wl) = {[get m "id"]} ∪ ids_of wl.
Proof. done. Qed.

Lemma elem_of_ids_of x wl : x ∈ ids_of wl <-> exists m, m ∈ wl /\ get m "id" = x.
Proof. unfold ids_of. rewrite elem_of_list_to_set, list_elem_of_fmap. naive_solver. Qed.

(** Removing the items whose id is [===] to a primitive [x] removes [x]. *)
Lemma ids_of_filter wl x :
  is_primitive x = true ->
  ids_of (List.filter (fun m => negb (get m "id" === x)) wl) = ids_of wl ∖ {[x]}.
Proof.
  intros Hx. induction wl as [|m wl IH]; [simpl; set_solver|].
  rewrite ids_of_cons. cbn [List.filter].
  destruct (strict_eq (get m "id") x) eqn:E; cbn [negb].
  - rewrite IH. apply strict_eq_iff in E; [|done]. set_solver.
  - assert (get m "id" <> x) by (intros Heq; rewrite Heq, strict_eq_refl in E; done).
    rewrite ids_of_cons, IH. set_solver.
Qed.

Lemma ids_of_absent wl movie :
  js_find (same_id movie) wl = None -> is_primitive (get movie "id") = true ->
  get movie "id" ∉ ids_of wl.
Proof.
  rewrite js_find_None, Forall_forall. intros Hn Hp (m & Hm & Hid)%elem_of_ids_of.
  specialize (Hn m Hm). unfold same_id in Hn. by rewrite Hid, strict_eq_refl in Hn.
Qed.

(** [toggle] on the ids, for every truthy id. *)
Lemma toggle_ids_of wl movie :
  truthy (get movie "id") = true ->
  ids_of (toggle wl movie) = set_toggle (get movie "id") (ids_of wl).
Proof.
  intros Ht. unfold set_toggle, gset_toggle.
  destruct (is_primitive (get movie "id")) eqn:Hp.
  - destruct (js_find (same_id movie) wl) as [m|] eqn:E.
    + assert (get movie "id" ∈ ids_of wl).
      { apply js_find_Some in E as [Hm Hs]. apply strict_eq_sound in Hs.
        apply elem_of_ids_of. eauto. }
      rewrite (toggle_found wl movie m), decide_True by done. by apply ids_of_filter.
    + rewrite toggle_absent, decide_False by eauto using ids_of_absent.
      unfold ids_of. rewrite fmap_app, list_to_set_app_L. set_solver.
  - rewrite toggle_absent.
    + unfold ids_of. rewrite fmap_app, list_to_set_app_L. set_solver.
    + apply js_find_None, Forall_forall. intros m _. unfold same_id.
      destruct (strict_eq _ _) eqn:E; [|done].
      rewrite strict_eq_sym in E. by rewrite (strict_eq_prim _ _ E) in Hp.
Qed.

(** C1: With a primitive truthy id, [toggle] is the toggle of the id in
    the set of ids of the watchlist: the id is removed when some item has
    it and added otherwise. *)
Theorem toggle_refines_set wl movie :
  is_primitive (get movie "id") = true -> truthy (get movie "id") = true ->
  ids_of (toggle wl movie) = gset_toggle (get movie "id") (ids_of wl).
Proof. intros Hp Ht. rewrite toggle_ids_of by done. unfold set_toggle. by rewrite Hp. Qed.

(** Toggling twice a movie whose primitive truthy id no item has
    gives the watchlist back: the first toggle appends the movie, the
    second removes it. *)
Theorem toggle_twice_absent wl movie :
  is_primitive (get movie "id") = true -> truthy (get movie "id") = true ->
  js_find (same_id movie) wl = None ->
  toggle wl movie = wl ++ [movie] /\ toggle (toggle wl movie) movie = wl.
Proof.
  intros Hp Ht Hf. rewrite toggle_absent by done. split; [done|].
  assert (Hs : same_id movie movie = true) by (unfold same_id; auto with moviehub).
  assert (Hf2 : js_find (same_id movie) (wl ++ [movie]) = Some movie)
    by (rewrite js_find_app, Hf; simpl; by rewrite Hs).
  rewrite (toggle_found _ movie movie) by done.
  rewrite List.filter_app. simpl. rewrite Hs. simpl. rewrite app_nil_r.
  clear Hf2. rewrite js_find_None in Hf. induction Hf as [|m wl Hm _ IH]; simpl; [done|].
  by rewrite Hm, IH.
Qed.

Lemma ids_distinct_filter p wl : ids_distinct wl = true -> ids_distinct (List.filter p wl) = true.
Proof.
  induction wl as [|m wl IH]; simpl; [done|]. rewrite andb_true_iff, forallb_forall.
  intros [Hm Hd]. destruct (p m); simpl; [|by apply IH].
  rewrite andb_true_iff, forallb_forall. split; [|by apply IH].
  intros m' [Hm' _]%filter_In. by apply Hm.
Qed.

Lemma ids_distinct_app wl movie :
  ids_distinct wl = true -> js_find (same_id movie) wl = None ->
  ids_distinct (wl ++ [movie]) = true.
Proof.
  rewrite js_find_None. induction wl as [|m wl IH]; simpl; [done|].
  rewrite !andb_true_iff. intros [Hm Hd] Hf. inversion Hf as [|? ? Hs Hf']; subst.
  rewrite forallb_app. simpl. unfold same_id in Hs. by rewrite Hs, Hm, (IH Hd Hf').
Qed.

(** [toggle] with a truthy id keeps the ids of a watchlist pairwise
    distinct under [===]: the watchlist stays a set keyed by id. *)
Theorem toggle_preserves_ids_distinct wl movie :
  truthy (get movie "id") = true -> ids_distinct wl = true -> ids_distinct (toggle wl movie) = true.
Proof.
  intros Ht Hd. destruct (js_find (same_id movie) wl) as [m|] eqn:E.
  - rewrite (toggle_found wl movie m) by done. by apply ids_distinct_filter.
  - rewrite toggle_absent by done. by apply ids_distinct_app.
Qed.

(** ** Properties of the handlers *)

Lemma truthy_of_id m : truthy (get m "id") = true -> truthy m = true.
Proof. by destruct m. Qed.

Lemma set_watchlist_same u : set_watchlist u u.(u_watchlist) = u.
Proof. by destruct u. Qed.

Lemma set_watchlist_twice u w w' : set_watchlist (set_watchlist u w) w' = set_watchlist u w'.
Proof. done. Qed.

Section HandlerProperties.
Context `{Hb : Bcrypt} `{Hj : Jwt} (secret : string).

(** The handler once the user is found at index [i] and the body checked. *)
Lemma watchlist_post_found f h body t c us i u :
  authMiddleware secret h t = AuthOk c -> readUsers f = Some us ->
  findIndex_by_id c.(cl_id) us = Z.of_nat i -> us !! i = Some u ->
  truthy (get body "movie") = true -> truthy (get (get body "movie") "id") = true ->
  watchlist_post secret f h body t =
  match js_or u.(u_watchlist) (JArr []) with
  | JArr wl => (FileUsers (<[i := set_watchlist u (JArr (toggle wl (get body "movie")))]> us),
                json_ok (JObj [("watchlist", JArr (toggle wl (get body "movie")))]))
  | _ => (f, Crash500)
  end.
Proof.
  intros Ha Hr Hi Hl Hm Hid. unfold watchlist_post. rewrite Ha, Hr, Hi, Hm, Hid.
  rewrite (proj2 (Z.eqb_neq _ _)) by lia. simpl. by rewrite Nat2Z.id, Hl.
Qed.

(** The file after [POST /api/watchlist]: unchanged, or one user's
    watchlist replaced by its toggle with a movie whose id is truthy. *)
Lemma watchlist_post_file f h body t :
  fst (watchlist_post secret f h body t) = f \/
  exists us i u wl, readUsers f = Some us /\ us !! i = Some u /\
    js_or u.(u_watchlist) (JArr []) = JArr wl /\ truthy (get (get body "movie") "id") = true /\
    fst (watchlist_post secret f h body t) =
    FileUsers (<[i := set_watchlist u (JArr (toggle wl (get body "movie")))]> us).
Proof.
  unfold watchlist_post. destruct (authMiddleware _ _ _); [|by left].
  destruct (readUsers f) as [us|] eqn:Hr; [|by left]. destruct (_ =? _)%Z; [by left|].
  destruct (truthy (get body "movie")), (truthy (get (get body "movie") "id")) eqn:Hid;
    simpl; try by left.
  destruct (us !! _) as [u|] eqn:Hl; [|by left].
  destruct (js_or _ _) eqn:Ho; try by left. right. eauto 10.
Qed.

(** What a successful [POST /api/watchlist] has done. *)
Lemma watchlist_post_success f h body t c wl' :
  authMiddleware secret h t = AuthOk c ->
  snd (watchlist_post secret f h body t) = json_ok (JObj [("watchlist", JArr wl')]) ->
  exists us i u wl, readUsers f = Some us /\ find_by_id c.(cl_id) us = Some u /\
    us !! i = Some u /\ js_or u.(u_watchlist) (JArr []) = JArr wl /\
    wl' = toggle wl (get body "movie") /\
    fst (watchlist_post secret f h body t) =
    FileUsers (<[i := set_watchlist u (JArr (toggle wl (get body "movie")))]> us) /\
    findIndex_by_id c.(cl_id) us = Z.of_nat i.
Proof.
  intros Ha. unfold watchlist_post. rewrite Ha.
  destruct (readUsers f) as [us|] eqn:Hr; [|done].
  destruct (js_findIndex_spec (fun u => String.eqb u.(u_id) c.(cl_id)) us)
    as [[Hi _]|(i & x & Hi & _ & _)]; fold (findIndex_by_id c.(cl_id) us) in Hi; rewrite Hi;
    [done|]. rewrite (proj2 (Z.eqb_neq _ _)) by lia. rewrite Nat2Z.id.
  destruct (truthy (get body "movie")), (truthy (get (get body "movie") "id")); simpl; try done.
  destruct (us !! i) as [u|] eqn:Hl; [|done].
  destruct (js_or _ _) eqn:Ho; try done. intros [= <-].
  exists us, i, u, elems. split_and!; eauto using findIndex_by_id_some.
Qed.

(** [toggle] always changes the length of the watchlist: it removes at
    least the item it found, or appends one. *)
Lemma toggle_length_ne wl movie : length (toggle wl movie) <> length wl.
Proof.
  unfold toggle. destruct (js_find (same_id movie) wl) as [m|] eqn:Hf.
  - destruct (truthy m); [|rewrite length_app; simpl; lia].
    apply js_find_Some in Hf as [Hm Hs].
    assert (length (List.filter (fun m => negb (same_id movie m)) wl) < length wl); [|lia].
    clear -Hm Hs. induction wl as [|y wl IH]; [by apply elem_of_nil in Hm|].
    apply elem_of_cons in Hm as [->|Hm]; simpl.
    + rewrite Hs. simpl. pose proof (List.filter_length_le (fun m => negb (same_id movie m)) wl). lia.
    + specialize (IH Hm). destruct (negb _); simpl; lia.
  - rewrite length_app. simpl. lia.
Qed.

(** After the handler, the user is found at the same index. *)
Lemma findIndex_by_id_set id us i u w :
  us !! i = Some u -> findIndex_by_id id (<[i := set_watchlist u w]> us) = findIndex_by_id id us.
Proof. intros Hl. by apply (js_findIndex_insert _ _ _ _ u). Qed.

(** C26: [POST /api/watchlist] for a token whose user is not in the file
    answers 404 "User not found" and leaves the file unchanged, whatever
    the body: the user is looked up before the body is checked. *)
Theorem watchlist_post_unknown_user f h body t c us :
  authMiddleware secret h t = AuthOk c -> readUsers f = Some us ->
  find_by_id c.(cl_id) us = None ->
  watchlist_post secret f h body t = (f, json_error 404 "User not found").
Proof. intros Ha Hr Hf. unfold watchlist_post. by rewrite Ha, Hr, findIndex_by_id_none. Qed.

(** C25: [POST /api/watchlist] for a known user with no [movie] in the
    body, or a movie whose [id] is falsy, answers 400 "Missing movie"
    and leaves the file unchanged. *)
Theorem watchlist_post_missing_movie f h body t c us u :
  authMiddleware secret h t = AuthOk c -> readUsers f = Some us ->
  find_by_id c.(cl_id) us = Some u ->
  truthy (get body "movie") = false \/ truthy (get (get body "movie") "id") = false ->
  watchlist_post secret f h body t = (f, json_error 400 "Missing movie").
Proof.
  intros Ha Hr Hf Hm. destruct (findIndex_by_id_found _ _ _ Hf) as (i & Hi & _).
  unfold watchlist_post. rewrite Ha, Hr, Hi, (proj2 (Z.eqb_neq _ _)) by lia.
  destruct Hm as [-> | ->]; [done|]. by rewrite orb_true_r.
Qed.

(** C5: [POST /api/watchlist] for a known user with a valid movie
    writes the file with that user's watchlist replaced by its toggle
    (a missing watchlist counting as empty) and every other user
    unchanged, and answers with the new watchlist. *)
Theorem watchlist_post_toggles f h body t c us u wl :
  authMiddleware secret h t = AuthOk c -> readUsers f = Some us ->
  find_by_id c.(cl_id) us = Some u ->
  truthy (get (get body "movie") "id") = true ->
  js_or u.(u_watchlist) (JArr []) = JArr wl ->
  exists i, us !! i = Some u /\
    watchlist_post secret f h body t =
    (FileUsers (<[i := set_watchlist u (JArr (toggle wl (get body "movie")))]> us),
     json_ok (JObj [("watchlist", JArr (toggle wl (get body "movie")))])).
Proof.
  intros Ha Hr Hf Hid Hw. destruct (findIndex_by_id_found _ _ _ Hf) as (i & Hi & Hl).
  exists i. split; [done|].
  rewrite (watchlist_post_found f h body t c us i u), Hw by auto using truthy_of_id. done.
Qed.

(** C3: Two [POST /api/watchlist] in a row with the same movie, whose
    primitive truthy id is not in the user's watchlist, first answer the
    watchlist with the movie appended, then the watchlist as it was, and
    leave the file as it was. *)
Theorem watchlist_post_twice_restores us h body t t' c c' u wl :
  authMiddleware secret h t = AuthOk c -> authMiddleware secret h t' = AuthOk c' ->
  cl_id c' = cl_id c -> find_by_id c.(cl_id) us = Some u -> u.(u_watchlist) = JArr wl ->
  is_primitive (get (get body "movie") "id") = true ->
  truthy (get (get body "movie") "id") = true ->
  js_find (same_id (get body "movie")) wl = None ->
  let '(f1, r1) := watchlist_post secret (FileUsers us) h body t in
  let '(f2, r2) := watchlist_post secret f1 h body t' in
  r1 = json_ok (JObj [("watchlist", JArr (wl ++ [get body "movie"]))]) /\
  r2 = json_ok (JObj [("watchlist", JArr wl)]) /\ f2 = FileUsers us.
Proof.
  intros Ha Ha' Hc Hf Hw Hp Ht Habs.
  destruct (toggle_twice_absent wl (get body "movie")) as [H1 H2]; [done..|].
  destruct (findIndex_by_id_found _ _ _ Hf) as (i & Hi & Hl).
  rewrite (watchlist_post_found _ h body t c us i u), Hw by auto using truthy_of_id.
  cbn [js_or truthy]. rewrite H1.
  set (us1 := <[i := set_watchlist u (JArr (wl ++ [get body "movie"]))]> us).
  rewrite (watchlist_post_found _ h body t' c' us1 i (set_watchlist u (JArr (wl ++ [get body "movie"])))).
  - simpl. unfold us1.
    rewrite <- H1, H2, list_insert_insert_eq, set_watchlist_twice, <- Hw, set_watchlist_same,
      list_insert_id by done.
    done.
  - done.
  - done.
  - unfold us1. by rewrite Hc, findIndex_by_id_set.
  - apply list_lookup_insert_eq. by eapply lookup_lt_Some.
  - by apply truthy_of_id.
  - done.
Qed.

(** C29: The two watchlist routes round-trip: after a successful
    [POST /api/watchlist], a [GET /api/watchlist] with a valid token of
    the same user answers the watchlist the [POST] returned. *)
Theorem watchlist_get_after_post f h h' body t t' c c' wl' :
  authMiddleware secret h t = AuthOk c -> authMiddleware secret h' t' = AuthOk c' ->
  c'.(cl_id) = c.(cl_id) ->
  snd (watchlist_post secret f h body t) = json_ok (JObj [("watchlist", JArr wl')]) ->
  watchlist_get secret (fst (watchlist_post secret f h body t)) h' t' =
  json_ok (JObj [("watchlist", JArr wl')]).
Proof.
  intros Ha Ha' Hid Hs.
  destruct (watchlist_post_success f h body t c wl' Ha Hs)
    as (us & i & u & wl & Hr & Hf & Hl & Ho & -> & -> & Hi).
  unfold watchlist_get. rewrite Ha', Hid. cbn [readUsers].
  unfold find_by_id. rewrite (js_find_insert _ _ _ u) by done.
  unfold findIndex_by_id in Hi. by rewrite Hi, bool_decide_true.
Qed.
(** C23: The two routes that read a user's record agree: on every file,
    header and time, [GET /api/watchlist] answers what [GET /auth/me]
    answers, its 401, 404 and crash included, except that a successful
    answer carries only the [watchlist] field of the [/auth/me] body. *)
Theorem watchlist_get_agrees_me f h t :
  watchlist_get secret f h t =
  match me secret f h t with
  | Respond s b => if Z.eqb s 200 then json_ok (JObj [("watchlist", get b "watchlist")])
                   else Respond s b
  | r => r
  end.
Proof.
  unfold watchlist_get, me. destruct (authMiddleware secret h t) as [c|r] eqn:Ha.
  - destruct (readUsers f); [destruct (find_by_id _ _)|]; reflexivity.
  - by destruct (authMiddleware_fail secret h t r Ha) as [msg ->].
Qed.
End HandlerProperties.

(** ** Witnesses *)

Definition ex_movie42 : jval := JObj [("id", JNum 42); ("title", JStr "T")].
Definition ex_post42 : jval := JObj [("movie", ex_movie42)].
Definition ex_alice_header : option string :=
  bearer (jwt_sign ex_secret (id_of_time ex_t0) (JStr "a@x.com") (now_seconds ex_t0) seven_days).
Definition ex_alice_claims : claims :=
  mkClaims (id_of_time ex_t0) (JStr "a@x.com") (now_seconds ex_t0) (now_seconds ex_t0 + seven_days).

Lemma toggle_refines_set_witness :
  ids_of (toggle [JObj [("id", JNum 7)]] ex_movie42) =
  gset_toggle (JNum 42) (ids_of [JObj [("id", JNum 7)]]).
Proof. apply (toggle_refines_set [JObj [("id", JNum 7)]] ex_movie42); reflexivity. Defined.

Lemma watchlist_post_unknown_user_witness :
  watchlist_post ex_secret (FileUsers []) ex_alice_header ex_post42 (ex_t0 + 1000) =
  (FileUsers [], json_error 404 "User not found").
Proof.
  apply (watchlist_post_unknown_user ex_secret (FileUsers []) ex_alice_header ex_post42
           (ex_t0 + 1000) ex_alice_claims []); vm_compute; reflexivity.
Defined.

Lemma watchlist_post_missing_movie_witness :
  watchlist_post ex_secret ex_store1 ex_alice_header (JObj [("movie", JObj [("id", JNum 0)])])
    (ex_t0 + 1000) = (ex_store1, json_error 400 "Missing movie").
Proof.
  apply (watchlist_post_missing_movie ex_secret ex_store1 ex_alice_header
           (JObj [("movie", JObj [("id", JNum 0)])]) (ex_t0 + 1000) ex_alice_claims
           [ex_alice_user] ex_alice_user); vm_compute; try reflexivity. right. reflexivity.
Defined.

Lemma watchlist_post_toggles_witness :
  exists i, [ex_alice_user] !! i = Some ex_alice_user /\
    watchlist_post ex_secret ex_store1 ex_alice_header ex_post42 (ex_t0 + 1000) =
    (FileUsers (<[i := set_watchlist ex_alice_user (JArr (toggle [] (get ex_post42 "movie")))]>
                  [ex_alice_user]),
     json_ok (JObj [("watchlist", JArr (toggle [] (get ex_post42 "movie")))])).
Proof.
  apply (watchlist_post_toggles ex_secret ex_store1 ex_alice_header ex_post42 (ex_t0 + 1000)
           ex_alice_claims [ex_alice_user] ex_alice_user []); vm_compute; reflexivity.
Defined.

(** The spec's example: posting [{movie: {id: 42, title: "T"}}] twice. *)
Lemma watchlist_post_twice_restores_witness :
  let '(f1, r1) := watchlist_post ex_secret ex_store1 ex_alice_header ex_post42 (ex_t0 + 1000) in
  let '(f2, r2) := watchlist_post ex_secret f1 ex_alice_header ex_post42 (ex_t0 + 2000) in
  r1 = json_ok (JObj [("watchlist", JArr ([] ++ [get ex_post42 "movie"]))]) /\
  r2 = json_ok (JObj [("watchlist", JArr [])]) /\ f2 = FileUsers [ex_alice_user].
Proof.
  apply (watchlist_post_twice_restores ex_secret [ex_alice_user] ex_alice_header ex_post42
           (ex_t0 + 1000) (ex_t0 + 2000) ex_alice_claims ex_alice_claims ex_alice_user []);
    vm_compute; reflexivity.
Defined.

Lemma watchlist_get_after_post_witness :
  watchlist_get ex_secret (fst (watchlist_post ex_secret ex_store1 ex_alice_header ex_post42 (ex_t0 + 1000)))
    ex_alice_header (ex_t0 + 5000) =
  json_ok (JObj [("watchlist", JArr [ex_movie42])]).
Proof.
  apply (watchlist_get_after_post ex_secret ex_store1 ex_alice_header ex_alice_header ex_post42
           (ex_t0 + 1000) (ex_t0 + 5000) ex_alice_claims ex_alice_claims); vm_compute; reflexivity.
Defined.
