(* ===== verification/Proxy.v ===== *)
(** * Proxy: the four TMDb endpoints

    Lines 60-103 of [src/server/index.js] forward four read-only queries
    to TMDb with axios, adding the server's API key as the query
    parameter [api_key]: trending lists, the details of a movie (with its
    videos and credits appended), a movie search that forwards the
    caller's query parameters, and the image configuration.  A success is
    answered with the upstream body as it is; any failure with status 500
    and [{ error: 'TMDb error', details: err.message }].

    TMDb is external: it is the function [upstream] from the request the
    server builds (URL and parameters) to a body or an error message.
    The request builders are translated from the code.  [normalize_path]
    is the dot-segment removal of the WHATWG URL parser that axios applies
    to the URL before sending it (a library, modelled from its
    specification): it shows that a route parameter holding [..] moves the
    request out of [/3/trending]. *)

From S2P Require Import Prelude JsValue Http.

Definition tmdb_origin : string := "https://api.themoviedb.org".

(** [TMDB_BASE] (line 17). *)
Definition TMDB_BASE : string := tmdb_origin +:+ "/3".

(** What the server asks of TMDb: [axios.get(url, { params })]. *)
Record upstream_request : Type := mkRequest {
  ur_url : string;
  ur_params : list (string * jval);
}.

Inductive upstream_result : Type :=
  | UpOk (data : jval)
  | UpErr (message : string).

(** The four endpoints with their route parameters and query. *)
Inductive endpoint : Type :=
  | Trending (mediaType timeWindow : string)
  | MovieDetails (id : string)
  | SearchMovie (query : jval)
  | Configuration.

Section Proxy.
Context (api_key : string).

(** Lines 63-65. *)
Definition trending_request (mediaType timeWindow : string) : upstream_request :=
  mkRequest (TMDB_BASE +:+ "/trending/" +:+ mediaType +:+ "/" +:+ timeWindow)
            [("api_key", JStr api_key)].

(** Lines 74-76. *)
Definition movie_request (id : string) : upstream_request :=
  mkRequest (TMDB_BASE +:+ "/movie/" +:+ id)
            [("api_key", JStr api_key); ("append_to_response", JStr "videos,credits")].

(** Lines 85-87: [{ api_key: TMDB_API_KEY, ...req.query }]. *)
Definition search_request (query : jval) : upstream_request :=
  mkRequest (TMDB_BASE +:+ "/search/movie") (fields_spread [("api_key", JStr api_key)] query).

(** Lines 96-98. *)
Definition configuration_request : upstream_request :=
  mkRequest (TMDB_BASE +:+ "/configuration") [("api_key", JStr api_key)].

Definition request_of (e : endpoint) : upstream_request :=
  match e with
  | Trending mt tw => trending_request mt tw
  | MovieDetails id => movie_request id
  | SearchMovie q => search_request q
  | Configuration => configuration_request
  end.

(** [res.json(r.data)], or the [catch] of each endpoint. *)
Definition proxy_respond (r : upstream_result) : response :=
  match r with
  | UpOk data => json_ok data
  | UpErr msg => Respond 500 (JObj [("error", JStr "TMDb error"); ("details", JStr msg)])
  end.

(** An endpoint's handler, given TMDb's answer to the request it builds. *)
Definition proxy_handle (upstream : upstream_request -> upstream_result) (e : endpoint)
    : response :=
  proxy_respond (upstream (request_of e)).
End Proxy.

(** ** The path axios sends *)

(** The dot segments of the URL standard: [.] and [..], where [%2e], in
    either case, stands for a dot. *)
Definition single_dot (s : string) : bool := existsb (String.eqb (string_lower s)) ["."; "%2e"].
Definition double_dot (s : string) : bool :=
  existsb (String.eqb (string_lower s)) [".."; ".%2e"; "%2e."; "%2e%2e"].

(** Remove dot segments, as the URL parser does: [..] drops the last
    segment kept, and a dot segment at the end leaves the path ending
    in [/]. *)
Fixpoint remove_dots (acc : list string) (segs : list string) : list string :=
  match segs with
  | [] => reverse acc
  | s :: rest =>
      let pad a := match rest with [] => "" :: a | _ :: _ => a end in
      if double_dot s then remove_dots (pad (tail acc)) rest
      else if single_dot s then remove_dots (pad acc) rest
      else remove_dots (s :: acc) rest
  end.

(** The path of an URL of [tmdb_origin], normalized. *)
Definition normalize_path (url : string) : option string :=
  if String.prefix tmdb_origin url
  then match js_split "/"%char (String.substring (String.length tmdb_origin)
                                  (String.length url) url) with
       | "" :: segs => Some (String.concat "/" ("" :: remove_dots [] segs))
       | _ => None
       end
  else None.

(** ** Properties *)

(** C35: The search request forwards every query parameter of the
    caller unchanged (the last of repeated keys) and adds the server's key
    only when the caller gave no [api_key]: a caller's [api_key] replaces
    the server's credential. *)
Theorem search_request_params key qs k :
  fields_get (ur_params (search_request key (JObj qs))) k =
  match js_find (fun kv => String.eqb kv.1 k) (reverse qs) with
  | Some kv => kv.2
  | None => if String.eqb "api_key" k then JStr key else JUndef
  end.
Proof.
  unfold search_request. cbn [ur_params]. rewrite fields_get_spread.
  destruct (js_find _ _); [done|]. unfold fields_get. cbn -[String.eqb].
  by destruct (String.eqb "api_key" k).
Qed.

(** Every endpoint answers 200 with TMDb's body as it is, or 500 with the
    error message attached; nothing else. *)
Lemma proxy_handle_outcomes upstream key e :
  (exists d, upstream (request_of key e) = UpOk d /\ proxy_handle key upstream e = json_ok d) \/
  (exists m, upstream (request_of key e) = UpErr m /\
     proxy_handle key upstream e =
     Respond 500 (JObj [("error", JStr "TMDb error"); ("details", JStr m)])).
Proof. unfold proxy_handle. destruct (upstream (request_of key e)); eauto. Qed.

(** The path of a request built on [TMDB_BASE]. *)
Lemma normalize_path_origin (path : string) :
  normalize_path (tmdb_origin +:+ path) =
  match js_split "/"%char path with
  | "" :: segs => Some (String.concat "/" ("" :: remove_dots [] segs))
  | _ => None
  end.
Proof.
  unfold normalize_path. rewrite prefix_app, length_app_str, substring_app_prefix.
  rewrite substring_0_all by lia. done.
Qed.

Lemma remove_dots_plain acc s rest :
  double_dot s = false -> single_dot s = false ->
  remove_dots acc (s :: rest) = remove_dots (s :: acc) rest.
Proof. intros H1 H2. simpl. by rewrite H1, H2. Qed.

Lemma remove_dots_up acc s rest :
  remove_dots acc (".." :: s :: rest) = remove_dots (tail acc) (s :: rest).
Proof. done. Qed.

(** C36: The trending endpoint does not keep its request under
    [/3/trending]: with the route parameters [../movie] and a movie id
    (the first sent as [..%2Fmovie], which Express decodes) that is not
    itself a dot segment, the path axios requests is [/3/movie/<id>],
    the path of the movie endpoint. *)
Theorem trending_reaches_movie key id :
  no_char "/"%char id = true -> double_dot id = false -> single_dot id = false ->
  normalize_path (ur_url (trending_request key "../movie" id)) = Some ("/3/movie/" +:+ id) /\
  normalize_path (ur_url (movie_request key id)) = Some ("/3/movie/" +:+ id).
Proof.
  intros Hs H1 H2.
  change (ur_url (trending_request key "../movie" id)) with
    (tmdb_origin +:+ ("" +:+ String "/"%char ("3" +:+ String "/"%char ("trending" +:+
       String "/"%char (".." +:+ String "/"%char ("movie" +:+ String "/"%char id)))))).
  change (ur_url (movie_request key id)) with
    (tmdb_origin +:+ ("" +:+ String "/"%char ("3" +:+ String "/"%char ("movie" +:+
       String "/"%char id)))).
  rewrite !normalize_path_origin, !js_split_no_char_app, js_split_no_char by done.
  rewrite (remove_dots_plain [] "3"), (remove_dots_plain ["3"] "trending"), remove_dots_up,
    (remove_dots_plain ["3"] "movie"), (remove_dots_plain ["movie"; "3"] id) by done.
  rewrite (remove_dots_plain [] "3"), (remove_dots_plain ["3"] "movie"),
    (remove_dots_plain ["movie"; "3"] id) by done.
  done.
Qed.

(** ** Witnesses *)

Lemma trending_reaches_movie_witness :
  normalize_path (ur_url (trending_request "K" "../movie" "550")) = Some ("/3/movie/" +:+ "550") /\
  normalize_path (ur_url (movie_request "K" "550")) = Some ("/3/movie/" +:+ "550").
Proof. apply trending_reaches_movie; reflexivity. Defined.
