(* ===== verification/Client.v ===== *)
(** * Client: the single page of [src/client/app.js]

    The page keeps two pieces of state that matter to the server: the URL
    fragment [location.hash], on which [router] (lines 40-60) decides
    what is shown, and the token in [localStorage] (lines 10-12), which
    [apiFetch] (lines 13-23) sends as a bearer header and drops when the
    server answers 401.  The rest builds requests and strings from the
    server's answers: the body of a watchlist toggle (lines 251-267), the
    search URL (lines 270-281), [fetchConfig], and the renderers of the
    banner, of a row and of the modal's poster, which throw where the
    JavaScript throws ([null] items, a configuration without [images]).
    [Pages] runs them in the order the page awaits its answers.

    The DOM is not modelled: a render is the data it writes.  The page's
    state is [client_state]; each handler is a function from it and the
    answer of the server to the new state and what is shown. *)

From S2P Require Import Prelude JsValue Http.

(** ** Strings the page builds *)

(** [s.replace(c, '')] for a one-character pattern: the first occurrence
    is removed. *)
Fixpoint js_replace_first (c : ascii) (s : string) : string :=
  match s with
  | EmptyString => EmptyString
  | String a s' => if Ascii.eqb a c then s' else String a (js_replace_first c s')
  end.

(** [String(v)], as template literals and [+] convert a value. *)
Fixpoint js_to_string (v : jval) : string :=
  match v with
  | JUndef => "undefined"
  | JNull => "null"
  | JBool b => if b then "true" else "false"
  | JNum n => pretty n
  | JStr s => s
  | JArr l => String.concat "," (map (fun x => match x with
                                              | JUndef | JNull => ""
                                              | _ => js_to_string x
                                              end) l)
  | JObj _ => "[object Object]"
  end.

(** [s.slice(0, n)] *)
Definition js_slice0 (s : string) (n : nat) : string := String.substring 0 n s.

(** ** Token storage and [apiFetch] *)

Record client_state : Type := mkClient {
  cs_hash : string;            (** [location.hash] *)
  cs_token : option string;    (** [localStorage.getItem('token')] *)
}.

(** [saveToken], [removeToken] (lines 10, 12). *)
Definition saveToken (t : string) (st : client_state) : client_state :=
  mkClient st.(cs_hash) (Some t).
Definition removeToken (st : client_state) : client_state :=
  mkClient st.(cs_hash) None.

(** The [Authorization] header [apiFetch] adds (lines 15-16): only for a
    truthy token. *)
Definition auth_header (st : client_state) : option string :=
  match st.(cs_token) with
  | Some t => if truthy (JStr t) then Some ("Bearer " +:+ t) else None
  | None => None
  end.

(** Lines 18-21, once the answer is in: a 401 drops the token. *)
Definition apiFetch_after (status : Z) (st : client_state) : client_state :=
  if (status =? 401)%Z then removeToken st else st.

(** [res.ok]: a 2xx status. *)
Definition res_ok (status : Z) : bool := (200 <=? status)%Z && (status <? 300)%Z.

(** ** The hash router (lines 40-60) *)

Inductive route : Type := RLogin | RSignup | RAccount | RHome.

(** [location.hash.replace('#','') || ''] *)
Definition route_key (hash : string) : string := js_replace_first "#"%char hash.

(** The renderer [router] calls. *)
Definition page_of_hash (h : string) : route :=
  if String.eqb h "login" then RLogin
  else if String.eqb h "signup" then RSignup
  else if String.eqb h "account" then RAccount
  else RHome.

(** [bannerEl.style.display] and [rowsEl.style.display]: shown only for
    the empty fragment and [movies] (lines 43-51). *)
Definition main_ui_shown (h : string) : bool :=
  negb (truthy (JStr h)) || String.eqb h "movies" || String.eqb h "".

(** What [router] leaves: the renderer it runs, whether the banner and
    the rows are shown, and [routeRoot] emptied. *)
Record router_view : Type := mkView {
  rv_route : route;
  rv_main_shown : bool;
}.

Definition router (st : client_state) : router_view :=
  let h := route_key st.(cs_hash) in
  mkView (page_of_hash h) (main_ui_shown h).

(** ** The watchlist button (lines 251-267) *)

(** The body [toggleWatchlist] posts, as [JSON.stringify] writes it. *)
Definition toggle_body (movie : jval) : jval :=
  normalize (JObj [("movie", JObj [("id", get movie "id");
                                   ("title", js_or (get movie "title") (get movie "name"));
                                   ("poster_path", get movie "poster_path")])]).

(** What a click does first: without a token, an alert and the login page;
    with one, a [POST /api/watchlist] with this header and body. *)
Inductive toggle_action : Type :=
  | ToggleNeedLogin
  | TogglePost (authorization : option string) (body : jval).

Definition toggleWatchlist_start (st : client_state) (movie : jval)
    : client_state * toggle_action :=
  match st.(cs_token) with
  | Some t =>
      if truthy (JStr t) then (st, TogglePost (auth_header st) (toggle_body movie))
      else (mkClient "#login" st.(cs_token), ToggleNeedLogin)
  | None => (mkClient "#login" st.(cs_token), ToggleNeedLogin)
  end.

(** [v.length]: [null] and [undefined] throw. *)
Definition js_length (v : jval) : outcome jval :=
  match v with
  | JUndef | JNull => Threw
  | JArr l => Done (JNum (Z.of_nat (length l)))
  | JStr s => Done (JNum (Z.of_nat (String.length s)))
  | JObj fs => Done (fields_get fs "length")
  | _ => Done JUndef
  end.

(** The alert once the answer is in (lines 260-266); [None] when no
    alert shows: the answer is not JSON (an Express page) and
    [res.json()] rejects, the answer never comes, or reading
    [j.watchlist.length] or [j.error] throws. *)
Definition toggleWatchlist_finish (st : client_state) (r : response)
    : client_state * option string :=
  match r with
  | Respond s b =>
      (apiFetch_after s st,
       match (if res_ok s
              then w ← prop b "watchlist"; n ← js_length w;
                   mret ("Watchlist updated (" +:+ js_to_string n +:+ " items)")
              else e ← prop b "error"; mret ("Failed: " +:+ js_to_string (js_or e (JStr "")))) with
       | Done msg => Some msg
       | _ => None
       end)
  | RespondPage s _ => (apiFetch_after s st, None)
  | Crash500 => (apiFetch_after 500 st, None)
  | NoResponse => (st, None)
  end.

(** ** Images and texts *)

(** [imageBase] (line 3) and the default [tmdbConfig] (line 156). *)
Definition imageBase : string := "https://image.tmdb.org/t/p".
Definition default_tmdbConfig : jval :=
  JObj [("images", JObj [("secure_base_url", JStr "https://image.tmdb.org/t/p/");
                          ("poster_sizes", JArr [JStr "w342"; JStr "w500"; JStr "original"])])].

(** [fetchConfig] (lines 158-166): a successful JSON answer replaces the
    configuration; any other answer, or a body that is not JSON (its
    [res.json()] throws inside the [try]), leaves it; an answer that never
    comes leaves the page waiting. *)
Definition fetchConfig (cfg : jval) (r : response) : outcome jval :=
  match r with
  | Respond s d => Done (if res_ok s then d else cfg)
  | RespondPage _ _ | Crash500 => Done cfg
  | NoResponse => Pending
  end.

(** [tmdbConfig.images.secure_base_url], converted by [+]: a [TypeError]
    when the configuration the server gave has no [images]. *)
Definition secure_base (cfg : jval) : outcome string :=
  images ← prop cfg "images"; sbu ← prop images "secure_base_url"; mret (js_to_string sbu).

(** A poster of [renderRow] (lines 210-213): its [src] and its [alt]; a
    [null] item throws. *)
Definition row_item (cfg m : jval) : outcome (string * string) :=
  pp ← prop m "poster_path";
  let poster := js_or pp (get m "backdrop_path") in
  src ← (if truthy poster
         then base ← secure_base cfg; mret (base +:+ "w342" +:+ js_to_string poster)
         else mret "assets/placeholder.jpg");
  mret (src, js_to_string (js_or (get m "title") (get m "name"))).

(** [renderRow(title, movies)] (lines 205-219): the section is appended
    only after every poster is built; [movies.forEach] throws on a value
    that is not an array. *)
Definition renderRow (cfg : jval) (title : string) (movies : jval)
    : outcome (string * list (string * string)) :=
  match movies with
  | JArr ms => items ← mapM (row_item cfg) ms; mret (title, items)
  | _ => Threw
  end.

(** A poster of the account page (line 148). *)
Definition account_poster_src (m : jval) : string :=
  if truthy (get m "poster_path") then imageBase +:+ "/w342" +:+ js_to_string (get m "poster_path")
  else "assets/placeholder.jpg".

(** The poster of the modal (line 228). *)
Definition modal_poster_src (cfg m : jval) : outcome string :=
  pp ← prop m "poster_path";
  if truthy pp then base ← secure_base cfg; mret (base +:+ "w500" +:+ js_to_string pp)
  else mret "/assets/placeholder.jpg".

(** The banner (lines 188-195): its title, its backdrop and the first 220
    characters of the overview. *)
Record banner : Type := mkBanner {
  bn_title : string;
  bn_backdrop : string;
  bn_overview : string;
}.

(** [(v || '').slice(0, 220)] as a template prints it: strings and arrays
    have [slice], other values throw. *)
Definition slice220 (v : jval) : outcome string :=
  match js_or v (JStr "") with
  | JStr s => Done (js_slice0 s 220)
  | JArr l => Done (js_to_string (JArr (firstn 220 l)))
  | _ => Threw
  end.

(** [renderBanner(movie)]: [None] hides the banner (no movie). *)
Definition renderBanner (cfg movie : jval) : outcome (option banner) :=
  if negb (truthy movie) then Done None else
  let title := js_to_string (js_or (js_or (get movie "title") (get movie "name")) (JStr "")) in
  backdrop ← (if truthy (get movie "backdrop_path")
              then base ← secure_base cfg;
                   mret (base +:+ "original" +:+ js_to_string (get movie "backdrop_path"))
              else mret "assets/placeholder.jpg");
  ov ← slice220 (get movie "overview");
  mret (Some (mkBanner title backdrop ov)).

(** [results.find(v => v.type === 'Trailer')]: a [null] video throws. *)
Fixpoint find_trailer_in (vs : list jval) : outcome jval :=
  match vs with
  | [] => Done JUndef
  | v :: vs' => t ← prop v "type"; if t === JStr "Trailer" then Done v else find_trailer_in vs'
  end.

(** The trailer of the modal (line 230):
    [(m.videos && m.videos.results && m.videos.results.find(...)) || null];
    [.find] on a [results] that is not an array throws. *)
Definition find_trailer (m : jval) : outcome jval :=
  let vids := get m "videos" in
  if negb (truthy vids) then Done JNull else
  let res := get vids "results" in
  if negb (truthy res) then Done JNull else
  match res with
  | JArr vs => v ← find_trailer_in vs; Done (js_or v JNull)
  | _ => Threw
  end.

(** ** The login and account pages *)

(** [String.prototype.trim] on ASCII whitespace. *)
Definition is_ws (a : ascii) : bool :=
  let n := nat_of_ascii a in (Nat.eqb n 32 || ((9 <=? n) && (n <=? 13)))%nat.

Fixpoint drop_ws (l : list ascii) : list ascii :=
  match l with
  | [] => []
  | a :: l' => if is_ws a then drop_ws l' else l
  end.

Definition js_trim (s : string) : string :=
  String.string_of_list_ascii (rev (drop_ws (rev (drop_ws (String.list_ascii_of_string s))))).

(** The body of the login button (lines 75-80). *)
Definition login_body (email_input password : string) : jval :=
  JObj [("email", JStr (js_trim email_input)); ("password", JStr password)].

(** The body of the signup button (lines 102-108). *)
Definition signup_body (name_input email_input password : string) : jval :=
  JObj [("name", JStr (js_trim name_input)); ("email", JStr (js_trim email_input));
        ("password", JStr password)].

(** After the answer of [/auth/login] or [/auth/signup] (lines 82-86 and
    110-114): on success the token is saved and the page goes to
    [#movies]; otherwise the error is shown.  Nothing happens when
    [res.json()] rejects (a page that is not JSON) or reading [data.token]
    or [data.error] throws. *)
Definition auth_click_finish (fallback : string) (st : client_state) (r : response)
    : client_state * option string :=
  match r with
  | Respond s data =>
      let st1 := apiFetch_after s st in
      if res_ok s then
        match prop data "token" with
        | Done t => (mkClient "#movies" (Some (js_to_string t)), None)
        | _ => (st1, None)
        end
      else (st1, match prop data "error" with
                 | Done e => Some (js_to_string (js_or e (JStr fallback)))
                 | _ => None
                 end)
  | RespondPage s _ => (apiFetch_after s st, None)
  | Crash500 => (apiFetch_after 500 st, None)
  | NoResponse => (st, None)
  end.

Inductive account_view : Type :=
  | AccountPrompt
  | AccountCard (name email : string).

(** [renderAccount] on the answer of [/auth/me] (lines 119-134): the
    card, or the login prompt when the answer is not a success; nothing
    when [data.name] throws on a [null] body. *)
Definition renderAccount (st : client_state) (r : response) : client_state * option account_view :=
  match r with
  | Respond s data =>
      (apiFetch_after s st,
       if res_ok s
       then match n ← prop data "name"; e ← prop data "email";
                  mret (AccountCard (js_to_string (js_or n (JStr "(not set)"))) (js_to_string e)) with
            | Done v => Some v
            | _ => None
            end
       else Some AccountPrompt)
  | RespondPage s _ => (apiFetch_after s st, None)
  | Crash500 => (apiFetch_after 500 st, None)
  | NoResponse => (st, None)
  end.

(** The watchlist grid of the account page (lines 141-151): source and
    alternative text of each poster.  [forEach] appends the posters in
    order and throws at the first [null] or [undefined] item
    ([grid_entries] stops there); on a watchlist that is not an array it
    throws before appending anything, after the grid was cleared.  [None]
    when the grid is never filled: a page that is not JSON makes
    [wRes.json()] reject, or no answer comes. *)
Fixpoint grid_entries (ms : list jval) : list (string * string) :=
  match ms with
  | [] => []
  | m :: ms' =>
      match m with
      | JUndef | JNull => []
      | _ => (account_poster_src m, js_to_string (js_or (get m "title") (get m "name")))
             :: grid_entries ms'
      end
  end.

Definition account_grid (r : response) : option (list (string * string)) :=
  match r with
  | Respond s j =>
      if res_ok s then
        match j with
        | JUndef | JNull => Some []
        | _ => match js_or (get j "watchlist") (JArr []) with
               | JArr l => Some (grid_entries l)
               | _ => Some []
               end
        end
      else Some []
  | RespondPage s _ => if res_ok s then None else Some []
  | Crash500 => Some []
  | NoResponse => None
  end.

(** ** The search (lines 270-281) *)

Definition uri_unreserved (a : ascii) : bool :=
  let n := nat_of_ascii a in
  ((48 <=? n) && (n <=? 57)) || ((65 <=? n) && (n <=? 90)) || ((97 <=? n) && (n <=? 122)) ||
  existsb (Ascii.eqb a) (String.list_ascii_of_string "-_.!~*'()").

Definition hex_char (n : nat) : ascii :=
  if (n <? 10)%nat then ascii_of_nat (48 + n) else ascii_of_nat (55 + n).

(** [encodeURIComponent] on the bytes of the UTF-8 text. *)
Fixpoint encodeURIComponent (s : string) : string :=
  match s with
  | EmptyString => EmptyString
  | String a s' =>
      (if uri_unreserved a then String a EmptyString
       else String "%" (String (hex_char (nat_of_ascii a / 16))
                         (String (hex_char (nat_of_ascii a mod 16)) EmptyString)))
      +:+ encodeURIComponent s'
  end.

(** The URL [searchMovies] requests (line 274). *)
Definition search_url (q : string) : string :=
  "/api/search/movie?query=" +:+ encodeURIComponent q.

(** [searchMovies] is called only with a non-empty trimmed input (lines
    34-37). *)
Definition search_input (raw : string) : option string :=
  let q := js_trim raw in if truthy (JStr q) then Some q else None.

(** ** Properties *)

Lemma hex_val_char n : (n < 16)%nat -> hex_val (hex_char n) = Some n.
Proof. intros H. do 16 (destruct n as [|n]; [reflexivity|]). lia. Qed.

Lemma byte_digits n : (n < 256)%nat -> (n / 16 < 16)%nat /\ (n mod 16 < 16)%nat.
Proof. intros H. split; [apply Nat.Div0.div_lt_upper_bound; lia | apply Nat.mod_upper_bound; lia]. Qed.

Lemma hex_char_not c n :
  (forall k, (k < 16)%nat -> hex_char k <> c) -> (n < 256)%nat ->
  hex_char (n / 16) <> c /\ hex_char (n mod 16) <> c.
Proof. intros Hc Hn%byte_digits. split; apply Hc; apply Hn. Qed.

Lemma decode_cons a s :
  Ascii.eqb a "%" = false -> decodeURIComponent (String a s) = String a <$> decodeURIComponent s.
Proof. intros H. simpl. by rewrite H. Qed.

Lemma decode_pct h1 h2 r :
  decodeURIComponent (String "%" (String h1 (String h2 r))) =
  match hex_val h1, hex_val h2 with
  | Some x, Some y => String (ascii_of_nat (16 * x + y)) <$> decodeURIComponent r
  | _, _ => None
  end.
Proof. done. Qed.

Lemma decode_encode s : decodeURIComponent (encodeURIComponent s) = Some s.
Proof.
  induction s as [|a s IH]; [done|]. cbn [encodeURIComponent].
  destruct (uri_unreserved a) eqn:Hu; cbn [String.append decodeURIComponent].
  - change (String a "" +:+ encodeURIComponent s) with (String a (encodeURIComponent s)).
    destruct (Ascii.eqb_spec a "%") as [->|Ha]; [done|].
    rewrite decode_cons, IH by (by apply Ascii.eqb_neq). done.
  - cbv iota beta. autorewrite with moviehub. rewrite decode_pct.
    pose proof (byte_digits _ (nat_ascii_bounded a)) as [H1 H2].
    rewrite !hex_val_char by done. rewrite IH, <- Nat.div_mod_eq, ascii_nat_embedding. done.
Qed.

(** The output of [encodeURIComponent] holds no character that is
    reserved, is not [%] and is no hex digit: [&], [=], [+] among them. *)
Lemma no_char_encode c s :
  uri_unreserved c = false -> Ascii.eqb c "%" = false ->
  (forall k, (k < 16)%nat -> hex_char k <> c) ->
  no_char c (encodeURIComponent s) = true.
Proof.
  intros Hu Hp Hh. induction s as [|a s IH]; [done|]. cbn [encodeURIComponent].
  rewrite no_char_app, IH, andb_true_r.
  destruct (uri_unreserved a) eqn:Ha; cbn [no_char].
  - destruct (Ascii.eqb_spec a c) as [->|]; [congruence|done].
  - rewrite (Ascii.eqb_sym "%" c), Hp. pose proof (hex_char_not c _ Hh (nat_ascii_bounded a)) as [H1 H2].
    destruct (Ascii.eqb_spec (hex_char (nat_of_ascii a / 16)) c); [done|].
    by destruct (Ascii.eqb_spec (hex_char (nat_of_ascii a mod 16)) c).
Qed.

Lemma hex_char_not_special k : (k < 16)%nat ->
  hex_char k <> "&"%char /\ hex_char k <> "="%char /\ hex_char k <> "+"%char.
Proof. intros H. do 16 (destruct k as [|k]; [vm_compute; repeat split; congruence|]). lia. Qed.

Lemma replace_plus_id s : no_char "+"%char s = true -> replace_plus s = s.
Proof.
  induction s as [|a s IH]; [done|]. simpl. rewrite andb_true_iff, negb_true_iff.
  intros [-> Hs]. by rewrite IH.
Qed.

Lemma substring_after_prefix (p s : string) :
  String.substring (String.length p) (String.length (p +:+ s)) (p +:+ s) = s.
Proof. rewrite substring_app_prefix, substring_0_all; [done|]. rewrite length_app_str. lia. Qed.

(** The query string of the search URL the page requests reads back,
    through Express's query parser, as exactly the text searched: the
    handler gets [req.query] = [{ query: q }] for every string [q]. *)
Theorem search_query_roundtrip q : req_query (search_url q) = JObj [("query", JStr q)].
Proof.
  set (x := encodeURIComponent q).
  assert (Hx : forall c, c = "&"%char \/ c = "="%char \/ c = "+"%char -> no_char c x = true).
  { intros c Hc. apply no_char_encode; [by destruct Hc as [->|[->| ->]]..|].
    intros k Hk. pose proof (hex_char_not_special k Hk). naive_solver. }
  unfold req_query, search_url. fold x.
  change ("/api/search/movie?query=" +:+ x) with ("/api/search/movie?" +:+ ("query=" +:+ x)).
  replace (index_char "?" ("/api/search/movie?" +:+ ("query=" +:+ x))) with (Some 17%nat)
    by reflexivity.
  change (S 17) with (String.length "/api/search/movie?").
  rewrite substring_after_prefix. unfold parse_query.
  rewrite js_split_no_char by (rewrite no_char_app; apply andb_true_intro; split; [done|auto]).
  assert (Hne : String.eqb ("query=" +:+ x) "" = false) by reflexivity.
  cbn [List.filter]. rewrite Hne. cbn [negb map foldl]. unfold parse_pair.
  replace (index_char "=" ("query=" +:+ x)) with (Some 5%nat) by reflexivity.
  change (S 5) with (String.length "query=").
  rewrite substring_after_prefix. unfold qs_decode.
  change (String.substring 0 5 ("query=" +:+ x)) with "query".
  rewrite (replace_plus_id x) by auto. unfold x. rewrite decode_encode. done.
Qed.

(** C37: A fragment that is none of [""], [movies], [login], [signup] and
    [account] (for instance [#/], which the comment of line 39 lists as a
    route) runs the home renderer but leaves the banner and the rows
    hidden and the route area empty: the page shows nothing. *)
Theorem router_unknown_fragment hash tok :
  route_key hash <> "" -> String.eqb (route_key hash) "movies" = false ->
  String.eqb (route_key hash) "login" = false -> String.eqb (route_key hash) "signup" = false ->
  String.eqb (route_key hash) "account" = false ->
  router (mkClient hash tok) = mkView RHome false.
Proof.
  intros He Hm Hl Hs Ha. unfold router, page_of_hash, main_ui_shown. simpl.
  rewrite Hl, Hs, Ha, Hm. apply String.eqb_neq in He. by rewrite He.
Qed.

(** ** Witnesses *)

Lemma router_unknown_fragment_witness : router (mkClient "#/" None) = mkView RHome false.
Proof. apply router_unknown_fragment; [discriminate | reflexivity..]. Defined.
