(* ===== verification/Pages.v ===== *)
(** * Pages: the home page, the movie modal and the search of the client

    [fetchAndRenderHome] (lines 168-186 of [src/client/app.js]) waits for
    [fetchConfig], shows "Loading..." and clears the rows ([home_start]),
    then inside one [try] fetches three trending lists, renders the first
    trending item as the banner and appends one row per list
    ([home_fill]); any exception shows "Failed to load movies." in the
    banner.  [openModal] (lines 222-249) fetches one movie and renders its
    poster, texts and trailer link.  [searchMovies] (lines 270-281) fetches
    the search and renders one row.  The logout button (lines 135-139) and
    [init] (lines 288-302) move the page to [#movies].

    Each renderer is a function of the answers the server gave to the
    requests it made, in the order it awaits them, and of the
    configuration; an [outcome] records whether the code runs to the end,
    throws, or waits for an answer that never comes.  What is shown is
    the data the DOM receives: the banner's content and whether it is
    displayed, the rows with the [src] and [alt] of each poster, the
    modal's texts. *)

From S2P Require Import Prelude JsValue Http Client.

(** [await (await apiFetch(path)).json()]: a page that is not JSON makes
    [res.json()] throw; no answer leaves the [await] pending. *)
Definition fetch_json (r : response) : outcome jval :=
  match r with
  | Respond _ b => Done b
  | RespondPage _ _ | Crash500 => Threw
  | NoResponse => Pending
  end.

(** ** The home page *)

Inductive banner_html : Type :=
  | BannerLoading
  | BannerInfo (b : banner)
  | BannerFailed.

Definition row : Type := string * list (string * string).

(** What the home page shows: the configuration [tmdbConfig] holds, the
    banner's content, whether the banner is displayed, and the rows in
    the order they were appended. *)
Record home_view : Type := mkHome {
  hv_config : jval;
  hv_banner : banner_html;
  hv_banner_shown : bool;
  hv_rows : list row;
}.

(** The [catch] of line 183. *)
Definition home_failed (v : home_view) : home_view :=
  mkHome v.(hv_config) BannerFailed v.(hv_banner_shown) v.(hv_rows).

(** Lines 178-179: [hero = trending.results && trending.results[0]] and
    [renderBanner(hero)]. *)
Definition home_banner (v : home_view) (trending : jval) : outcome home_view :=
  results ← prop trending "results";
  let hero := if truthy results then index0 results else results in
  b ← renderBanner v.(hv_config) hero;
  mret (match b with
        | None => mkHome v.(hv_config) v.(hv_banner) false v.(hv_rows)
        | Some bn => mkHome v.(hv_config) (BannerInfo bn) v.(hv_banner_shown) v.(hv_rows)
        end).

(** Lines 180-182: [renderRow(title, list.results || [])] for each list;
    an exception ends the [try] with the rows appended so far. *)
Fixpoint home_rows (v : home_view) (lists : list (string * jval)) : home_view :=
  match lists with
  | [] => v
  | (title, j) :: lists' =>
      match results ← prop j "results"; renderRow v.(hv_config) title (js_or results (JArr [])) with
      | Done r => home_rows (mkHome v.(hv_config) v.(hv_banner) v.(hv_banner_shown) (v.(hv_rows) ++ [r]))
                            lists'
      | _ => home_failed v
      end
  end.

(** Lines 169-171: [await fetchConfig()], then "Loading..." in the
    banner and the rows cleared.  [cfg0] is [tmdbConfig] before, [shown]
    whether the router shows the banner. *)
Definition home_start (cfg0 : jval) (shown : bool) (rcfg : response) : outcome home_view :=
  cfg ← fetchConfig cfg0 rcfg;
  mret (mkHome cfg BannerLoading shown []).

(** Lines 172-185, on the page [v] as the [await]s leave it: the three
    lists, then the banner and the rows appended to those [v] shows; any
    exception writes the failure message into the banner. *)
Definition home_fill (v : home_view) (rtrend rpop rtop : response) : outcome home_view :=
  try_catch
    (trending ← fetch_json rtrend; popular ← fetch_json rpop; top ← fetch_json rtop;
     v1 ← home_banner v trending;
     mret (home_rows v1 [("Trending Now", trending); ("Popular Movies", popular); ("Top TV", top)]))
    (mret (home_failed v)).

(** [fetchAndRenderHome] run alone, given the answers to
    [/api/configuration], [/api/trending/all/day],
    [/api/trending/movie/week] and [/api/trending/tv/week]. *)
Definition fetchAndRenderHome (cfg0 : jval) (shown : bool) (rcfg rtrend rpop rtop : response)
    : outcome home_view :=
  v0 ← home_start cfg0 shown rcfg;
  home_fill v0 rtrend rpop rtop.

(** ** The movie modal *)

Inductive modal_view : Type :=
  | ModalLoading
  | ModalFailed
  | ModalShown (poster title tagline overview : string) (trailer : option string).

(** The URL [openModal(movieId)] requests (line 225). *)
Definition modal_url (movieId : jval) : string := "/api/movie/" +:+ js_to_string movieId.

(** The body of the modal for a movie [m] (lines 228-245). *)
Definition modal_body (cfg m : jval) : outcome modal_view :=
  poster ← modal_poster_src cfg m;
  trailer ← find_trailer m;
  mret (ModalShown poster (js_to_string (js_or (get m "title") (get m "name")))
          (js_to_string (js_or (get m "tagline") (JStr "")))
          (js_to_string (js_or (get m "overview") (JStr "")))
          (if truthy trailer
           then Some ("https://www.youtube.com/watch?v=" +:+ js_to_string (get trailer "key"))
           else None)).

(** [openModal] once the answer is in: "Failed to load movie" when it is
    not a success; an exception rejects the [async] function and leaves
    "Loading..." in the modal, as does an answer that never comes. *)
Definition openModal (cfg : jval) (r : response) : modal_view :=
  match status_of r with
  | None => ModalLoading
  | Some s =>
      if negb (res_ok s) then ModalFailed
      else match m ← fetch_json r; modal_body cfg m with
           | Done v => v
           | _ => ModalLoading
           end
  end.

(** The modal's [hidden] class: [openModal] removes it (line 223); the
    close button (lines 246, 297) adds it, and so does a click whose
    target is the backdrop itself rather than the modal's content (lines
    284-286). *)
Definition modal_show (hidden : bool) : bool := false.
Definition modal_close (hidden : bool) : bool := true.
Definition modal_click (on_backdrop hidden : bool) : bool := if on_backdrop then true else hidden.

(** ** The search *)

Inductive search_view : Type :=
  | Searching
  | SearchFailed
  | SearchRow (r : row).

Definition dquote : string := String "034"%char EmptyString.

(** [searchMovies(q)] once the answer is in (lines 273-280). *)
Definition searchMovies (cfg : jval) (q : string) (r : response) : search_view :=
  match try_catch
          (j ← fetch_json r; results ← prop j "results";
           rw ← renderRow cfg ("Search results for " +:+ dquote +:+ q +:+ dquote)
                  (js_or results (JArr []));
           mret (SearchRow rw))
          (mret SearchFailed) with
  | Done v => v
  | _ => Searching
  end.

(** ** Logout and start *)

(** The logout button (lines 135-138): the token is removed and the page
    goes to [#movies]. *)
Definition logout (st : client_state) : client_state := mkClient "#movies" None.

(** [init] (lines 299-301): an empty fragment becomes [#movies], then the
    router runs. *)
Definition init (st : client_state) : client_state * router_view :=
  let st' := if truthy (JStr st.(cs_hash)) then st else mkClient "#movies" st.(cs_token) in
  (st', router st').

(** ** Properties *)

(** The poster entry of a row item that is not [null], with the
    configuration's image base [base]. *)
Definition poster_entry (base : string) (m : jval) : string * string :=
  let poster := js_or (get m "poster_path") (get m "backdrop_path") in
  (if truthy poster then base +:+ "w342" +:+ js_to_string poster else "assets/placeholder.jpg",
   js_to_string (js_or (get m "title") (get m "name"))).

Definition not_nullish (v : jval) : Prop := v <> JUndef /\ v <> JNull.

Lemma row_item_entry cfg base m :
  secure_base cfg = Done base -> not_nullish m -> row_item cfg m = Done (poster_entry base m).
Proof.
  intros Hb [Hu Hn]. unfold row_item. rewrite prop_defined by done. simpl.
  unfold poster_entry. destruct (truthy _); [rewrite Hb|]; done.
Qed.

Lemma renderRow_entries cfg base title ms :
  secure_base cfg = Done base -> Forall not_nullish ms ->
  renderRow cfg title (JArr ms) = Done (title, poster_entry base <$> ms).
Proof.
  intros Hb Hms. unfold renderRow.
  assert (mapM (row_item cfg) ms = Done (poster_entry base <$> ms)) as ->; [|done].
  induction Hms as [|m ms Hm _ IH]; [done|]. simpl. by rewrite (row_item_entry cfg base m), IH.
Qed.

Lemma renderRow_not_array cfg title v : (forall l, v <> JArr l) -> renderRow cfg title v = Threw.
Proof. intros Hv. destruct v as [| | | | |l|]; try done. by destruct (Hv l). Qed.

(** One list whose [results] is an array of items that are not [null]
    adds its row. *)
Lemma home_rows_cons v title j ms lists base :
  secure_base v.(hv_config) = Done base -> not_nullish j -> get j "results" = JArr ms ->
  Forall not_nullish ms ->
  home_rows v ((title, j) :: lists) =
  home_rows (mkHome v.(hv_config) v.(hv_banner) v.(hv_banner_shown)
                    (v.(hv_rows) ++ [(title, poster_entry base <$> ms)])) lists.
Proof.
  intros Hb [Hu Hn] Hr Hms. cbn [home_rows]. rewrite prop_defined by done. rewrite bind_Done, Hr.
  change (js_or (JArr ms) (JArr [])) with (JArr ms). by rewrite (renderRow_entries _ base).
Qed.

(** The three rows of the home page, with the image base [base]. *)
Definition home_rows_of (base : string) (ts ps tvs : list jval) : list row :=
  [("Trending Now", poster_entry base <$> ts); ("Popular Movies", poster_entry base <$> ps);
   ("Top TV", poster_entry base <$> tvs)].

(** [home_fill] on any page when the three lists come back as objects
    whose [results] are arrays of items that are not [null]: the banner
    of the first trending item, and the three rows appended to those the
    page shows. *)
Lemma home_fill_lists v rtrend rpop rtop base trending popular top ts ps tvs ob :
  fetch_json rtrend = Done trending -> fetch_json rpop = Done popular ->
  fetch_json rtop = Done top -> secure_base v.(hv_config) = Done base ->
  Forall not_nullish [trending; popular; top] ->
  get trending "results" = JArr ts -> get popular "results" = JArr ps -> get top "results" = JArr tvs ->
  Forall not_nullish (ts ++ ps ++ tvs) ->
  renderBanner v.(hv_config) (index0 (JArr ts)) = Done ob ->
  home_fill v rtrend rpop rtop =
  Done (mkHome v.(hv_config) (match ob with Some b => BannerInfo b | None => v.(hv_banner) end)
               (match ob with Some _ => v.(hv_banner_shown) | None => false end)
               (v.(hv_rows) ++ home_rows_of base ts ps tvs)).
Proof.
  intros Ht Hp Htop Hb Hn Hrt Hrp Hrtop Hms Hob.
  apply Forall_app in Hms as [Hts Hms]. apply Forall_app in Hms as [Hps Htvs].
  inversion Hn as [|? ? Hnt Hn']; inversion Hn' as [|? ? Hnp Hn'']; inversion Hn'' as [|? ? Hntop _]; subst.
  unfold home_fill. rewrite Ht, bind_Done, Hp, bind_Done, Htop, bind_Done.
  unfold home_banner. destruct Hnt as [Hu Hnl].
  rewrite prop_defined, bind_Done by done. rewrite Hrt.
  change (truthy (JArr ts)) with true. cbv iota. rewrite Hob, bind_Done.
  destruct ob as [b|]; rewrite mret_Done, bind_Done; cbn [hv_config hv_banner hv_banner_shown hv_rows];
    (rewrite (home_rows_cons _ _ _ ts _ base), (home_rows_cons _ _ _ ps _ base),
       (home_rows_cons _ _ _ tvs _ base) by done; cbn [hv_config hv_banner hv_banner_shown hv_rows home_rows];
     by rewrite <- !app_assoc).
Qed.

Section Home.
Context (cfg0 : jval) (shown : bool) (rcfg rtrend rpop rtop : response) (cfg : jval).
Context (Hcfg : fetchConfig cfg0 rcfg = Done cfg).

(** C21: When the three lists come back as objects whose [results] are
    arrays of items that are not [null], and the configuration gives an
    image base, the home page shows the first trending item as the
    banner (or hides the banner when there is none) and one row per list,
    in order, with one poster per item. *)
Theorem home_renders_lists base trending popular top ts ps tvs ob :
  fetch_json rtrend = Done trending -> fetch_json rpop = Done popular ->
  fetch_json rtop = Done top -> secure_base cfg = Done base ->
  Forall not_nullish [trending; popular; top] ->
  get trending "results" = JArr ts -> get popular "results" = JArr ps -> get top "results" = JArr tvs ->
  Forall not_nullish (ts ++ ps ++ tvs) ->
  renderBanner cfg (index0 (JArr ts)) = Done ob ->
  fetchAndRenderHome cfg0 shown rcfg rtrend rpop rtop =
  Done (mkHome cfg (match ob with Some b => BannerInfo b | None => BannerLoading end)
               (match ob with Some _ => shown | None => false end)
               [("Trending Now", poster_entry base <$> ts); ("Popular Movies", poster_entry base <$> ps);
                ("Top TV", poster_entry base <$> tvs)]).
Proof.
  intros Ht Hp Htop Hb Hn Hrt Hrp Hrtop Hms Hob.
  unfold fetchAndRenderHome, home_start. rewrite Hcfg, bind_Done, mret_Done, bind_Done.
  by rewrite (home_fill_lists _ _ _ _ base trending popular top ts ps tvs ob).
Qed.

(** C20: When the trending list has no [results] and a later list's
    [results] is not an array, the home page writes "Failed to load
    movies." into the banner, which [renderBanner] has just hidden: the
    user sees the empty trending row and no message. *)
Theorem home_failure_message_hidden trending popular top :
  fetch_json rtrend = Done trending -> fetch_json rpop = Done popular ->
  fetch_json rtop = Done top -> not_nullish trending -> not_nullish popular ->
  truthy (get trending "results") = false ->
  truthy (get popular "results") = true -> (forall l, get popular "results" <> JArr l) ->
  fetchAndRenderHome cfg0 shown rcfg rtrend rpop rtop =
  Done (mkHome cfg BannerFailed false [("Trending Now", [])]).
Proof.
  intros Ht Hp Htop [Htu Htn] [Hpu Hpn] Hr Hpr Hpa.
  unfold fetchAndRenderHome, home_start. rewrite Hcfg, bind_Done, mret_Done, bind_Done.
  unfold home_fill.
  rewrite Ht, bind_Done, Hp, bind_Done, Htop, bind_Done.
  unfold home_banner. cbn [hv_config]. rewrite prop_defined, bind_Done by done. rewrite Hr.
  assert (renderBanner cfg (get trending "results") = Done None) as ->
    by (unfold renderBanner; by rewrite Hr).
  rewrite bind_Done, mret_Done, bind_Done. cbn [hv_config hv_banner hv_banner_shown hv_rows home_rows].
  rewrite prop_defined, bind_Done by done.
  replace (js_or (get trending "results") (JArr [])) with (JArr (@nil jval))
    by (unfold js_or; by rewrite Hr).
  change (renderRow cfg "Trending Now" (JArr [])) with (Done ("Trending Now", @nil (string * string))).
  cbn [home_rows hv_config hv_banner hv_banner_shown hv_rows app].
  rewrite prop_defined, bind_Done by done. unfold js_or. rewrite Hpr.
  by rewrite renderRow_not_array.
Qed.
End Home.

(** ** Witnesses *)

Definition ex_movie : jval :=
  JObj [("id", JNum 550); ("title", JStr "Fight Club"); ("poster_path", JStr "/p.jpg");
        ("overview", JStr "An insomniac.")].
Definition ex_list (ms : list jval) : response := Respond 200 (JObj [("results", JArr ms)]).
Definition ex_base : string := "https://image.tmdb.org/t/p/".

Lemma home_renders_lists_witness :
  fetchAndRenderHome default_tmdbConfig true (Respond 500 (JObj [])) (ex_list [ex_movie])
    (ex_list []) (ex_list [ex_movie]) =
  Done (mkHome default_tmdbConfig
          (BannerInfo (mkBanner "Fight Club" "assets/placeholder.jpg" "An insomniac.")) true
          [("Trending Now", poster_entry ex_base <$> [ex_movie]);
           ("Popular Movies", poster_entry ex_base <$> []);
           ("Top TV", poster_entry ex_base <$> [ex_movie])]).
Proof.
  apply (home_renders_lists default_tmdbConfig true (Respond 500 (JObj [])) (ex_list [ex_movie])
           (ex_list []) (ex_list [ex_movie]) default_tmdbConfig eq_refl ex_base
           (JObj [("results", JArr [ex_movie])]) (JObj [("results", JArr [])]) (JObj [("results", JArr [ex_movie])])
           [ex_movie] [] [ex_movie]
           (Some (mkBanner "Fight Club" "assets/placeholder.jpg" "An insomniac.")));
    try reflexivity; repeat constructor; discriminate.
Defined.

Lemma home_failure_message_hidden_witness :
  fetchAndRenderHome default_tmdbConfig true (Respond 500 (JObj [])) (Respond 200 (JObj []))
    (Respond 200 (JObj [("results", JObj [])])) (ex_list []) =
  Done (mkHome default_tmdbConfig BannerFailed false [("Trending Now", [])]).
Proof.
  apply (home_failure_message_hidden default_tmdbConfig true (Respond 500 (JObj [])) _ _ _
           default_tmdbConfig eq_refl (JObj []) (JObj [("results", JObj [])]) (JObj [("results", JArr [])]));
    try reflexivity; try (split; discriminate). intros l. discriminate.
Defined.

(** ** The modal *)

Lemma find_trailer_in_app pre v vs :
  Forall (fun w => not_nullish w /\ (get w "type" === JStr "Trailer") = false) pre ->
  not_nullish v -> get v "type" = JStr "Trailer" ->
  find_trailer_in (pre ++ v :: vs) = Done v.
Proof.
  intros Hpre [Hu Hn] Hv. induction Hpre as [|w pre [[Hwu Hwn] Hw] _ IH]; simpl.
  - rewrite prop_defined by done. simpl. by rewrite Hv.
  - rewrite prop_defined by done. simpl. by rewrite Hw.
Qed.

(** C24: For a movie whose videos list, after items of other types,
    has a trailer, the modal shows the poster, the title, the tagline, the
    overview and the YouTube link of that first trailer's key. *)
Theorem openModal_trailer cfg base m pre v vs :
  secure_base cfg = Done base -> not_nullish m -> truthy (get m "videos") = true ->
  get (get m "videos") "results" = JArr (pre ++ v :: vs) ->
  Forall (fun w => not_nullish w /\ (get w "type" === JStr "Trailer") = false) pre ->
  not_nullish v -> get v "type" = JStr "Trailer" ->
  openModal cfg (Respond 200 m) =
  ModalShown (if truthy (get m "poster_path")
              then base +:+ "w500" +:+ js_to_string (get m "poster_path") else "/assets/placeholder.jpg")
             (js_to_string (js_or (get m "title") (get m "name")))
             (js_to_string (js_or (get m "tagline") (JStr "")))
             (js_to_string (js_or (get m "overview") (JStr "")))
             (Some ("https://www.youtube.com/watch?v=" +:+ js_to_string (get v "key"))).
Proof.
  intros Hbase [Hu Hn] Hvid Hres Hpre Hv Ht.
  assert (Hvt : truthy v = true) by (destruct v; simpl in Ht; try discriminate; done).
  unfold openModal, modal_body. cbn [status_of res_ok fetch_json]. rewrite bind_Done.
  unfold modal_poster_src. rewrite prop_defined, bind_Done by done.
  assert (Hp : (if truthy (get m "poster_path")
                then base0 ← secure_base cfg; mret (base0 +:+ "w500" +:+ js_to_string (get m "poster_path"))
                else mret "/assets/placeholder.jpg") =
               Done (if truthy (get m "poster_path")
                     then base +:+ "w500" +:+ js_to_string (get m "poster_path")
                     else "/assets/placeholder.jpg"))
    by (destruct (truthy (get m "poster_path")); [rewrite Hbase, bind_Done|]; reflexivity).
  rewrite Hp, bind_Done. unfold find_trailer. rewrite Hvid. simpl negb. cbv iota.
  rewrite Hres. assert (truthy (JArr (pre ++ v :: vs)) = true) as -> by done. cbv iota.
  rewrite (find_trailer_in_app pre v vs Hpre Hv Ht).
  cbn [negb mbind outcome_bind mret outcome_ret].
  assert (js_or v JNull = v) as -> by (unfold js_or; by rewrite Hvt). by rewrite Hvt.
Qed.

Definition ex_modal_movie : jval :=
  JObj [("title", JStr "Fight Club");
        ("videos", JObj [("results", JArr [JObj [("type", JStr "Teaser")];
                                           JObj [("type", JStr "Trailer"); ("key", JStr "qtRKdVHc-cE")]])])].

Lemma openModal_trailer_witness :
  openModal default_tmdbConfig (Respond 200 ex_modal_movie) =
  ModalShown "/assets/placeholder.jpg" "Fight Club" "" ""
             (Some ("https://www.youtube.com/watch?v=" +:+ "qtRKdVHc-cE")).
Proof.
  apply (openModal_trailer default_tmdbConfig ex_base ex_modal_movie [JObj [("type", JStr "Teaser")]]
           (JObj [("type", JStr "Trailer"); ("key", JStr "qtRKdVHc-cE")]) []);
    try reflexivity; try (split; discriminate); repeat constructor; discriminate.
Defined.
