(* ===== verification/HomeRace.v ===== *)
(** * HomeRace: two renders of the home page at once

    [fetchAndRenderHome] (lines 168-186 of [src/client/app.js]) changes
    the page twice: after [await fetchConfig()] it writes "Loading..."
    and clears the rows ([home_start]); after the three list fetches it
    renders the banner and appends three rows ([home_fill]).  In between
    it only awaits, so another run can change the page.

    Two runs overlap whenever an action sets [location.hash] to a new
    value and also calls [fetchAndRenderHome] itself.  The browser fires
    [hashchange], whose [router] (line 61) renders the home page for
    [#movies].  This happens after a successful login or signup (lines
    84-86, 112-114), after logout (lines 136-138), and in [init] on a
    first visit without a fragment (lines 299-301).

    A run is its two page steps ([home_render]).  Network timing decides
    how the steps of two runs interleave ([interleaving]), and
    [home_events] plays a schedule on the page.  The theorem gives the
    rows every schedule of two renders leaves.  [set_hash] and
    [navAccount_click] model the assignments to [location.hash]; which
    of them fire [hashchange] is not tied to the renders here. *)

From S2P Require Import Prelude JsValue Http Client Pages.

(** ** Page steps and schedules *)

(** A step of a [fetchAndRenderHome] run that changes the page. *)
Inductive home_event : Type :=
  | HomeStart (rcfg : response)
  | HomeFill (rtrend rpop rtop : response).

(** A step on the page as it is: the start reads the configuration and
    the banner's display the page has then. *)
Definition home_step (v : home_view) (e : home_event) : outcome home_view :=
  match e with
  | HomeStart rcfg => home_start v.(hv_config) v.(hv_banner_shown) rcfg
  | HomeFill rtrend rpop rtop => home_fill v rtrend rpop rtop
  end.

Fixpoint home_events (v : home_view) (es : list home_event) : outcome home_view :=
  match es with
  | [] => Done v
  | e :: es' => v' ← home_step v e; home_events v' es'
  end.

(** The two page steps of one run, given the answers it awaits. *)
Definition home_render (rcfg rtrend rpop rtop : response) : list home_event :=
  [HomeStart rcfg; HomeFill rtrend rpop rtop].

(** [s] merges [l1] and [l2], keeping the order of each. *)
Inductive interleaving {A : Type} : list A -> list A -> list A -> Prop :=
  | il_nil : interleaving [] [] []
  | il_left x l1 l2 s : interleaving l1 l2 s -> interleaving (x :: l1) l2 (x :: s)
  | il_right x l1 l2 s : interleaving l1 l2 s -> interleaving l1 (x :: l2) (x :: s).

Definition is_start (e : home_event) : bool :=
  match e with HomeStart _ => true | HomeFill _ _ _ => false end.

(** ** Assignments to [location.hash] *)

(** [location.hash = h]: the new state, and whether [hashchange] fires
    (only when the fragment changes). *)
Definition set_hash (h : string) (st : client_state) : client_state * bool :=
  (mkClient h st.(cs_token), negb (String.eqb st.(cs_hash) h)).

(** The account link (line 33): [location.hash = '#account']. *)
Definition navAccount_click (st : client_state) : client_state * bool := set_hash "#account" st.

(** ** Lemmas *)

Lemma home_events_cons v e es v' :
  home_step v e = Done v' -> home_events v (e :: es) = home_events v' es.
Proof. intros He. cbn [home_events]. by rewrite He, bind_Done. Qed.

(** The configuration a start reads again once it was replaced. *)
Lemma fetchConfig_again c0 c r : fetchConfig c0 r = Done c -> fetchConfig c r = Done c.
Proof. destruct r as [s d| | |]; simpl; try done. destruct (res_ok s); congruence. Qed.

(** The schedules of two runs of two steps each. *)
Lemma interleaving_two {A} (a1 a2 b1 b2 : A) s :
  interleaving [a1; a2] [b1; b2] s ->
  s = [a1; a2; b1; b2] \/ s = [a1; b1; a2; b2] \/ s = [a1; b1; b2; a2] \/
  s = [b1; a1; a2; b2] \/ s = [b1; a1; b2; a2] \/ s = [b1; b2; a1; a2].
Proof.
  intros H. repeat match goal with H : interleaving _ _ _ |- _ => inversion H; subst; clear H end;
    naive_solver.
Qed.

(** Whether the second step of a schedule is a start: the second run
    clears the page before the first fills it. *)
Definition second_starts (s : list home_event) : bool :=
  match s with _ :: e :: _ => is_start e | _ => false end.

Section Race.
Context (cfg0 : jval) (b0 : banner_html) (shown0 : bool) (rows0 : list row).
Context (rcfg rtrend rpop rtop : response) (cfg : jval) (base : string).
Context (trending popular top : jval) (ts ps tvs : list jval) (ob : option banner).
Hypotheses (Hcfg : fetchConfig cfg0 rcfg = Done cfg)
  (Ht : fetch_json rtrend = Done trending) (Hp : fetch_json rpop = Done popular)
  (Htop : fetch_json rtop = Done top) (Hbase : secure_base cfg = Done base)
  (Hn : Forall not_nullish [trending; popular; top])
  (Hrt : get trending "results" = JArr ts) (Hrp : get popular "results" = JArr ps)
  (Hrtop : get top "results" = JArr tvs) (Hms : Forall not_nullish (ts ++ ps ++ tvs))
  (Hob : renderBanner cfg (index0 (JArr ts)) = Done ob).

Lemma race_start c b sh rows :
  fetchConfig c rcfg = Done cfg ->
  home_step (mkHome c b sh rows) (HomeStart rcfg) = Done (mkHome cfg BannerLoading sh []).
Proof. intros Hc. cbn [home_step hv_config hv_banner_shown]. unfold home_start. by rewrite Hc. Qed.

Lemma race_fill b sh rows :
  home_step (mkHome cfg b sh rows) (HomeFill rtrend rpop rtop) =
  Done (mkHome cfg (match ob with Some bn => BannerInfo bn | None => b end)
               (match ob with Some _ => sh | None => false end)
               (rows ++ home_rows_of base ts ps tvs)).
Proof.
  cbn [home_step].
  by rewrite (home_fill_lists (mkHome cfg b sh rows) _ _ _ base trending popular top ts ps tvs ob).
Qed.

(** C22: Two renders of the home page that get the same answers, in
    every order the network allows: the page ends with the configuration,
    the banner of the first trending item, and the three rows, shown once
    when one run fills the page before the other clears it, and shown
    twice, one copy after the other, when the second run clears the rows
    before the first appends them. *)
Theorem home_race_rows s :
  interleaving (home_render rcfg rtrend rpop rtop) (home_render rcfg rtrend rpop rtop) s ->
  home_events (mkHome cfg0 b0 shown0 rows0) s =
  Done (mkHome cfg (match ob with Some bn => BannerInfo bn | None => BannerLoading end)
               (match ob with Some _ => shown0 | None => false end)
               (if second_starts s
                then home_rows_of base ts ps tvs ++ home_rows_of base ts ps tvs
                else home_rows_of base ts ps tvs)).
Proof.
  pose proof (fetchConfig_again _ _ _ Hcfg) as Hcfg'.
  intros Hs. apply interleaving_two in Hs.
  destruct_or! Hs; subst;
    repeat first [ rewrite (home_events_cons _ _ _ _ (race_start _ _ _ _ Hcfg))
                 | rewrite (home_events_cons _ _ _ _ (race_start _ _ _ _ Hcfg'))
                 | rewrite (home_events_cons _ _ _ _ (race_fill _ _ _)) ];
    by destruct ob.
Qed.
End Race.

(** ** Witnesses *)

Definition ex_trending : response := Respond 200 (JObj [("results", JArr [ex_movie])]).

Lemma home_race_rows_witness :
  home_events (mkHome default_tmdbConfig BannerLoading true [])
    [HomeStart (Respond 500 (JObj [])); HomeStart (Respond 500 (JObj []));
     HomeFill ex_trending ex_trending ex_trending; HomeFill ex_trending ex_trending ex_trending] =
  Done (mkHome default_tmdbConfig
          (BannerInfo (mkBanner "Fight Club" "assets/placeholder.jpg" "An insomniac.")) true
          (home_rows_of ex_base [ex_movie] [ex_movie] [ex_movie] ++
           home_rows_of ex_base [ex_movie] [ex_movie] [ex_movie])).
Proof.
  apply (home_race_rows default_tmdbConfig BannerLoading true [] (Respond 500 (JObj []))
           ex_trending ex_trending ex_trending default_tmdbConfig ex_base
           (JObj [("results", JArr [ex_movie])]) (JObj [("results", JArr [ex_movie])])
           (JObj [("results", JArr [ex_movie])]) [ex_movie] [ex_movie] [ex_movie]
           (Some (mkBanner "Fight Club" "assets/placeholder.jpg" "An insomniac.")));
    try reflexivity; repeat constructor; discriminate.
Defined.
