(* ===== verification/Server.v ===== *)
(** * Server: startup, routing and the sequence of requests

    [src/server/index.js] exits at startup without [TMDB_API_KEY] (lines
    22-25) and creates [users.json] when it is absent (line 28).  Each
    request then goes through [express.json()] (line 30), the CORS
    middleware (lines 32-35), and the first route that matches its method
    and path in the order of registration (lines 60-168): the four TMDb
    endpoints, the three [/auth] endpoints, the two watchlist endpoints,
    the static files of the client, and the catch-all [GET *] that sends
    [index.html].

    Express 4 matches a route's path case-insensitively, accepts one
    trailing slash, matches a [:param] against a non-empty segment of the
    raw path and then percent-decodes it (a segment that does not decode
    gives 400); it runs the [GET] routes for a [HEAD] request, and the
    catch-all [GET *] decodes the whole path, answering 400 when it does
    not decode ([star]).  [route_of] is that matching for the routes of
    the file;
    [handle] runs the handler the route selects.  Requests handled one
    after the other form [reachable] states; the theorems show that every
    reachable users file satisfies the invariant [server_inv]. *)

From S2P Require Import Prelude JsValue Http UserStore Crypto Auth Watchlist Proxy.

Inductive http_method : Type :=
  | GET
  | POST
  | OtherMethod (name : string).

(** A request as the handlers see it: [None] as body is a JSON body that
    [express.json()] could not parse. *)
Record request : Type := mkReq {
  rq_method : http_method;
  rq_url : string;
  rq_authorization : option string;
  rq_body : option jval;
}.

(** What the server is started with: the secret, the TMDb key, TMDb
    itself, and the files of the client directory. *)
Record server_config : Type := mkConfig {
  sc_secret : string;
  sc_api_key : string;
  sc_upstream : upstream_request -> upstream_result;
  sc_static : list string;
}.

(** What a request finds in the environment: the clock in milliseconds
    and the salt bcrypt draws. *)
Record request_env : Type := mkEnv {
  re_now : Z;
  re_salt : string;
}.

(** [process.env.PORT || 5000] (line 14): the port [app.listen] gets;
    listening itself is I/O. *)
Definition port_of (env_port : option string) : jval :=
  match env_port with
  | Some p => js_or (JStr p) (JNum 5000)
  | None => JNum 5000
  end.

(** Lines 22-28: no key, no server; otherwise the users file exists. *)
Definition startup (tmdb_key : option string) (f : file_state) : option file_state :=
  match tmdb_key with
  | Some k => if truthy (JStr k) then Some (ensureUsersFile f) else None
  | None => None
  end.

(** ** Routing *)

(** A literal segment of a route, matched case-insensitively. *)
Definition lit (l s : string) : bool := String.eqb (string_lower s) l.

(** The path of an URL, without its query. *)
Definition url_path (url : string) : string :=
  match index_char "?"%char url with
  | Some i => String.substring 0 i url
  | None => url
  end.

(** The segments after the leading [/], one trailing [/] dropped. *)
Definition path_segments (path : string) : list string :=
  match js_split "/"%char path with
  | "" :: segs =>
      match reverse segs with
      | "" :: rsegs => reverse rsegs
      | _ => segs
      end
  | _ => []
  end.

Inductive route_target : Type :=
  | RTrending (mediaType timeWindow : string)
  | RMovie (id : string)
  | RSearch
  | RConfiguration
  | RSignup
  | RLogin
  | RMe
  | RWatchlistGet
  | RWatchlistPost
  | RGetFallback
  | RBadParam
  | RPreflight
  | RNotFound.

(** A [:param]: a non-empty segment, percent-decoded. *)
Definition param (s : string) : option (option string) :=
  if String.eqb s "" then None else Some (decodeURIComponent s).

(** [GET *] (line 166): Express percent-decodes the path it captures
    and answers 400 when that fails. *)
Definition star (path : string) : route_target :=
  match decodeURIComponent path with
  | Some _ => RGetFallback
  | None => RBadParam
  end.

(** The first [GET] route of lines 60-168 that matches. *)
Definition get_route (path : string) : route_target :=
  match path_segments path with
  | [a; b; c; d] =>
      if lit "api" a && lit "trending" b then
        match param c, param d with
        | Some (Some x), Some (Some y) => RTrending x y
        | Some None, Some _ | Some _, Some None => RBadParam
        | _, _ => star path
        end
      else star path
  | [a; b; c] =>
      if lit "api" a && lit "movie" b then
        match param c with
        | Some (Some x) => RMovie x
        | Some None => RBadParam
        | None => star path
        end
      else if lit "api" a && lit "search" b && lit "movie" c then RSearch
      else star path
  | [a; b] =>
      if lit "api" a && lit "configuration" b then RConfiguration
      else if lit "auth" a && lit "me" b then RMe
      else if lit "api" a && lit "watchlist" b then RWatchlistGet
      else star path
  | _ => star path
  end.

(** The first route of lines 60-168 that matches.  Express runs the
    [GET] routes for a [HEAD] request; [cors()] answers a preflight. *)
Definition route_of (m : http_method) (path : string) : route_target :=
  match m with
  | GET => get_route path
  | POST =>
      match path_segments path with
      | [a; b] =>
          if lit "auth" a && lit "signup" b then RSignup
          else if lit "auth" a && lit "login" b then RLogin
          else if lit "api" a && lit "watchlist" b then RWatchlistPost
          else RNotFound
      | _ => RNotFound
      end
  | OtherMethod name =>
      if String.eqb name "OPTIONS" then RPreflight
      else if String.eqb name "HEAD" then get_route path
      else RNotFound
  end.

(** ** The invariant of the users file *)

(** Every watchlist holds at most one item per id. *)
Definition watchlist_ids_ok (us : list user) : bool :=
  forallb (fun u => match u.(u_watchlist) with JArr wl => ids_distinct wl | _ => true end) us.

(** The file can be read, every watchlist is an array of items with
    distinct ids, and no two users have [===] emails. *)
Definition server_inv (f : file_state) : Prop :=
  match readUsers f with
  | Some us => watchlists_ok us = true /\ emails_distinct us = true /\ watchlist_ids_ok us = true
  | None => False
  end.

Section Handle.
Context `{Bcrypt} `{Jwt} (cfg : server_config).

(** One request, from the users file before it to the file after it and
    the answer. *)
Definition handle (f : file_state) (rq : request) (env : request_env) : file_state * response :=
  match rq.(rq_body) with
  | None => (f, RespondPage 400 "Bad Request")
  | Some body =>
      let path := url_path rq.(rq_url) in
      let proxy e := (f, proxy_handle cfg.(sc_api_key) cfg.(sc_upstream) e) in
      match route_of rq.(rq_method) path with
      | RTrending mt tw => proxy (Trending mt tw)
      | RMovie id => proxy (MovieDetails id)
      | RSearch => proxy (SearchMovie (req_query rq.(rq_url)))
      | RConfiguration => proxy Configuration
      | RSignup => signup cfg.(sc_secret) f body env.(re_now) env.(re_salt)
      | RLogin => (f, login cfg.(sc_secret) f body env.(re_now))
      | RMe => (f, me cfg.(sc_secret) f rq.(rq_authorization) env.(re_now))
      | RWatchlistGet => (f, watchlist_get cfg.(sc_secret) f rq.(rq_authorization) env.(re_now))
      | RWatchlistPost => watchlist_post cfg.(sc_secret) f rq.(rq_authorization) body env.(re_now)
      | RGetFallback =>
          (f, if existsb (String.eqb path) cfg.(sc_static) then RespondPage 200 path
              else RespondPage 200 "index.html")
      | RBadParam => (f, RespondPage 400 "Bad Request")
      | RPreflight => (f, RespondPage 204 "")
      | RNotFound => (f, RespondPage 404 "Not Found")
      end
  end.

(** The users files a server reaches: from startup on a file that meets
    the invariant (the empty file of a fresh install does), one request at
    a time. *)
Inductive reachable : file_state -> Prop :=
  | reach_start key f0 f : startup key f0 = Some f -> server_inv f -> reachable f
  | reach_step f rq env : reachable f -> reachable (fst (handle f rq env)).

(** A sequence of requests handled one after the other. *)
Fixpoint run (f : file_state) (reqs : list (request * request_env)) : file_state * list response :=
  match reqs with
  | [] => (f, [])
  | (rq, env) :: reqs' =>
      let '(f1, r) := handle f rq env in
      let '(f2, rs) := run f1 reqs' in
      (f2, r :: rs)
  end.
End Handle.

(** ** Every reachable file satisfies the invariant *)

Section Invariant.
Context `{Hb : Bcrypt} `{Hj : Jwt}.

Lemma server_inv_store_ok f : server_inv f -> store_ok f.
Proof. unfold server_inv, store_ok. destruct (readUsers f); naive_solver. Qed.

(** What [signup_begin] has checked when it reaches the [await]. *)
Lemma signup_begin_await f body p :
  signup_begin f body = SignupAwait p ->
  readUsers f = Some p.(sp_users) /\ p.(sp_email) = get body "email" /\
  p.(sp_password) = get body "password" /\ find_by_email p.(sp_email) p.(sp_users) = None.
Proof.
  unfold signup_begin. destruct (_ || _); [done|].
  destruct (readUsers f); [|done]. destruct (find_by_email _ _) eqn:E; [done|].
  intros [= <-]. auto.
Qed.

(** The file after [signup]: unchanged, or the users read at the
    [await] with the new user appended. *)
Lemma signup_file secret f body now salt :
  fst (signup secret f body now salt) = f \/
  exists p pw, signup_begin f body = SignupAwait p /\ p.(sp_password) = JStr pw /\
    fst (signup secret f body now salt) =
    FileUsers (p.(sp_users) ++ [new_user p now (bcrypt_hash salt pw)]).
Proof.
  unfold signup. destruct (signup_begin f body) as [r|p] eqn:E; [by left|].
  unfold signup_finish. destruct (sp_password p) eqn:Hp; try by left. right. eauto.
Qed.

(** Appending a user whose email is not in the file. *)
Lemma server_inv_append f us u :
  server_inv f -> readUsers f = Some us -> find_by_email u.(u_email) us = None ->
  u.(u_watchlist) = JArr [] -> server_inv (FileUsers (us ++ [u])).
Proof.
  unfold server_inv. intros Hi Hr Hf Hw. rewrite Hr in Hi. destruct Hi as (H1 & H2 & H3).
  simpl. rewrite watchlists_ok_app, Hw, H1. unfold watchlist_ids_ok in *.
  rewrite forallb_app, H3. simpl. rewrite Hw. simpl. auto with moviehub.
Qed.

Lemma signup_inv secret f body now salt :
  server_inv f -> server_inv (fst (signup secret f body now salt)).
Proof.
  intros Hi. destruct (signup_file secret f body now salt) as [-> | (p & pw & E & Hp & ->)]; [done|].
  destruct (signup_begin_await _ _ _ E) as (Hr & _ & _ & Hf).
  by apply (server_inv_append f).
Qed.

(** Replacing a watchlist by its toggle with a truthy id. *)
Lemma server_inv_toggle us i u wl movie :
  server_inv (FileUsers us) -> us !! i = Some u -> js_or u.(u_watchlist) (JArr []) = JArr wl ->
  truthy (get movie "id") = true ->
  server_inv (FileUsers (<[i := set_watchlist u (JArr (toggle wl movie))]> us)).
Proof.
  unfold server_inv. simpl. intros (H1 & H2 & H3) Hl Ho Ht.
  pose proof (forallb_lookup _ _ _ _ H1 Hl) as Ha.
  pose proof (forallb_lookup _ _ _ _ H3 Hl) as Hd.
  cbn beta in Ha, Hd. destruct (u_watchlist u); try done. simpl in Ho. injection Ho as ->.
  split; [|split].
  - by apply forallb_insert.
  - unfold emails_distinct in *. rewrite list_fmap_insert. simpl.
    rewrite list_insert_id; [done|]. by rewrite list_lookup_fmap, Hl.
  - apply forallb_insert; [done|]. simpl. by apply toggle_preserves_ids_distinct.
Qed.

Lemma watchlist_post_inv secret f h body t :
  server_inv f -> server_inv (fst (watchlist_post secret f h body t)).
Proof.
  intros Hi.
  destruct (watchlist_post_file secret f h body t) as [-> | (us & i & u & wl & Hr & Hl & Ho & Ht & ->)];
    [done|].
  destruct f; simpl in Hr; try done; injection Hr as <-.
  - by apply (server_inv_toggle [] i u).
  - by apply server_inv_toggle.
Qed.

Lemma handle_inv cfg f rq env : server_inv f -> server_inv (fst (handle cfg f rq env)).
Proof.
  intros Hi. unfold handle. destruct (rq_body rq); [|done].
  destruct (route_of _ _); simpl; auto using signup_inv, watchlist_post_inv.
Qed.
End Invariant.

(** ** Which requests go unanswered *)

Section Answers.
Context `{Hb : Bcrypt} `{Hj : Jwt}.

Lemma proxy_handle_answers key up e : proxy_handle key up e <> NoResponse.
Proof. unfold proxy_handle, proxy_respond. by destruct (up _). Qed.

Lemma auth_fail_answers secret h t r : authMiddleware secret h t = AuthFail r -> r <> NoResponse.
Proof. intros Ha. by destruct (authMiddleware_fail secret h t r Ha) as [? ->]. Qed.

Ltac answered :=
  repeat match goal with
  | H : authMiddleware _ _ _ = AuthFail _ |- _ => apply auth_fail_answers in H
  | |- context [match ?x with _ => _ end] => destruct x eqn:?
  end; simpl; intros; unfold json_ok, json_error in *; try discriminate; try congruence.

(** The handlers behind the middleware answer every request on a file
    that can be read. *)
Lemma protected_answers secret f h body t :
  readUsers f <> None ->
  me secret f h t <> NoResponse /\ watchlist_get secret f h t <> NoResponse /\
  snd (watchlist_post secret f h body t) <> NoResponse.
Proof. intros Hr. unfold me, watchlist_get, watchlist_post. split_and!; answered. Qed.

Lemma signup_answers secret f body now salt :
  readUsers f <> None -> snd (signup secret f body now salt) = NoResponse ->
  forall pw, get body "password" <> JStr pw.
Proof.
  intros Hr. unfold signup. destruct (signup_begin f body) as [r|p] eqn:E.
  - revert E. unfold signup_begin. answered.
  - destruct (signup_begin_await _ _ _ E) as (_ & _ & <- & _).
    unfold signup_finish. destruct (sp_password p); simpl; intros; unfold json_ok in *; congruence.
Qed.
Lemma login_answers secret f body now :
  readUsers f <> None -> login secret f body now = NoResponse ->
  forall pw, get body "password" <> JStr pw.
Proof. intros Hr. unfold login. answered. Qed.
End Answers.

(** ** The shape of the answers *)

(** The uniform error body of spec section 7: an object whose first
    property is [error] with a string. *)
Definition error_body (b : jval) : bool :=
  match b with JObj ((k, JStr _) :: _) => String.eqb k "error" | _ => false end.

(** An answer the API documents (spec sections 6 and 7): a success, an
    error of the taxonomy (400, 401, 404, 500) with the uniform body, or
    one of the pages of the static routes and of Express.  A crash page
    is not one of them; an answer that never comes is [handle_answers]'s
    business. *)
Definition api_answer_ok (r : response) : bool :=
  match r with
  | Respond s b => bool_decide (s = 200%Z) || bool_decide (s ∈ [400; 401; 404; 500]%Z) && error_body b
  | RespondPage s _ => bool_decide (s ∈ [200; 204; 400; 404]%Z)
  | Crash500 => false
  | NoResponse => true
  end.

Section Shapes.
Context `{Hb : Bcrypt} `{Hj : Jwt}.

Lemma auth_fail_ok secret h t r : authMiddleware secret h t = AuthFail r -> api_answer_ok r = true.
Proof. intros Ha. by destruct (authMiddleware_fail secret h t r Ha) as [? ->]. Qed.

Ltac shape :=
  repeat match goal with
  | H : authMiddleware _ _ _ = AuthFail ?r |- context [api_answer_ok ?r] =>
      rewrite (auth_fail_ok _ _ _ _ H)
  | |- context [match ?x with _ => _ end] => destruct x eqn:?
  end; simpl; try reflexivity; try congruence.

Lemma proxy_handle_ok key up e : api_answer_ok (proxy_handle key up e) = true.
Proof. unfold proxy_handle, proxy_respond. by destruct (up _). Qed.

Lemma read_handlers_ok secret f us h body t salt :
  readUsers f = Some us ->
  api_answer_ok (me secret f h t) = true /\ api_answer_ok (watchlist_get secret f h t) = true /\
  api_answer_ok (login secret f body t) = true /\
  api_answer_ok (snd (signup secret f body t salt)) = true.
Proof.
  intros Hr. unfold me, watchlist_get, login. split_and!; [shape..|].
  unfold signup. destruct (signup_begin f body) as [r|p] eqn:E.
  - revert E. unfold signup_begin. rewrite Hr. intros E. case_code; reflexivity.
  - unfold signup_finish. by destruct (sp_password p).
Qed.

Lemma watchlist_post_ok secret f h body t :
  server_inv f -> api_answer_ok (snd (watchlist_post secret f h body t)) = true.
Proof.
  unfold server_inv. destruct (readUsers f) as [us|] eqn:Hr; [|done]. intros (Hw & _ & _).
  destruct (authMiddleware secret h t) as [c|r] eqn:Ha.
  2:{ unfold watchlist_post. rewrite Ha. simpl. by apply (auth_fail_ok secret h t). }
  destruct (find_by_id c.(cl_id) us) as [u|] eqn:Hf.
  2:{ unfold watchlist_post. by rewrite Ha, Hr, findIndex_by_id_none. }
  destruct (findIndex_by_id_found _ _ _ Hf) as (i & Hi & Hl).
  destruct (truthy (get body "movie")) eqn:Hm, (truthy (get (get body "movie") "id")) eqn:Hid;
    try (unfold watchlist_post; rewrite Ha, Hr, Hi, Hm; try rewrite Hid;
         rewrite (proj2 (Z.eqb_neq _ _)) by lia; reflexivity).
  rewrite (watchlist_post_found secret f h body t c us i u) by done.
  pose proof (watchlists_ok_lookup us i u Hw Hl) as Harr.
  by destruct (u_watchlist u).
Qed.
End Shapes.

Section Claims.
Context `{Hb : Bcrypt} `{Hj : Jwt}.

(** C4: Every users file the server reaches satisfies [server_inv]: it can
    be read, every watchlist is an array in which no two items have [===]
    ids, and no two users have [===] emails. *)
Theorem reachable_server_inv cfg f : reachable cfg f -> server_inv f.
Proof. induction 1; auto using handle_inv. Qed.

(** C18: A server whose file satisfies the invariant answers every request,
    except a signup or a login whose password is not a string: bcrypt
    rejects it inside an [async] handler and Express 4 never answers. *)
Theorem handle_answers cfg f rq env :
  server_inv f -> snd (handle cfg f rq env) = NoResponse ->
  exists body, rq.(rq_body) = Some body /\
    (route_of rq.(rq_method) (url_path rq.(rq_url)) = RSignup \/
     route_of rq.(rq_method) (url_path rq.(rq_url)) = RLogin) /\
    forall pw, get body "password" <> JStr pw.
Proof.
  intros Hi. assert (Hr : readUsers f <> None) by (unfold server_inv in Hi; by destruct (readUsers f)).
  unfold handle. destruct (rq_body rq) as [body|]; [|done].
  pose proof (protected_answers (sc_secret cfg) f (rq_authorization rq) body (re_now env) Hr) as (H1 & H2 & H3).
  destruct (route_of _ _) eqn:E; simpl; intros Hn; try by apply proxy_handle_answers in Hn.
  all: try by (repeat case_match).
  - exists body. split_and!; [done|by left|]. by eapply signup_answers.
  - exists body. split_and!; [done|by right|]. by eapply login_answers.
Qed.

(** C6: On a file that satisfies the invariant, every answer of the
    server has the shape spec sections 6 and 7 promise: 200, or 400, 401,
    404 or 500 with the uniform body [{ error: <string>, ... }], or a page
    of the static routes, of the preflight or of Express's 400 and 404.
    No request makes a handler throw. *)
Theorem handle_answer_shape cfg f rq env :
  server_inv f -> api_answer_ok (snd (handle cfg f rq env)) = true.
Proof.
  intros Hi. assert (Hr : exists us, readUsers f = Some us)
    by (unfold server_inv in Hi; destruct (readUsers f); naive_solver).
  destruct Hr as [us Hr].
  unfold handle. destruct (rq_body rq) as [body|]; [|done].
  destruct (read_handlers_ok (sc_secret cfg) f us (rq_authorization rq) body (re_now env) (re_salt env) Hr)
    as (H1 & H2 & H3 & H4).
  destruct (route_of _ _); simpl; auto using proxy_handle_ok, watchlist_post_ok.
  by case_match.
Qed.
End Claims.

(** ** Witnesses *)

Definition ex_cfg : server_config := mkConfig ex_secret "K" (fun _ => UpErr "offline") ["/app.js"].
Definition ex_env : request_env := mkEnv ex_t0 ex_salt.
Definition ex_post (path : string) (body : jval) : request := mkReq POST path None (Some body).
Definition ex_numeric_pw : jval := JObj [("email", JStr "c@x.com"); ("password", JNum 1234)].

Lemma reachable_server_inv_witness :
  server_inv (fst (handle ex_cfg (FileUsers []) (ex_post "/auth/signup" ex_alice) ex_env)).
Proof.
  apply (reachable_server_inv ex_cfg), reach_step.
  apply (reach_start ex_cfg (Some "K") FileMissing); [reflexivity|]. vm_compute. auto.
Defined.

Lemma handle_answers_witness :
  exists body, rq_body (ex_post "/Auth/Signup/" ex_numeric_pw) = Some body /\
    (route_of (rq_method (ex_post "/Auth/Signup/" ex_numeric_pw))
       (url_path (rq_url (ex_post "/Auth/Signup/" ex_numeric_pw))) = RSignup \/
     route_of (rq_method (ex_post "/Auth/Signup/" ex_numeric_pw))
       (url_path (rq_url (ex_post "/Auth/Signup/" ex_numeric_pw))) = RLogin) /\
    forall pw, get body "password" <> JStr pw.
Proof.
  apply (handle_answers ex_cfg (FileUsers []) (ex_post "/Auth/Signup/" ex_numeric_pw) ex_env); vm_compute; [auto | reflexivity].
Defined.

Lemma handle_answer_shape_witness :
  api_answer_ok (snd (handle ex_cfg (FileUsers [ex_alice_user])
                   (mkReq POST "/api/watchlist" ex_alice_header (Some (JObj []))) ex_env)) = true.
Proof. apply handle_answer_shape. vm_compute. auto. Defined.
