(* ===== verification/Interleave.v ===== *)
(** * Interleave: requests that overlap at the [await] of signup

    Node runs one handler at a time, up to its first [await].  Of the
    handlers that touch the users file, only [POST /auth/signup] waits
    between reading the file and writing it: it reads the users (line
    110), waits for [bcrypt.hash] (line 112), then writes the array it
    read with the new user appended (lines 113-115).  [POST /auth/login]
    also waits for bcrypt, but after its last read and without writing.

    [cstep] is the step relation of a server with signups in flight: a
    request handled in one go ([handle]), a signup suspended at its
    [await] ([signup_begin]), or a suspended signup resumed, in any order
    ([signup_finish]).  The theorems show that the invariant survives
    every interleaving (each write is a snapshot that met it, plus a user
    whose email the snapshot lacked), and what is lost: a user who signed
    up while another signup was in flight, and a watchlist change
    acknowledged while a signup was in flight. *)

From stdpp Require Import relations.
From S2P Require Import Prelude JsValue Http UserStore Crypto Auth Watchlist Server.

(** The users file and the signups waiting for bcrypt. *)
Record conc_state : Type := mkConc {
  cs_file : file_state;
  cs_pending : list signup_pending;
}.

Section Steps.
Context `{Bcrypt} `{Jwt} (cfg : server_config).

(** A suspended signup resumes when its hash is ready: it writes its
    snapshot with the new user (lines 113-117). *)
Inductive resume_step : conc_state -> conc_state -> Prop :=
  | resume s pre p post env :
      s.(cs_pending) = pre ++ p :: post ->
      resume_step s (mkConc (fst (signup_finish cfg.(sc_secret) p s.(cs_file) env.(re_now) env.(re_salt)))
                            (pre ++ post)).

Inductive cstep : conc_state -> conc_state -> Prop :=
  | cstep_handle s rq env :
      cstep s (mkConc (fst (handle cfg s.(cs_file) rq env)) s.(cs_pending))
  | cstep_suspend s body p :
      signup_begin s.(cs_file) body = SignupAwait p ->
      cstep s (mkConc s.(cs_file) (p :: s.(cs_pending)))
  | cstep_resume s s' : resume_step s s' -> cstep s s'.

Definition creachable (s0 s : conc_state) : Prop := rtc cstep s0 s.
End Steps.

(** A suspended signup holds a snapshot that met the invariant and an
    email the snapshot lacks. *)
Definition pending_ok (p : signup_pending) : Prop :=
  server_inv (FileUsers p.(sp_users)) /\ find_by_email p.(sp_email) p.(sp_users) = None.

Definition conc_inv (s : conc_state) : Prop :=
  server_inv s.(cs_file) /\ Forall pending_ok s.(cs_pending).

Section Invariant.
Context `{Hb : Bcrypt} `{Hj : Jwt}.

Lemma server_inv_read f us : server_inv f -> readUsers f = Some us -> server_inv (FileUsers us).
Proof. unfold server_inv. intros Hi Hr. by rewrite Hr in Hi. Qed.

Lemma signup_finish_inv secret p f now salt :
  pending_ok p -> server_inv f -> server_inv (fst (signup_finish secret p f now salt)).
Proof.
  intros [Hp Hf] Hi. unfold signup_finish. destruct (sp_password p); try done.
  by apply (server_inv_append (FileUsers (sp_users p))).
Qed.

Lemma cstep_inv cfg s s' : cstep cfg s s' -> conc_inv s -> conc_inv s'.
Proof.
  unfold conc_inv. intros [s0 rq env|s0 body p E|? ? [s0 pre p post env Hs]] [Hi Hp]; split; simpl.
  - by apply handle_inv.
  - done.
  - done.
  - destruct (signup_begin_await _ _ _ E) as (Hr & _ & _ & Hf).
    constructor; [split; [by eapply server_inv_read|done]|done].
  - rewrite Hs in Hp. apply Forall_app in Hp as [_ Hp]. apply Forall_cons in Hp as [Hp _].
    by apply signup_finish_inv.
  - rewrite Hs in Hp. apply Forall_app in Hp as [Hp1 Hp2]. apply Forall_cons in Hp2 as [_ Hp2].
    by apply Forall_app.
Qed.

Lemma creachable_inv cfg s0 s : creachable cfg s0 s -> conc_inv s0 -> conc_inv s.
Proof. induction 1; eauto using cstep_inv. Qed.
End Invariant.

(** ** What overlapping requests keep and what they lose *)

Section Races.
Context `{Hb : Bcrypt} `{Hj : Jwt}.

Lemma signup_begin_same_snapshot f b1 b2 p1 p2 :
  signup_begin f b1 = SignupAwait p1 -> signup_begin f b2 = SignupAwait p2 ->
  p2.(sp_users) = p1.(sp_users).
Proof.
  intros E1 E2. destruct (signup_begin_await _ _ _ E1) as (Hr1 & _).
  destruct (signup_begin_await _ _ _ E2) as (Hr2 & _). congruence.
Qed.

Lemma signup_finish_str secret p pw f now salt :
  p.(sp_password) = JStr pw ->
  signup_finish secret p f now salt =
  (FileUsers (p.(sp_users) ++ [new_user p now (bcrypt_hash salt pw)]),
   json_ok (JObj [("token", JStr (jwt_sign secret (id_of_time now) p.(sp_email)
                                           (now_seconds now) seven_days));
                  ("user", public_user (new_user p now (bcrypt_hash salt pw)))])).
Proof. intros Hp. unfold signup_finish. by rewrite Hp. Qed.

(** C15: Whatever the order in which requests run and suspended signups
    resume, the users file keeps the invariant: emails stay distinct even
    when two signups with the same email overlap, since each write is the
    snapshot its signup checked plus one user. *)
Theorem interleaving_keeps_invariant cfg f s :
  creachable cfg (mkConc f []) s -> server_inv f -> server_inv s.(cs_file).
Proof. intros Hr Hi. apply (creachable_inv cfg (mkConc f []) s Hr). split; [done|constructor]. Qed.

(** C17: A watchlist change acknowledged while a signup waits for bcrypt is
    lost: when the signup resumes it writes the users it read before the
    change, so the user's watchlist in the file is not the one the client
    was answered. *)
Theorem signup_discards_concurrent_toggle secret f b p pw h mb t t' salt c wl' :
  signup_begin f b = SignupAwait p -> p.(sp_password) = JStr pw ->
  authMiddleware secret h t = AuthOk c ->
  snd (watchlist_post secret f h mb t) = json_ok (JObj [("watchlist", JArr wl')]) ->
  exists us u, readUsers (fst (signup_finish secret p (fst (watchlist_post secret f h mb t)) t' salt))
               = Some us /\ find_by_id c.(cl_id) us = Some u /\ u.(u_watchlist) <> JArr wl'.
Proof.
  intros E Hp Ha Hw.
  destruct (watchlist_post_success _ _ _ _ _ _ _ Ha Hw) as (us & i & u & wl & Hr & Hf & _ & Ho & -> & _).
  destruct (signup_begin_await _ _ _ E) as (Hr' & _). rewrite Hr in Hr'. injection Hr' as Hu.
  rewrite signup_finish_str with (pw := pw) by done. simpl. rewrite <- Hu.
  exists (us ++ [new_user p t' (bcrypt_hash salt pw)]), u. rewrite find_by_id_app, Hf.
  split_and!; [done|done|]. unfold js_or in Ho. destruct (truthy (u_watchlist u)) eqn:Ht.
  - rewrite Ho. intros Heq. injection Heq as Hl.
    apply (toggle_length_ne wl (get mb "movie")). by rewrite <- Hl.
  - intros Hu'. by rewrite Hu' in Ht.
Qed.
End Races.

Section LostSignup.
Context `{Hb : Bcrypt} `{Hj : Jwt} `{!JwtLaws} (secret : string).

(** C16: Two signups that overlap at the [await] both succeed, each
    answered 200 with a token, but the second to resume writes the
    snapshot it read, without the first user: the first client holds a
    token that [GET /auth/me] answers with 404 "User not found". *)
Theorem interleaved_signups_lose_first f b1 b2 p1 p2 pw1 pw2 t1 t2 salt1 salt2 t :
  signup_begin f b1 = SignupAwait p1 -> signup_begin f b2 = SignupAwait p2 ->
  p1.(sp_password) = JStr pw1 -> p2.(sp_password) = JStr pw2 ->
  id_of_time t1 <> id_of_time t2 -> find_by_id (id_of_time t1) p1.(sp_users) = None ->
  (now_seconds t < now_seconds t1 + seven_days)%Z ->
  exists tok u tok2 u2,
    snd (signup_finish secret p1 f t1 salt1) = json_ok (JObj [("token", JStr tok); ("user", u)]) /\
    snd (signup_finish secret p2 (fst (signup_finish secret p1 f t1 salt1)) t2 salt2) =
      json_ok (JObj [("token", JStr tok2); ("user", u2)]) /\
    me secret (fst (signup_finish secret p2 (fst (signup_finish secret p1 f t1 salt1)) t2 salt2))
       (bearer tok) t = json_error 404 "User not found".
Proof.
  intros E1 E2 Hp1 Hp2 Hid Hf Ht.
  rewrite (signup_finish_str _ p1 pw1) by done. eexists _, _, _, _. split; [reflexivity|].
  rewrite (signup_finish_str _ p2 pw2) by done. split; [reflexivity|]. unfold me. simpl fst.
  rewrite authMiddleware_issued, bool_decide_true by done. cbn [readUsers cl_id].
  rewrite find_by_id_app, (signup_begin_same_snapshot _ _ _ _ _ E1 E2), Hf. simpl.
  by rewrite (proj2 (String.eqb_neq _ _)) by congruence.
Qed.
End LostSignup.

(** ** Witnesses *)

Definition ex_alice2 : jval := JObj [("email", JStr "a@x.com"); ("password", JStr "other")].
Definition ex_pA : signup_pending := mkPending [] (JStr "Alice") (JStr "a@x.com") (JStr "p").
Definition ex_pA2 : signup_pending := mkPending [] JUndef (JStr "a@x.com") (JStr "other").
Definition ex_pB : signup_pending := mkPending [] JUndef (JStr "b@x.com") (JStr "q").

(** Two signups with the same email overlap; each resumes in turn. *)
Definition ex_race_end : conc_state :=
  mkConc (fst (signup_finish ex_secret ex_pA2
                 (fst (signup_finish ex_secret ex_pA (FileUsers []) ex_t0 ex_salt))
                 (ex_t0 + 1) ex_salt)) [].

Lemma ex_race_path : creachable ex_cfg (mkConc (FileUsers []) []) ex_race_end.
Proof.
  eapply rtc_l; [apply (cstep_suspend ex_cfg _ ex_alice ex_pA); vm_compute; reflexivity|].
  eapply rtc_l; [apply (cstep_suspend ex_cfg _ ex_alice2 ex_pA2); vm_compute; reflexivity|].
  eapply rtc_l; [apply cstep_resume, (resume ex_cfg _ [ex_pA2] ex_pA [] (mkEnv ex_t0 ex_salt)); reflexivity|].
  eapply rtc_l; [apply cstep_resume, (resume ex_cfg _ [] ex_pA2 [] (mkEnv (ex_t0 + 1) ex_salt)); reflexivity|].
  apply rtc_refl.
Qed.

Lemma interleaving_keeps_invariant_witness : server_inv (cs_file ex_race_end).
Proof.
  apply (interleaving_keeps_invariant ex_cfg (FileUsers []) ex_race_end ex_race_path).
  vm_compute. auto.
Defined.

Lemma signup_discards_concurrent_toggle_witness :
  exists us u,
    readUsers (fst (signup_finish ex_secret (mkPending [ex_alice_user] JUndef (JStr "b@x.com") (JStr "q"))
                      (fst (watchlist_post ex_secret ex_store1 ex_alice_header ex_post42 (ex_t0 + 1000)))
                      (ex_t0 + 2000) ex_salt)) = Some us /\
    find_by_id (cl_id ex_alice_claims) us = Some u /\ u.(u_watchlist) <> JArr [ex_movie42].
Proof.
  apply (signup_discards_concurrent_toggle ex_secret ex_store1 ex_bob _ "q" ex_alice_header
           ex_post42 (ex_t0 + 1000) (ex_t0 + 2000) ex_salt ex_alice_claims [ex_movie42]);
    vm_compute; reflexivity.
Defined.

Lemma interleaved_signups_lose_first_witness :
  exists tok u tok2 u2,
    snd (signup_finish ex_secret ex_pA (FileUsers []) ex_t0 ex_salt) =
      json_ok (JObj [("token", JStr tok); ("user", u)]) /\
    snd (signup_finish ex_secret ex_pB (fst (signup_finish ex_secret ex_pA (FileUsers []) ex_t0 ex_salt))
           (ex_t0 + 1) ex_salt) = json_ok (JObj [("token", JStr tok2); ("user", u2)]) /\
    me ex_secret (fst (signup_finish ex_secret ex_pB
                         (fst (signup_finish ex_secret ex_pA (FileUsers []) ex_t0 ex_salt))
                         (ex_t0 + 1) ex_salt))
       (bearer tok) (ex_t0 + 1000) = json_error 404 "User not found".
Proof.
  apply (interleaved_signups_lose_first ex_secret (FileUsers []) ex_alice ex_bob ex_pA ex_pB "p" "q");
    vm_compute; try reflexivity; congruence.
Defined.
