(* ===== verification/Accounts.v ===== *)
(** * Accounts: the account service the server implements

    The users file is an array the handlers search with [find] and
    [findIndex].  What a client can observe of it is smaller: for each
    email, the account [login] finds ([id], [name], bcrypt hash); and for
    each id, the set of movie ids in the watchlist that [/api/watchlist]
    and [/auth/me] find.  [astate] is that view, as two stdpp finite maps,
    and [abs] computes it from the file.  A map lookup is the code's
    search: [registry_lookup] and [watchsets_lookup].

    [astep] is the abstract specification of a request: a signup with a
    new email registers an account (and, when its id is new, an empty
    watchlist); a watchlist [POST] toggles an id in the set of the user
    the token names; every other request leaves the accounts alone.
    [login_abs] shows that [login] answers from the registry alone.  The
    theorems show that [handle] refines [astep] on every file that meets
    [server_inv], for every sequence of requests, and that an account
    that can log in keeps its login through any later requests. *)

From S2P Require Import Prelude JsValue Http UserStore Crypto Auth Watchlist Proxy Server.
From stdpp Require Import gmap.

(** ** The abstract state *)

(** What [login] reads of a user. *)
Record account : Type := mkAccount {
  ac_id : string;
  ac_name : jval;
  ac_hash : string;
}.

Definition account_of (u : user) : account := mkAccount u.(u_id) u.(u_name) u.(u_passwordHash).

(** The ids of a stored watchlist, as [/api/watchlist] toggles them. *)
Definition wl_set (u : user) : gset jval :=
  match u.(u_watchlist) with JArr wl => ids_of wl | _ => ∅ end.

(** The accounts by email, the first user winning, as [find] does.  An
    object or array email is [===] to nothing: no login reaches it. *)
Fixpoint registry (us : list user) : gmap jval account :=
  match us with
  | [] => ∅
  | u :: us' =>
      if is_primitive u.(u_email) then <[u.(u_email) := account_of u]> (registry us')
      else registry us'
  end.

(** The watchlists by id, the first user winning. *)
Fixpoint watchsets (us : list user) : gmap string (gset jval) :=
  match us with
  | [] => ∅
  | u :: us' => <[u.(u_id) := wl_set u]> (watchsets us')
  end.

Record astate : Type := mkAState {
  as_registry : gmap jval account;
  as_lists : gmap string (gset jval);
}.

Definition abs (f : file_state) : astate :=
  match readUsers f with
  | Some us => mkAState (registry us) (watchsets us)
  | None => mkAState ∅ ∅
  end.

(** ** The abstract operations *)

Definition a_registered (email : jval) (s : astate) : bool :=
  match s.(as_registry) !! email with Some _ => true | None => false end.

(** A new account; an id that is already taken keeps its watchlist. *)
Definition a_signup (email : jval) (a : account) (s : astate) : astate :=
  mkAState (if is_primitive email then <[email := a]> s.(as_registry) else s.(as_registry))
           (match s.(as_lists) !! a.(ac_id) with
            | Some _ => s.(as_lists)
            | None => <[a.(ac_id) := ∅]> s.(as_lists)
            end).

Definition a_toggle (id : string) (x : jval) (s : astate) : astate :=
  mkAState s.(as_registry)
           (match s.(as_lists) !! id with
            | Some w => <[id := set_toggle x w]> s.(as_lists)
            | None => s.(as_lists)
            end).

Section Spec.
Context `{Bcrypt} `{Jwt} (cfg : server_config).

(** [POST /auth/signup]: a truthy email no account has and a non-empty
    string password register an account. *)
Definition a_signup_request (s : astate) (body : jval) (env : request_env) : astate :=
  let email := get body "email" in
  match get body "password" with
  | JStr pw =>
      if truthy email && truthy (JStr pw) && negb (a_registered email s)
      then a_signup email (mkAccount (id_of_time env.(re_now)) (js_or (get body "name") (JStr ""))
                                     (bcrypt_hash env.(re_salt) pw)) s
      else s
  | _ => s
  end.

(** [POST /api/watchlist]: a valid token and a movie with a truthy id
    toggle the id for the token's user. *)
Definition a_watchlist_request (s : astate) (h : option string) (body : jval) (now_ms : Z)
    : astate :=
  match authMiddleware cfg.(sc_secret) h now_ms with
  | AuthOk c =>
      let movie := get body "movie" in
      if truthy movie && truthy (get movie "id") then a_toggle c.(cl_id) (get movie "id") s else s
  | AuthFail _ => s
  end.

(** What a request does to the accounts. *)
Definition astep (s : astate) (rq : request) (env : request_env) : astate :=
  match rq.(rq_body) with
  | None => s
  | Some body =>
      match route_of rq.(rq_method) (url_path rq.(rq_url)) with
      | RSignup => a_signup_request s body env
      | RWatchlistPost => a_watchlist_request s rq.(rq_authorization) body env.(re_now)
      | _ => s
      end
  end.

(** Requests one after the other. *)
Fixpoint arun (s : astate) (reqs : list (request * request_env)) : astate :=
  match reqs with
  | [] => s
  | (rq, env) :: reqs' => arun (astep s rq env) reqs'
  end.

(** [POST /auth/login] answered from the registry. *)
Definition a_login (r : gmap jval account) (body : jval) (now_ms : Z) : response :=
  let email := get body "email" in
  match r !! email with
  | None => json_error 400 "Invalid credentials"
  | Some a =>
      match get body "password" with
      | JStr pw =>
          if bcrypt_compare pw a.(ac_hash)
          then json_ok (JObj [("token", JStr (jwt_sign cfg.(sc_secret) a.(ac_id) email
                                                (now_seconds now_ms) seven_days));
                              ("user", JObj [("id", JStr a.(ac_id)); ("name", a.(ac_name));
                                             ("email", email)])])
          else json_error 400 "Invalid credentials"
      | _ => NoResponse
      end
  end.
End Spec.

(** ** The maps are the code's searches *)

Lemma find_by_email_object email us :
  is_primitive email = false -> find_by_email email us = None.
Proof.
  intros Hp. apply js_find_None, Forall_forall. intros u _.
  destruct (strict_eq _ _) eqn:E; [|done].
  rewrite strict_eq_sym in E. by rewrite (strict_eq_prim _ _ E) in Hp.
Qed.

Lemma registry_lookup us e :
  registry us !! e = if is_primitive e then account_of <$> find_by_email e us else None.
Proof.
  induction us as [|u us IH]; simpl; [by destruct (is_primitive e)|].
  unfold find_by_email in *. cbn [js_find].
  destruct (is_primitive e) eqn:He.
  - destruct (strict_eq (u_email u) e) eqn:E.
    + apply strict_eq_iff in E; [|done]. subst. rewrite He. by rewrite lookup_insert_eq.
    + assert (u_email u <> e) by (intros <-; by rewrite strict_eq_refl in E).
      destruct (is_primitive (u_email u)); [rewrite lookup_insert_ne by done|]; done.
  - destruct (is_primitive (u_email u)) eqn:Hu; [|done].
    rewrite lookup_insert_ne; [done|]. intros Heq. rewrite Heq in Hu. congruence.
Qed.

Lemma watchsets_lookup us id : watchsets us !! id = wl_set <$> find_by_id id us.
Proof.
  induction us as [|u us IH]; simpl; [done|]. unfold find_by_id in *. cbn [js_find].
  destruct (String.eqb_spec (u_id u) id) as [<-|Hne].
  - by rewrite lookup_insert_eq.
  - by rewrite lookup_insert_ne.
Qed.

Lemma a_registered_find us w e :
  a_registered e (mkAState (registry us) w) = bool_decide (is_Some (find_by_email e us)).
Proof.
  unfold a_registered. cbn [as_registry]. rewrite registry_lookup.
  destruct (is_primitive e) eqn:He; [|by rewrite find_by_email_object].
  by destruct (find_by_email e us).
Qed.

(** ** What the handlers do to the maps *)

(** [users.push(newUser)] with an email no user has. *)
Lemma registry_app us u :
  find_by_email u.(u_email) us = None ->
  registry (us ++ [u]) =
  if is_primitive u.(u_email) then <[u.(u_email) := account_of u]> (registry us) else registry us.
Proof.
  intros Hn. apply map_eq. intros e.
  destruct (decide (e = u_email u)) as [->|Hne].
  - rewrite registry_lookup, find_by_email_app, Hn.
    destruct (is_primitive (u_email u)) eqn:Hp; [|by rewrite registry_lookup, Hp].
    by rewrite strict_eq_refl, lookup_insert_eq.
  - assert (registry (us ++ [u]) !! e = registry us !! e) as ->.
    { rewrite !registry_lookup, find_by_email_app.
      destruct (is_primitive e), (find_by_email e us); try done.
      destruct (strict_eq _ _) eqn:E; [|done]. by apply strict_eq_sound in E. }
    destruct (is_primitive _); [by rewrite lookup_insert_ne|done].
Qed.

Lemma watchsets_app us u :
  watchsets (us ++ [u]) =
  match watchsets us !! u.(u_id) with
  | Some _ => watchsets us
  | None => <[u.(u_id) := wl_set u]> (watchsets us)
  end.
Proof.
  apply map_eq. intros k. rewrite watchsets_lookup, find_by_id_app.
  destruct (watchsets us !! u_id u) as [w|] eqn:Hw; rewrite watchsets_lookup in Hw.
  - destruct (find_by_id k us) eqn:E; [by rewrite watchsets_lookup, E|].
    destruct (String.eqb_spec (u_id u) k) as [<-|]; [by rewrite E in Hw|].
    by rewrite watchsets_lookup, E.
  - destruct (String.eqb_spec (u_id u) k) as [<-|Hne].
    + apply fmap_None in Hw. by rewrite Hw, lookup_insert_eq.
    + rewrite lookup_insert_ne, watchsets_lookup by done. by destruct (find_by_id k us).
Qed.

(** [users[uIndex].watchlist = ...] keeps every account. *)
Lemma registry_insert_set us i u w :
  us !! i = Some u -> registry (<[i := set_watchlist u w]> us) = registry us.
Proof.
  revert i. induction us as [|v us IH]; intros [|i] Hl; simpl in *; try done.
  - by injection Hl as ->.
  - by rewrite IH.
Qed.

(** ... and changes the watchlist of the id [findIndex] found. *)
Lemma watchsets_insert_set id us i u w :
  findIndex_by_id id us = Z.of_nat i -> us !! i = Some u ->
  watchsets (<[i := set_watchlist u w]> us) = <[id := wl_set (set_watchlist u w)]> (watchsets us).
Proof.
  intros Hi Hl. pose proof (js_findIndex_lookup _ _ _ _ Hi Hl) as Hu. cbn beta in Hu.
  apply String.eqb_eq in Hu.
  apply map_eq. intros k. rewrite watchsets_lookup. unfold find_by_id.
  rewrite (js_find_insert _ _ _ u) by done.
  destruct (String.eqb_spec k id) as [->|Hne].
  - rewrite bool_decide_true by done. by rewrite lookup_insert_eq.
  - rewrite bool_decide_false.
    + by rewrite lookup_insert_ne, watchsets_lookup by congruence.
    + intros Hk. pose proof (js_findIndex_lookup _ _ _ _ Hk Hl) as Hk'.
      cbn beta in Hk'. apply String.eqb_eq in Hk'. congruence.
Qed.

(** ** The handlers refine the abstract operations *)

Section Refinement.
Context `{Hb : Bcrypt} `{Hj : Jwt}.

Lemma abs_read f us : readUsers f = Some us -> abs f = mkAState (registry us) (watchsets us).
Proof. unfold abs. by intros ->. Qed.

Lemma server_inv_readable f : server_inv f -> exists us, readUsers f = Some us.
Proof. unfold server_inv. destruct (readUsers f); naive_solver. Qed.

Lemma signup_abs secret f body env us :
  readUsers f = Some us ->
  abs (fst (signup secret f body env.(re_now) env.(re_salt))) = a_signup_request (abs f) body env.
Proof.
  intros Hr. rewrite (abs_read f us Hr). unfold a_signup_request. rewrite a_registered_find.
  unfold signup, signup_begin. rewrite Hr.
  destruct (truthy (get body "email")) eqn:He; cbn [negb orb andb].
  2: { simpl fst. unfold abs. rewrite Hr. by destruct (get body "password"). }
  destruct (find_by_email (get body "email") us) as [v|] eqn:Ef.
  { rewrite bool_decide_true by eauto. cbn [negb]. rewrite ?andb_false_r.
    destruct (negb (truthy (get body "password"))); cbn [fst]; rewrite (abs_read f us Hr);
    by destruct (get body "password"); rewrite ?andb_false_r. }
  rewrite bool_decide_false by (intros [? ?]; congruence).
  destruct (get body "password") as [| | b | n | pw | l | fs] eqn:Hp; cbn [truthy negb andb];
    try (cbn [fst]; by rewrite (abs_read f us Hr));
    try (cbn [fst signup_finish sp_password]; by rewrite (abs_read f us Hr));
    try (destruct (negb _); cbn [fst signup_finish sp_password]; by rewrite (abs_read f us Hr)).
  rewrite andb_true_r. destruct (String.eqb pw "") eqn:Hpw; cbn [negb fst].
  { by rewrite (abs_read f us Hr). }
  unfold signup_finish. cbn [sp_password sp_users sp_email sp_name]. 
  unfold abs, writeUsers. cbn [readUsers fst].
  rewrite registry_app, watchsets_app by done. done.
Qed.
Lemma watchlist_post_abs cfg f h body t :
  server_inv f ->
  abs (fst (watchlist_post cfg.(sc_secret) f h body t)) = a_watchlist_request cfg (abs f) h body t.
Proof.
  intros Hi. destruct (server_inv_readable f Hi) as [us Hr].
  pose proof Hi as Hi'. unfold server_inv in Hi'. rewrite Hr in Hi'. destruct Hi' as (Hw & _ & _).
  rewrite (abs_read f us Hr). unfold watchlist_post, a_watchlist_request.
  destruct (authMiddleware _ _ _) as [c|r]; [|by cbn [fst]; rewrite (abs_read f us Hr)].
  rewrite Hr.
  destruct (js_findIndex_spec (fun u => String.eqb u.(u_id) c.(cl_id)) us)
    as [[Hi1 Hf]|(i & u & Hi1 & Hl & Hf)]; fold (findIndex_by_id c.(cl_id) us) in Hi1; rewrite Hi1.
  - rewrite Z.eqb_refl. cbn [fst]. rewrite (abs_read f us Hr).
    destruct (_ && _); [|done]. unfold a_toggle. cbn [as_lists as_registry].
    rewrite watchsets_lookup. unfold find_by_id. by rewrite Hf.
  - rewrite (proj2 (Z.eqb_neq _ _)) by lia. rewrite Nat2Z.id, Hl.
    destruct (truthy (get body "movie")) eqn:Hm, (truthy (get (get body "movie") "id")) eqn:Hid;
      cbn [negb orb andb fst]; try by rewrite (abs_read f us Hr).
    pose proof (watchlists_ok_lookup us i u Hw Hl) as Ha.
    destruct (u_watchlist u) as [| | | | |wl|] eqn:Huw; try done. cbn [js_or truthy].
    unfold abs, writeUsers. cbn [readUsers fst].
    rewrite registry_insert_set, (watchsets_insert_set (cl_id c)) by done.
    unfold a_toggle. cbn [as_lists as_registry].
    rewrite watchsets_lookup, (findIndex_by_id_some _ _ i u) by done. cbn [fmap option_fmap option_map].
    unfold wl_set at 1 2. rewrite Huw. cbn [u_watchlist set_watchlist].
    by rewrite toggle_ids_of.
Qed.
(** One request: the file after it, seen through [abs], is [astep] of
    the file before it. *)
Lemma handle_abs cfg f rq env :
  server_inv f -> abs (fst (handle cfg f rq env)) = astep cfg (abs f) rq env.
Proof.
  intros Hi. destruct (server_inv_readable f Hi) as [us Hr].
  unfold handle, astep. destruct (rq_body rq) as [body|]; [|done].
  destruct (route_of _ _); try done.
  - by apply (signup_abs _ _ _ _ us).
  - by apply watchlist_post_abs.
Qed.

(** [login] reads the registry and nothing else of the file. *)
Lemma login_abs cfg f us body t :
  readUsers f = Some us ->
  login cfg.(sc_secret) f body t = a_login cfg (abs f).(as_registry) body t.
Proof.
  intros Hr. rewrite (abs_read f us Hr). unfold login, a_login. cbn [as_registry].
  rewrite Hr, registry_lookup.
  destruct (is_primitive (get body "email")) eqn:Hp; [|by rewrite find_by_email_object].
  destruct (find_by_email (get body "email") us) as [u|] eqn:Ef; [|done].
  unfold find_by_email in Ef. apply js_find_Some in Ef as [_ Heq].
  apply strict_eq_sound in Heq. cbn [fmap option_fmap option_map account_of ac_id ac_name ac_hash].
  unfold public_user. by rewrite Heq.
Qed.

(** An account, once registered, stays: signup only adds new emails. *)
Lemma astep_registry cfg s rq env e a :
  s.(as_registry) !! e = Some a -> (astep cfg s rq env).(as_registry) !! e = Some a.
Proof.
  intros He. unfold astep, a_signup_request, a_watchlist_request.
  destruct (rq_body rq) as [body|]; [|done]. destruct (route_of _ _); try done.
  - destruct (get body "password"); try done.
    destruct (truthy _ && truthy _ && negb _) eqn:Hg; [|done].
    apply andb_true_iff in Hg as [_ Hn]. unfold a_registered in Hn.
    unfold a_signup. cbn [as_registry].
    destruct (is_primitive _); [|done].
    rewrite lookup_insert_ne; [done|]. intros <-. by rewrite He in Hn.
  - destruct (authMiddleware _ _ _); [|done]. by destruct (_ && _).
Qed.

End Refinement.

Section Claims.
Context `{Hb : Bcrypt} `{Hj : Jwt}.

(** C2: The server refines the abstract account service: on a users
    file that satisfies [server_inv], after any sequence of requests
    handled one after the other, the accounts and watchlists the file
    holds (the registry by email and the sets of movie ids by user id)
    are exactly those [astep] computes request by request.  Only a signup
    with a new email and a watchlist [POST] with a valid token change
    them. *)
Theorem run_refines cfg f reqs :
  server_inv f -> abs (fst (run cfg f reqs)) = arun cfg (abs f) reqs.
Proof.
  revert f. induction reqs as [|[rq env] reqs IH]; intros f Hi; [done|].
  pose proof (handle_inv cfg f rq env Hi) as Hi1. pose proof (handle_abs cfg f rq env Hi) as Ha.
  cbn [run arun]. destruct (handle cfg f rq env) as [f1 r]. cbn [fst] in Hi1, Ha.
  specialize (IH f1 Hi1). destruct (run cfg f1 reqs) as [f2 rs]. cbn [fst] in IH |- *.
  by rewrite IH, Ha.
Qed.

(** The file after a non-empty sequence of requests. *)
Lemma run_cons cfg f rq env reqs :
  fst (run cfg f ((rq, env) :: reqs)) = fst (run cfg (fst (handle cfg f rq env)) reqs).
Proof. cbn [run]. destruct (handle cfg f rq env) as [f1 r]. cbn [fst]. by destruct (run cfg f1 reqs). Qed.

Lemma run_inv cfg f reqs : server_inv f -> server_inv (fst (run cfg f reqs)).
Proof.
  revert f. induction reqs as [|[rq env] reqs IH]; intros f Hi; [done|].
  rewrite run_cons. auto using handle_inv.
Qed.

Lemma run_registry cfg f reqs e a :
  server_inv f -> (abs f).(as_registry) !! e = Some a ->
  (abs (fst (run cfg f reqs))).(as_registry) !! e = Some a.
Proof.
  revert f. induction reqs as [|[rq env] reqs IH]; intros f Hi He; [done|].
  rewrite run_cons. apply IH; [by apply handle_inv|].
  rewrite handle_abs by done. by apply astep_registry.
Qed.

(** C7: A login that finds its account keeps working: once a user
    with the email is stored, every later sequence of requests leaves the
    answer of [/auth/login] for that email exactly as it was (the same
    token for the same password, the same rejection for another). *)
Theorem login_survives_run cfg f reqs body t us u :
  server_inv f -> readUsers f = Some us -> find_by_email (get body "email") us = Some u ->
  login cfg.(sc_secret) (fst (run cfg f reqs)) body t = login cfg.(sc_secret) f body t.
Proof.
  intros Hi Hr Hf.
  destruct (server_inv_readable _ (run_inv cfg f reqs Hi)) as [us' Hr'].
  rewrite (login_abs cfg _ us' body t Hr'), (login_abs cfg f us body t Hr).
  assert (Ha : (abs f).(as_registry) !! get body "email" = Some (account_of u)).
  { rewrite (abs_read f us Hr). cbn [as_registry]. rewrite registry_lookup, Hf.
    unfold find_by_email in Hf. apply js_find_Some in Hf as [_ Heq].
    rewrite strict_eq_sym in Heq. by rewrite (strict_eq_prim _ _ Heq). }
  unfold a_login. by rewrite (run_registry cfg f reqs _ _ Hi Ha), Ha.
Qed.
End Claims.

(** ** Witnesses *)

Definition ex_toggle : request :=
  mkReq POST "/api/watchlist" ex_alice_header (Some (JObj [("movie", JObj [("id", JNum 7)])])).

Lemma run_refines_witness :
  abs (fst (run ex_cfg (FileUsers [ex_alice_user])
                [(ex_post "/auth/signup" ex_bob, ex_env); (ex_toggle, ex_env)])) =
  arun ex_cfg (abs (FileUsers [ex_alice_user]))
       [(ex_post "/auth/signup" ex_bob, ex_env); (ex_toggle, ex_env)].
Proof. apply run_refines. vm_compute. auto. Defined.

Lemma login_survives_run_witness :
  login (sc_secret ex_cfg)
        (fst (run ex_cfg (FileUsers [ex_alice_user])
                  [(ex_post "/auth/signup" ex_bob, ex_env); (ex_toggle, ex_env)])) ex_alice ex_t0 =
  login (sc_secret ex_cfg) (FileUsers [ex_alice_user]) ex_alice ex_t0.
Proof.
  apply (login_survives_run ex_cfg _ _ _ _ [ex_alice_user] ex_alice_user);
    [vm_compute; auto | reflexivity | reflexivity].
Defined.

