(* ===== verification/System.v ===== *)
(** * System: the page and the server together

    The page of [src/client/app.js] talks to the server of
    [src/server/index.js] through [apiFetch]: a request built from the
    page's state ([auth_header], the bodies and URLs of its buttons) is
    handled by [handle], and the answer goes back into the page's
    handler ([toggleWatchlist_finish], [renderAccount]).  The theorems of
    this file follow such round trips: a search shows TMDb's results for
    exactly the text typed, a TMDb outage leaves the home page with empty
    rows and no message, a rejected token is dropped so that the next
    click on a watchlist button asks to log in, the account page without
    a valid token degrades to the login prompt of spec section 4.6, a
    new user can sign up and save a movie, and a stored user can log in
    and see their account page with their watchlist.  The login and signup
    buttons ([login_click], [signup_click]) and the account page
    ([account_page]) are page handlers parameterized by the server's
    answer to each request they send. *)

From S2P Require Import Prelude JsValue Http UserStore Crypto Auth Watchlist Proxy Client Pages Server.

(** The requests the page sends, as Express receives them; a request
    without a JSON body gets [{}] from [express.json()]. *)
Definition page_get (st : client_state) (path : string) : request :=
  mkReq GET path (auth_header st) (Some (JObj [])).

Definition page_post (st : client_state) (path : string) (body : jval) : request :=
  mkReq POST path (auth_header st) (Some body).

(** ** The page's handlers that talk to the server

    [answer] is what the server answers to a request, e.g.
    [fun rq => snd (handle cfg f rq env)]. *)

(** The login button (lines 74-86): the trimmed email and the password
    posted to [/auth/login], then [auth_click_finish] on the answer; on
    success the code then awaits [fetchAndRenderHome] (see [HomeRace]). *)
Definition login_click (st : client_state) (email_input password : string)
    (answer : request -> response) : client_state * option string :=
  auth_click_finish "Login failed" st
    (answer (page_post st "/auth/login" (login_body email_input password))).

(** The signup button (lines 101-114). *)
Definition signup_click (st : client_state) (name_input email_input password : string)
    (answer : request -> response) : client_state * option string :=
  auth_click_finish "Signup failed" st
    (answer (page_post st "/auth/signup" (signup_body name_input email_input password))).

(** [renderAccount] (lines 117-152): [/auth/me], and when the card is
    shown, [/api/watchlist] for the grid, each through [apiFetch] with the
    token the page has then. *)
Definition account_page (st : client_state) (answer : request -> response)
    : client_state * option account_view * option (list (string * string)) :=
  let '(st1, v) := renderAccount st (answer (page_get st "/auth/me")) in
  match v with
  | Some (AccountCard _ _) =>
      let r2 := answer (page_get st1 "/api/watchlist") in
      (match status_of r2 with Some s => apiFetch_after s st1 | None => st1 end, v, account_grid r2)
  | _ => (st1, v, None)
  end.

Section Roundtrips.
Context `{Hb : Bcrypt} `{Hj : Jwt} (cfg : server_config).

Lemma handle_post_signup f st body env :
  handle cfg f (page_post st "/auth/signup" body) env =
  signup cfg.(sc_secret) f body env.(re_now) env.(re_salt).
Proof. reflexivity. Qed.

Lemma handle_post_watchlist f st body env :
  handle cfg f (page_post st "/api/watchlist" body) env =
  watchlist_post cfg.(sc_secret) f (auth_header st) body env.(re_now).
Proof. reflexivity. Qed.

Lemma handle_post_login f st body env :
  handle cfg f (page_post st "/auth/login" body) env = (f, login cfg.(sc_secret) f body env.(re_now)).
Proof. reflexivity. Qed.

Lemma handle_get_me f st env :
  handle cfg f (page_get st "/auth/me") env = (f, me cfg.(sc_secret) f (auth_header st) env.(re_now)).
Proof. reflexivity. Qed.

Lemma handle_get_watchlist f st env :
  handle cfg f (page_get st "/api/watchlist") env =
  (f, watchlist_get cfg.(sc_secret) f (auth_header st) env.(re_now)).
Proof. reflexivity. Qed.

Lemma url_path_search q : url_path (search_url q) = "/api/search/movie".
Proof. reflexivity. Qed.

(** The answer of [POST /api/watchlist] when the middleware refuses the
    header. *)
Lemma handle_watchlist_post_rejected f st body env r :
  authMiddleware cfg.(sc_secret) (auth_header st) env.(re_now) = AuthFail r ->
  handle cfg f (page_post st "/api/watchlist" body) env = (f, r).
Proof. intros Ha. rewrite handle_post_watchlist. unfold watchlist_post. by rewrite Ha. Qed.

Lemma handle_me_rejected f st env r :
  authMiddleware cfg.(sc_secret) (auth_header st) env.(re_now) = AuthFail r ->
  handle cfg f (page_get st "/auth/me") env = (f, r).
Proof. intros Ha. unfold handle, me. simpl. by rewrite Ha. Qed.

(** The text typed in the search box reaches TMDb unchanged: the server
    answers [GET /api/search/movie?query=<encoded q>] with TMDb's answer to
    the search request whose parameters are the server's key and
    [query = q], whatever the characters of [q]. *)
Lemma search_reaches_tmdb f st q env :
  handle cfg f (page_get st (search_url q)) env =
  (f, proxy_respond (sc_upstream cfg (mkRequest (TMDB_BASE +:+ "/search/movie")
                                        [("api_key", JStr cfg.(sc_api_key)); ("query", JStr q)]))).
Proof.
  unfold handle. cbn [rq_body rq_url rq_method page_get]. rewrite url_path_search.
  change (route_of GET "/api/search/movie") with RSearch. cbv zeta.
  rewrite search_query_roundtrip. done.
Qed.

(** C33: When the server refuses the page's token on a watchlist click
    (expired, forged, or signed with another secret), the page drops the
    token, shows the server's error, and the next click on any watchlist
    button asks to log in and goes to [#login] without a request. *)
Theorem rejected_token_forces_login f st t movie movie' env r :
  st.(cs_token) = Some t -> t <> "" ->
  authMiddleware cfg.(sc_secret) (auth_header st) env.(re_now) = AuthFail r ->
  toggleWatchlist_start st movie = (st, TogglePost (auth_header st) (toggle_body movie)) /\
  let '(st2, alert) := toggleWatchlist_finish st
      (snd (handle cfg f (page_post st "/api/watchlist" (toggle_body movie)) env)) in
  st2.(cs_token) = None /\ (exists msg, alert = Some ("Failed: " +:+ msg)) /\
  toggleWatchlist_start st2 movie' = (mkClient "#login" None, ToggleNeedLogin).
Proof.
  intros Ht Hne Ha. apply truthy_str in Hne.
  split; [unfold toggleWatchlist_start; by rewrite Ht, Hne|].
  rewrite (handle_watchlist_post_rejected _ _ _ _ r) by done.
  destruct (authMiddleware_fail _ _ _ _ Ha) as [msg ->]. simpl.
  split_and!; [done|eauto|done].
Qed.

(** C34: The account page degrades to the login prompt whenever the
    server refuses the page's token, a missing token included, and the
    page is then left without a token. *)
Theorem account_prompt_without_valid_token f st env r :
  authMiddleware cfg.(sc_secret) (auth_header st) env.(re_now) = AuthFail r ->
  renderAccount st (snd (handle cfg f (page_get st "/auth/me") env)) =
  (mkClient st.(cs_hash) None, Some AccountPrompt).
Proof.
  intros Ha. rewrite (handle_me_rejected _ _ _ r) by done.
  destruct (authMiddleware_fail _ _ _ _ Ha) as [msg ->]. done.
Qed.
(** The four requests of [fetchAndRenderHome] reach the proxy routes. *)
Lemma handle_home_routes f st env :
  handle cfg f (page_get st "/api/configuration") env = (f, proxy_handle cfg.(sc_api_key) cfg.(sc_upstream) Configuration) /\
  handle cfg f (page_get st "/api/trending/all/day") env =
    (f, proxy_handle cfg.(sc_api_key) cfg.(sc_upstream) (Trending "all" "day")) /\
  handle cfg f (page_get st "/api/trending/movie/week") env =
    (f, proxy_handle cfg.(sc_api_key) cfg.(sc_upstream) (Trending "movie" "week")) /\
  handle cfg f (page_get st "/api/trending/tv/week") env =
    (f, proxy_handle cfg.(sc_api_key) cfg.(sc_upstream) (Trending "tv" "week")).
Proof. split_and!; reflexivity. Qed.

Lemma proxy_handle_outage e :
  (forall rq, exists m, cfg.(sc_upstream) rq = UpErr m) ->
  exists m, proxy_handle cfg.(sc_api_key) cfg.(sc_upstream) e =
            Respond 500 (JObj [("error", JStr "TMDb error"); ("details", JStr m)]).
Proof.
  intros Hup. destruct (Hup (request_of cfg.(sc_api_key) e)) as [m Hm].
  exists m. unfold proxy_handle. by rewrite Hm.
Qed.

(** C19: When TMDb fails every request, the server answers the home
    page's four requests with status 500 and a JSON error, which the page
    never checks: the configuration is kept, the banner is hidden, the
    three rows are empty, and "Failed to load movies." is never shown. *)
Theorem home_on_tmdb_outage f st env cfg0 shown :
  (forall rq, exists m, cfg.(sc_upstream) rq = UpErr m) ->
  fetchAndRenderHome cfg0 shown
    (snd (handle cfg f (page_get st "/api/configuration") env))
    (snd (handle cfg f (page_get st "/api/trending/all/day") env))
    (snd (handle cfg f (page_get st "/api/trending/movie/week") env))
    (snd (handle cfg f (page_get st "/api/trending/tv/week") env)) =
  Done (mkHome cfg0 BannerLoading false [("Trending Now", []); ("Popular Movies", []); ("Top TV", [])]).
Proof.
  intros Hup. destruct (handle_home_routes f st env) as (-> & -> & -> & ->).
  destruct (proxy_handle_outage Configuration Hup) as [m1 ->].
  destruct (proxy_handle_outage (Trending "all" "day") Hup) as [m2 ->].
  destruct (proxy_handle_outage (Trending "movie" "week") Hup) as [m3 ->].
  destruct (proxy_handle_outage (Trending "tv" "week") Hup) as [m4 ->].
  reflexivity.
Qed.
(** C32: A search from the page shows what TMDb found for exactly the
    text typed: when TMDb answers the search for [query = q] with a body
    whose [results] are items that are not [null], the page shows the row
    "Search results for "q"" with one poster per item. *)
Theorem search_shows_results f st q env pcfg base d ms :
  cfg.(sc_upstream) (mkRequest (TMDB_BASE +:+ "/search/movie")
                       [("api_key", JStr cfg.(sc_api_key)); ("query", JStr q)]) = UpOk d ->
  not_nullish d -> get d "results" = JArr ms -> Forall not_nullish ms ->
  secure_base pcfg = Done base ->
  searchMovies pcfg q (snd (handle cfg f (page_get st (search_url q)) env)) =
  SearchRow ("Search results for " +:+ dquote +:+ q +:+ dquote, poster_entry base <$> ms).
Proof.
  intros Hup [Hu Hn] Hr Hms Hbase. rewrite search_reaches_tmdb, Hup.
  unfold searchMovies. cbn [snd proxy_respond json_ok fetch_json].
  rewrite bind_Done, prop_defined, bind_Done, Hr by done.
  change (js_or (JArr ms) (JArr [])) with (JArr ms).
  by rewrite (renderRow_entries _ base).
Qed.

End Roundtrips.

(** The movie the watchlist button posts keeps a primitive id. *)
Lemma toggle_body_movie movie :
  truthy (get movie "id") = true -> is_primitive (get movie "id") = true ->
  truthy (get (toggle_body movie) "movie") = true /\
  get (get (toggle_body movie) "movie") "id" = get movie "id".
Proof.
  unfold toggle_body. destruct (get movie "id"); try done; intros _ _;
    destruct (js_or _ _), (get movie "poster_path"); done.
Qed.

Section Flow.
Context `{Hb : Bcrypt} `{!BcryptLaws} `{Hj : Jwt} `{!JwtLaws} (cfg : server_config).

(** The header [apiFetch] sends once a non-empty token is saved. *)
Lemma auth_header_saved h tok : tok <> "" -> auth_header (mkClient h (Some tok)) = bearer tok.
Proof. intros Ht. apply truthy_str in Ht. unfold auth_header. cbn [cs_token]. by rewrite Ht. Qed.

(** C12: A visitor who signs up from the page with a new email and then
    clicks a watchlist button is accepted: the page saves the token the
    server returned, posts the movie with it, shows "Watchlist updated
    (1 items)", and the file holds the new user with that one movie. *)
Theorem signup_then_toggle f us st name email pw movie env :
  readUsers f = Some us -> find_by_email (JStr (js_trim email)) us = None ->
  find_by_id (id_of_time env.(re_now)) us = None ->
  js_trim email <> "" -> pw <> "" ->
  truthy (get movie "id") = true -> is_primitive (get movie "id") = true ->
  let '(f1, r1) := handle cfg f (page_post st "/auth/signup" (signup_body name email pw)) env in
  let st1 := fst (auth_click_finish "Signup failed" st r1) in
  toggleWatchlist_start st1 movie = (st1, TogglePost (auth_header st1) (toggle_body movie)) /\
  let '(f2, r2) := handle cfg f1 (page_post st1 "/api/watchlist" (toggle_body movie)) env in
  snd (toggleWatchlist_finish st1 r2) = Some "Watchlist updated (1 items)" /\
  exists us2 u, readUsers f2 = Some us2 /\ find_by_id (id_of_time env.(re_now)) us2 = Some u /\
                u.(u_watchlist) = JArr [get (toggle_body movie) "movie"].
Proof.
  intros Hr He Hid Hem Hpw Ht Hp. rewrite handle_post_signup.
  rewrite (signup_new _ _ _ _ _ us pw); [|by apply truthy_str|done..].
  set (tok := jwt_sign _ _ _ _ _). set (nu := new_user _ _ _).
  cbn beta iota zeta.
  change (fst (auth_click_finish "Signup failed" st (json_ok (JObj [("token", JStr tok); ("user", public_user nu)]))))
    with (mkClient "#movies" (Some tok)).
  assert (Htok : truthy (JStr tok) = true) by (apply truthy_str, jwt_sign_nonempty).
  assert (Hh : auth_header (mkClient "#movies" (Some tok)) = bearer tok)
    by (apply auth_header_saved, jwt_sign_nonempty).
  split; [unfold toggleWatchlist_start; cbn [cs_token]; by rewrite Htok|].
  rewrite handle_post_watchlist, Hh. destruct (toggle_body_movie movie Ht Hp) as [Hm Hmid].
  rewrite (watchlist_post_found _ _ _ _ _
             (mkClaims (id_of_time (re_now env)) (get (signup_body name email pw) "email")
                (now_seconds (re_now env)) (now_seconds (re_now env) + seven_days))
             (us ++ [nu]) (length us) nu); [| |done| | |done|].
  - cbn beta iota zeta. split; [reflexivity|].
    rewrite insert_app_r_alt, Nat.sub_diag by lia. eexists _, _. split; [reflexivity|].
    cbn [insert list_insert]. rewrite find_by_id_app, Hid. simpl. by rewrite String.eqb_refl.
  - unfold tok. rewrite authMiddleware_issued, bool_decide_true; [reflexivity|]. unfold seven_days. lia.
  - apply findIndex_by_id_app_new; [done|]. apply String.eqb_refl.
  - by apply list_lookup_middle.
  - by rewrite Hmid.
Qed.
(** The account page once [/auth/me] has shown the card. *)
Lemma account_page_card st answer st1 n e :
  renderAccount st (answer (page_get st "/auth/me")) = (st1, Some (AccountCard n e)) ->
  account_page st answer =
  (let r2 := answer (page_get st1 "/api/watchlist") in
   (match status_of r2 with Some s => apiFetch_after s st1 | None => st1 end,
    Some (AccountCard n e), account_grid r2)).
Proof. intros Hc. unfold account_page. by rewrite Hc. Qed.

(** C13: A stored user logs in from the login page and opens the account
    page.  The page posts the trimmed email, saves the token the server
    returns and goes to [#movies]; within the token's seven days the
    account page then shows the user's name and email and the posters of
    the stored watchlist, and the page keeps its token. *)
Theorem login_then_account f us u st email pw salt wl env env' :
  readUsers f = Some us -> find_by_email (JStr (js_trim email)) us = Some u ->
  find_by_id u.(u_id) us = Some u -> bcrypt_salt_ok salt ->
  u.(u_passwordHash) = bcrypt_hash salt pw -> u.(u_watchlist) = JArr wl ->
  (now_seconds env'.(re_now) < now_seconds env.(re_now) + seven_days)%Z ->
  let tok := jwt_sign cfg.(sc_secret) u.(u_id) u.(u_email) (now_seconds env.(re_now)) seven_days in
  login_click st email pw (fun rq => snd (handle cfg f rq env)) = (mkClient "#movies" (Some tok), None) /\
  account_page (mkClient "#movies" (Some tok)) (fun rq => snd (handle cfg f rq env')) =
  (mkClient "#movies" (Some tok),
   Some (AccountCard (js_to_string (js_or u.(u_name) (JStr "(not set)"))) (js_to_string u.(u_email))),
   Some (grid_entries wl)).
Proof.
  intros Hr Hf Hid Hs Hh Hw Ht tok. split.
  - unfold login_click. rewrite handle_post_login. cbn [snd].
    unfold login. change (get (login_body email pw) "email") with (JStr (js_trim email)).
    change (get (login_body email pw) "password") with (JStr pw). rewrite Hr, Hf, Hh.
    rewrite bcrypt_compare_hash, bool_decide_true by done. reflexivity.
  - rewrite (account_page_card _ _ (mkClient "#movies" (Some tok))
               (js_to_string (js_or u.(u_name) (JStr "(not set)"))) (js_to_string u.(u_email))).
    + cbv zeta. rewrite handle_get_watchlist, auth_header_saved by apply jwt_sign_nonempty.
      cbn [snd]. unfold watchlist_get, tok. rewrite authMiddleware_issued, bool_decide_true by done.
      cbn [cl_id]. rewrite Hr, Hid, Hw. reflexivity.
    + rewrite handle_get_me, auth_header_saved by apply jwt_sign_nonempty.
      cbn [snd]. unfold me, tok. rewrite authMiddleware_issued, bool_decide_true by done.
      cbn [cl_id]. rewrite Hr, Hid. reflexivity.
Qed.
End Flow.

(** ** Witnesses *)

Definition ex_page (hash : string) (tok : option string) : client_state := mkClient hash tok.

Lemma rejected_token_forces_login_witness :
  toggleWatchlist_start (ex_page "#movies" (Some "forged")) ex_movie42 =
    (ex_page "#movies" (Some "forged"),
     TogglePost (auth_header (ex_page "#movies" (Some "forged"))) (toggle_body ex_movie42)) /\
  let '(st2, alert) := toggleWatchlist_finish (ex_page "#movies" (Some "forged"))
      (snd (handle ex_cfg ex_store1
              (page_post (ex_page "#movies" (Some "forged")) "/api/watchlist" (toggle_body ex_movie42))
              ex_env)) in
  st2.(cs_token) = None /\ (exists msg, alert = Some ("Failed: " +:+ msg)) /\
  toggleWatchlist_start st2 ex_movie42 = (mkClient "#login" None, ToggleNeedLogin).
Proof.
  apply (rejected_token_forces_login ex_cfg ex_store1 _ "forged" _ _ ex_env
           (json_error 401 "Invalid token")); [reflexivity | discriminate | vm_compute; reflexivity].
Defined.

Lemma account_prompt_without_valid_token_witness :
  renderAccount (ex_page "#account" None)
    (snd (handle ex_cfg ex_store1 (page_get (ex_page "#account" None) "/auth/me") ex_env)) =
  (mkClient (cs_hash (ex_page "#account" None)) None, Some AccountPrompt).
Proof.
  apply (account_prompt_without_valid_token ex_cfg ex_store1 (ex_page "#account" None) ex_env
           (json_error 401 "Missing auth token")); reflexivity.
Defined.

Lemma signup_then_toggle_witness :
  let '(f1, r1) := handle ex_cfg (FileUsers [])
      (page_post (ex_page "#signup" None) "/auth/signup" (signup_body "Ann" " a@x.com " "p")) ex_env in
  let st1 := fst (auth_click_finish "Signup failed" (ex_page "#signup" None) r1) in
  toggleWatchlist_start st1 ex_movie42 = (st1, TogglePost (auth_header st1) (toggle_body ex_movie42)) /\
  let '(f2, r2) := handle ex_cfg f1 (page_post st1 "/api/watchlist" (toggle_body ex_movie42)) ex_env in
  snd (toggleWatchlist_finish st1 r2) = Some "Watchlist updated (1 items)" /\
  exists us2 u, readUsers f2 = Some us2 /\ find_by_id (id_of_time ex_env.(re_now)) us2 = Some u /\
                u.(u_watchlist) = JArr [get (toggle_body ex_movie42) "movie"].
Proof.
  apply (signup_then_toggle ex_cfg (FileUsers []) []); vm_compute; try reflexivity; discriminate.
Defined.

Lemma home_on_tmdb_outage_witness :
  fetchAndRenderHome default_tmdbConfig true
    (snd (handle ex_cfg ex_store1 (page_get (ex_page "#movies" None) "/api/configuration") ex_env))
    (snd (handle ex_cfg ex_store1 (page_get (ex_page "#movies" None) "/api/trending/all/day") ex_env))
    (snd (handle ex_cfg ex_store1 (page_get (ex_page "#movies" None) "/api/trending/movie/week") ex_env))
    (snd (handle ex_cfg ex_store1 (page_get (ex_page "#movies" None) "/api/trending/tv/week") ex_env)) =
  Done (mkHome default_tmdbConfig BannerLoading false
          [("Trending Now", []); ("Popular Movies", []); ("Top TV", [])]).
Proof. apply home_on_tmdb_outage. intros rq. by eexists. Defined.

Definition ex_search_cfg : server_config :=
  mkConfig ex_secret "K" (fun _ => UpOk (JObj [("results", JArr [ex_movie])])) [].

Lemma search_shows_results_witness :
  searchMovies default_tmdbConfig "fight club"
    (snd (handle ex_search_cfg ex_store1 (page_get (ex_page "#movies" None) (search_url "fight club")) ex_env)) =
  SearchRow ("Search results for " +:+ dquote +:+ "fight club" +:+ dquote, poster_entry ex_base <$> [ex_movie]).
Proof.
  apply (search_shows_results ex_search_cfg ex_store1 _ "fight club" ex_env default_tmdbConfig ex_base
           (JObj [("results", JArr [ex_movie])]) [ex_movie]);
    try reflexivity; try (split; discriminate); repeat constructor; discriminate.
Defined.

Definition ex_alice_saved : user := set_watchlist ex_alice_user (JArr [ex_movie42]).

Lemma login_then_account_witness :
  let tok := jwt_sign (sc_secret ex_cfg) (u_id ex_alice_saved) (u_email ex_alice_saved)
                      (now_seconds (re_now ex_env)) seven_days in
  login_click (ex_page "#login" None) " a@x.com " "p"
    (fun rq => snd (handle ex_cfg (FileUsers [ex_alice_saved]) rq ex_env)) =
    (mkClient "#movies" (Some tok), None) /\
  account_page (mkClient "#movies" (Some tok))
    (fun rq => snd (handle ex_cfg (FileUsers [ex_alice_saved]) rq (mkEnv (ex_t0 + 3600000) ex_salt))) =
  (mkClient "#movies" (Some tok),
   Some (AccountCard (js_to_string (js_or (u_name ex_alice_saved) (JStr "(not set)")))
                     (js_to_string (u_email ex_alice_saved))),
   Some (grid_entries [ex_movie42])).
Proof.
  apply (login_then_account ex_cfg (FileUsers [ex_alice_saved]) [ex_alice_saved] ex_alice_saved
           (ex_page "#login" None) " a@x.com " "p" ex_salt [ex_movie42] ex_env
           (mkEnv (ex_t0 + 3600000) ex_salt)); vm_compute; try reflexivity; lia.
Defined.
